(** * mkt_tp_final: staging and warehouse builders

    A shallow embedding of [script/desnormalizar.py] (raw files to staging,
    plus its own small warehouse builder) and [script/tablas.py] (staging to
    six dimensions and six facts), and the properties of the two scripts
    stated in the specification.

    Layout:
    - [Py]: Python exceptions and results;
    - [Pandas]: the fragment of pandas the two scripts call, over frames
      that are a list of column labels and a list of rows;
    - [Sys]: the directories, the two writers that can fail and the
      printed lines, with the state-and-exception monad in which the
      scripts' reads, writes and prints are sequenced;
    - [Tablas]: [tablas.py];
    - [Str]: the string methods [desnormalizar.py] calls;
    - [Desnormalizar]: [desnormalizar.py];
    - the specification's notions as predicates, then the theorems, one
      block per property. *)

From Stdlib Require Import ZArith Lia Ascii String.
From stdpp Require Import gmap strings list sorting.

Local Open Scope string_scope.
Local Open Scope Z_scope.
Local Open Scope list_scope.
Local Open Scope stdpp_scope.

(* ===================================================================== *)
(** * Python results and exceptions *)
(* ===================================================================== *)

Module Py.

(** The exceptions the modelled calls raise. *)
Inductive exn :=
| KeyError (what : string)
| ValueError (what : string)
| AttributeError (what : string)
| IOError (what : string).

Inductive result (A : Type) :=
| Ok (a : A)
| Raise (e : exn).
Arguments Ok {A} a.
Arguments Raise {A} e.

#[global] Instance result_ret : MRet result := λ A a, Ok a.
#[global] Instance result_bind : MBind result := λ A B k r,
  match r with
  | Ok a => k a
  | Raise e => Raise e
  end.

Definition is_ok {A} (r : result A) : bool :=
  match r with Ok _ => true | Raise _ => false end.

End Py.
Export Py.

(* ===================================================================== *)
(** * The pandas fragment *)
(* ===================================================================== *)

Module Pandas.

(** A cell.  pandas' NaN, None and NaT are all "null" to [drop_duplicates],
    [dropna], [merge] and [notna]; they are one constructor here.  A
    timestamp is its number of nanoseconds since the epoch. *)
Inductive value :=
| VNull
| VNum (n : Z)
| VStr (s : string)
| VTime (t : Z).

#[global] Instance value_eq_dec : EqDecision value.
Proof. solve_decision. Defined.

Abbreviation row := (list value).

(** A frame: column labels, and rows aligned with them.  The index is the
    row position (every frame of the scripts is [reset_index(drop=True)]
    before it is used by position). *)
Record DataFrame := mkDF { columns : list string; rows : list row }.

#[global] Instance DataFrame_eq_dec : EqDecision DataFrame.
Proof. solve_decision. Defined.

Definition len (df : DataFrame) : nat := length (rows df).

(** Every row has one cell per column. *)
Definition aligned (df : DataFrame) : Prop :=
  Forall (λ r, length r = length (columns df)) (rows df).

(** [df.empty]: an axis of length 0. *)
Definition empty (df : DataFrame) : bool :=
  match columns df, rows df with
  | [], _ | _, [] => true
  | _, _ => false
  end.

(** [c in df.columns] *)
Definition has_col (df : DataFrame) (c : string) : bool :=
  bool_decide (c ∈ columns df).

Fixpoint index_of (c : string) (cols : list string) : option nat :=
  match cols with
  | [] => None
  | c' :: cols' => if decide (c' = c) then Some 0%nat else S <$> index_of c cols'
  end.

(** The cell of row [r] under label [c] (null when the label is absent). *)
Definition cell (cols : list string) (c : string) (r : row) : value :=
  match index_of c cols with
  | Some i => default VNull (r !! i)
  | None => VNull
  end.

(** [df[c]] as a list of cells *)
Definition get_col (df : DataFrame) (c : string) : list value :=
  cell (columns df) c <$> rows df.

(** [df[c] = f(row)]: overwrite in place when [c] exists, otherwise append
    as the last column. *)
Definition assign (df : DataFrame) (c : string) (f : row → value) : DataFrame :=
  match index_of c (columns df) with
  | Some i => mkDF (columns df) ((λ r, <[i := f r]> r) <$> rows df)
  | None => mkDF (columns df ++ [c]) ((λ r, r ++ [f r]) <$> rows df)
  end.

(** [df[c] = vals] for a Series or range aligned with the rows. *)
Definition assign_col (df : DataFrame) (c : string) (vals : list value) : DataFrame :=
  match index_of c (columns df) with
  | Some i => mkDF (columns df) (zip_with (λ r v, <[i := v]> r) (rows df) vals)
  | None => mkDF (columns df ++ [c]) (zip_with (λ r v, r ++ [v]) (rows df) vals)
  end.

(** [df[c] = f(row)] for an [f] that can raise. *)
Definition assign_checked (df : DataFrame) (c : string) (f : row → result value)
  : result DataFrame :=
  vals ← mapM f (rows df);
  Ok (assign_col df c vals).

(** [df.insert(0, c, vals)]: raises [ValueError] when [c] is already a
    column ([allow_duplicates] is left at its default). *)
Definition insert0 (df : DataFrame) (c : string) (vals : list value)
  : result DataFrame :=
  if has_col df c then Raise (ValueError ("cannot insert " +:+ c +:+ ", already exists"))
  else Ok (mkDF (c :: columns df) (zip_with cons vals (rows df))).

(** [range(1, n+1)] as cells *)
Definition range1 (n : nat) : list value :=
  (λ i : nat, VNum (Z.of_nat (S i))) <$> seq 0 n.

(** [df.rename(columns={old: new})].  When [new] is already a label of
    the frame, two columns carry it afterwards, as in pandas. *)
Definition rename (df : DataFrame) (old new : string) : DataFrame :=
  mkDF ((λ c, if decide (c = old) then new else c) <$> columns df) (rows df).

(** [df[[c1, ..., cn]]]: [KeyError] on the first missing label.  This is
    the selection on a frame whose labels are distinct, which is what a
    frame read from a file is: each listed label gives one column.  On a
    frame with a repeated label pandas gives every column that carries a
    listed label; the properties that depend on it ask for distinct
    labels. *)
Fixpoint missing_col (df : DataFrame) (cs : list string) : option string :=
  match cs with
  | [] => None
  | c :: cs' => if has_col df c then missing_col df cs' else Some c
  end.

Definition project (cols : list string) (cs : list string) (r : row) : row :=
  (λ c, cell cols c r) <$> cs.

Definition select (df : DataFrame) (cs : list string) : result DataFrame :=
  match missing_col df cs with
  | Some c => Raise (KeyError c)
  | None => Ok (mkDF cs (project (columns df) cs <$> rows df))
  end.

(** [df.drop(columns=cs)] for labels that are all present. *)
Definition drop_cols (df : DataFrame) (cs : list string) : DataFrame :=
  let keep := filter (λ c, c ∉ cs) (columns df) in
  mkDF keep (project (columns df) keep <$> rows df).

(** [drop_duplicates] keeps the first row of every group ([keep='first']):
    a row is kept unless its key was seen on an earlier row. *)
Fixpoint keep_first {A K} `{EqDecision K} (key : A → K) (seen : list K)
    (l : list A) : list A :=
  match l with
  | [] => []
  | r :: l' =>
      if decide (key r ∈ seen) then keep_first key seen l'
      else r :: keep_first key (key r :: seen) l'
  end.

(** [df.drop_duplicates().reset_index(drop=True)] *)
Definition drop_duplicates (df : DataFrame) : DataFrame :=
  mkDF (columns df) (keep_first id [] (rows df)).

(** [df.drop_duplicates(subset=[c]).reset_index(drop=True)] *)
Definition drop_duplicates_subset (df : DataFrame) (c : string) : result DataFrame :=
  if has_col df c
  then Ok (mkDF (columns df) (keep_first (cell (columns df) c) [] (rows df)))
  else Raise (KeyError c).

(** ** Joins *)

Inductive how := HowLeft | HowInner.

(** One left row against the right rows: its matches in right order, and
    under [how='left'] the row itself padded with nulls when it has none.
    Null keys match null keys, as in pandas. *)
Definition join_row (h : how) (lkey : row → value) (rkey : row → value)
    (rkeep : row → row) (nr : nat) (rrows : list row) (lr : row) : list row :=
  match filter (λ rr, rkey rr = lkey lr) rrows with
  | [] => match h with
          | HowLeft => [lr ++ replicate nr VNull]
          | HowInner => []
          end
  | ms => (λ rr, lr ++ rkeep rr) <$> ms
  end.

Definition join_rows (h : how) (lkey rkey : row → value) (rkeep : row → row)
    (nr : nat) (lrows rrows : list row) : list row :=
  lrows ≫= join_row h lkey rkey rkeep nr rrows.

(** Labels of one side after the suffix rule: a label that also occurs on
    the other side (and is not the shared join key) gets the suffix. *)
Definition suffixed (other : list string) (sfx : string) (cs : list string)
  : list string :=
  (λ c, if decide (c ∈ other) then c +:+ sfx else c) <$> cs.

(** [l.merge(r, on=key, how=h, suffixes=(sx, sy))].  Cells carry no
    dtype, and keys are matched as values; pandas also refuses to join a
    column of text with a column of numbers ([ValueError]), so it returns
    in fewer cases than this function, and with the same frame when it
    does.  The properties of the joins are stated of a merge that
    returns. *)
Definition merge (l r : DataFrame) (key : string) (h : how) (sx sy : string)
  : result DataFrame :=
  if negb (has_col l key) then Raise (KeyError key)
  else if negb (has_col r key) then Raise (KeyError key)
  else
    let rk := filter (λ c, c ≠ key) (columns r) in
    Ok (mkDF (suffixed rk sx (columns l) ++ suffixed (columns l) sy rk)
             (join_rows h (cell (columns l) key) (cell (columns r) key)
                        (project (columns r) rk) (length rk) (rows l) (rows r))).

(** [l.merge(r, left_on=keys, right_on=c, how=h)] with [keys] a Series
    aligned with [l]: the key values come first under the label [key_0],
    and the right key column is kept. *)
Definition merge_left_on (l : DataFrame) (keys : list value) (r : DataFrame)
    (c : string) (h : how) : result DataFrame :=
  if negb (has_col r c) then Raise (KeyError c)
  else
    Ok (mkDF ("key_0" :: suffixed (columns r) "_x" (columns l)
                ++ suffixed (columns l) "_y" (columns r))
             (join_rows h (λ kr, default VNull (head kr)) (cell (columns r) c)
                        id (length (columns r))
                        (zip_with cons keys (rows l)) (rows r))).

(** ** Dates *)

Definition ns_per_day : Z := 86400 * 1000000000.

(** Days since the epoch to (year, month, day) in the proleptic Gregorian
    calendar. *)
Definition civil_from_days (days : Z) : Z * Z * Z :=
  let z := days + 719468 in
  let era := z `div` 146097 in
  let doe := z - era * 146097 in
  let yoe := (doe - doe `div` 1460 + doe `div` 36524 - doe `div` 146096) `div` 365 in
  let doy := doe - (365 * yoe + yoe `div` 4 - yoe `div` 100) in
  let mp := (5 * doy + 2) `div` 153 in
  let d := doy - (153 * mp + 2) `div` 5 + 1 in
  let m := if decide (mp < 10) then mp + 3 else mp - 9 in
  let y := yoe + era * 400 + (if decide (m ≤ 2) then 1 else 0) in
  (y, m, d).

Definition days_of (t : Z) : Z := t `div` ns_per_day.

(** [.dt.normalize()] on one cell *)
Definition normalize (v : value) : value :=
  match v with
  | VTime t => VTime (days_of t * ns_per_day)
  | _ => VNull
  end.

(** [.dt.year], [.dt.month], [.dt.day], [.dt.weekday] (Monday is 0) *)
Definition dt_year (v : value) : value :=
  match v with VTime t => VNum (civil_from_days (days_of t)).1.1 | _ => VNull end.
Definition dt_month (v : value) : value :=
  match v with VTime t => VNum (civil_from_days (days_of t)).1.2 | _ => VNull end.
Definition dt_day (v : value) : value :=
  match v with VTime t => VNum (civil_from_days (days_of t)).2 | _ => VNull end.
Definition dt_weekday (v : value) : value :=
  match v with VTime t => VNum ((days_of t + 3) `mod` 7) | _ => VNull end.

(** [.dt.strftime('%Y%m%d').astype(int)] on one cell: the cast of a null
    raises. *)
Definition strftime_Ymd_int (v : value) : result value :=
  match v with
  | VTime t =>
      let '(y, m, d) := civil_from_days (days_of t) in
      Ok (VNum (y * 10000 + m * 100 + d))
  | _ => Raise (ValueError "cannot convert float NaN to integer")
  end.

(** [s.dropna()] and [s.unique()] (first occurrences, in order) *)
Definition dropna (s : list value) : list value := filter (λ v, v ≠ VNull) s.
Definition unique (s : list value) : list value := keep_first id [] s.

(** [s.min()] and [s.max()] of a timestamp Series: nulls are skipped, and
    the result is null when nothing is left. *)
Definition times (s : list value) : list Z :=
  s ≫= λ v, match v with VTime t => [t] | _ => [] end.
Definition series_min (s : list value) : value :=
  match times s with
  | [] => VNull
  | t :: ts => VTime (foldr Z.min t ts)
  end.
Definition series_max (s : list value) : value :=
  match times s with
  | [] => VNull
  | t :: ts => VTime (foldr Z.max t ts)
  end.

(** [pd.date_range(a, b, freq='D')] *)
Definition date_range (a b : Z) : list value :=
  (λ i, VTime (a + i * ns_per_day)) <$> seqZ 0 ((b - a) `div` ns_per_day + 1).

(** Ascending order of cells with nulls last ([na_position='last']).
    Cells of different kinds, which pandas refuses to compare, are ordered
    by kind; the scripts only sort timestamp columns. *)
Definition value_leb (a b : value) : bool :=
  match a, b with
  | _, VNull => true
  | VNull, _ => false
  | VNum x, VNum y => bool_decide (x ≤ y)
  | VNum _, _ => true
  | VStr _, VNum _ => false
  | VStr x, VStr y => bool_decide (String.leb x y)
  | VStr _, VTime _ => true
  | VTime x, VTime y => bool_decide (x ≤ y)
  | VTime _, _ => false
  end.

(** [df.sort_values(c).reset_index(drop=True)] *)
Definition sort_values (df : DataFrame) (c : string) : result DataFrame :=
  if has_col df c
  then Ok (mkDF (columns df)
             (merge_sort (λ r1 r2, value_leb (cell (columns df) c r1)
                                             (cell (columns df) c r2))
                         (rows df)))
  else Raise (KeyError c).

Section Parsing.
(** How pandas reads one string as a timestamp is left open. *)
Context (parse_datetime : string → option Z).

(** [pd.to_datetime(s, errors='coerce')] on one cell: what does not
    parse becomes null; an integer is a number of nanoseconds.  pandas
    reads a column with one format for all its cells; [tablas.py] is
    modelled with this reading of each cell, and the properties of its
    dates are relative to the cells so read.  The staging loop of
    [desnormalizar.py], where the call is under [try], takes the reading
    of a whole column as a parameter instead. *)
Definition to_datetime_coerce (v : value) : value :=
  match v with
  | VNull => VNull
  | VNum n => VTime n
  | VStr s => from_option VTime VNull (parse_datetime s)
  | VTime t => VTime t
  end.

(** [pd.to_datetime(s)] on one cell: what does not parse raises. *)
Definition to_datetime (v : value) : result value :=
  match v with
  | VNull => Ok VNull
  | VNum n => Ok (VTime n)
  | VStr s =>
      match parse_datetime s with
      | Some t => Ok (VTime t)
      | None => Raise (ValueError ("Unknown datetime string format: " +:+ s))
      end
  | VTime t => Ok (VTime t)
  end.
End Parsing.

End Pandas.
Export Pandas.

(* ===================================================================== *)
(** * Files, prints and the script monad *)
(* ===================================================================== *)

Module Sys.

Inductive stream := Stdout | Stderr.

(** What a run of a script can see and change.  A directory maps a file
    name to the frame stored in it; [RAW_DIR] is kept as a listing, in the
    order [glob] yields it, and a raw file that cannot be parsed holds
    [None].  [parquet_ok] and [csv_ok] say whether [to_parquet] and
    [to_csv] succeed on a target (a missing engine, a full disk).
    [printed] collects the lines printed, oldest first; they keep their
    level tag and table name, while paths, row counts and exception texts
    are left out. *)
Record World := mkWorld {
  raw_dir : list (string * option DataFrame);
  staging_dir : gmap string DataFrame;
  dwh_dir : gmap string DataFrame;
  parquet_ok : string → bool;
  csv_ok : string → bool;
  printed : list (stream * string)
}.

Definition M (A : Type) : Type := World → result A * World.

#[global] Instance M_ret : MRet M := λ A a w, (Ok a, w).
#[global] Instance M_bind : MBind M := λ A B k m w,
  match m w with
  | (Ok a, w') => k a w'
  | (Raise e, w') => (Raise e, w')
  end.

Definition lift {A} (r : result A) : M A := λ w, (r, w).
Definition raise {A} (e : exn) : M A := lift (Raise e).

(** [try: body / except Exception as e: handler(e)] *)
Definition try_except {A} (body : M A) (handler : exn → M A) : M A := λ w,
  match body w with
  | (Ok a, w') => (Ok a, w')
  | (Raise e, w') => handler e w'
  end.

Definition print (s : stream) (line : string) : M unit := λ w,
  (Ok (), mkWorld (raw_dir w) (staging_dir w) (dwh_dir w) (parquet_ok w)
                  (csv_ok w) (printed w ++ [(s, line)])).

Inductive dir := STAGING_DIR | DWH_DIR.

Definition store (d : dir) (file : string) (df : DataFrame) (w : World) : World :=
  match d with
  | STAGING_DIR =>
      mkWorld (raw_dir w) (<[file := df]> (staging_dir w)) (dwh_dir w)
              (parquet_ok w) (csv_ok w) (printed w)
  | DWH_DIR =>
      mkWorld (raw_dir w) (staging_dir w) (<[file := df]> (dwh_dir w))
              (parquet_ok w) (csv_ok w) (printed w)
  end.

(** [df.to_parquet(d / file, index=False)] *)
Definition to_parquet (d : dir) (file : string) (df : DataFrame) : M unit := λ w,
  if parquet_ok w file then (Ok (), store d file df w)
  else (Raise (IOError ("to_parquet " +:+ file)), w).

(** [df.to_csv(d / file, index=False, encoding='utf-8')] *)
Definition to_csv (d : dir) (file : string) (df : DataFrame) : M unit := λ w,
  if csv_ok w file then (Ok (), store d file df w)
  else (Raise (IOError ("to_csv " +:+ file)), w).

(** [df is None or df.empty] *)
Definition none_or_empty (df : option DataFrame) : bool :=
  match df with
  | None => true
  | Some d => empty d
  end.

End Sys.
Export Sys.

(* ===================================================================== *)
(** * tablas.py *)
(* ===================================================================== *)

Module Tablas.

(** [read_staging(name)]: the parquet file, else the csv file, else a
    warning and [None]. *)
Definition read_staging (name : string) : M (option DataFrame) := λ w,
  match staging_dir w !! (name +:+ ".parquet") with
  | Some df => (Ok (Some df), w)
  | None =>
      match staging_dir w !! (name +:+ ".csv") with
      | Some df => (Ok (Some df), w)
      | None =>
          (print Stderr ("[warn] staging " +:+ name +:+ " no encontrado");;
           mret None) w
      end
  end.

(** [write_table(df, name)] *)
Definition write_table (df : option DataFrame) (name : string) : M unit :=
  match df with
  | Some d =>
      if empty d then print Stdout ("[info] tabla " +:+ name +:+ " vacia, no se guarda.")
      else
        try_except
          (to_parquet DWH_DIR (name +:+ ".parquet") d;;
           print Stdout ("[ok] guardado " +:+ name +:+ ".parquet"))
          (λ e,
             try_except
               (to_csv DWH_DIR (name +:+ ".csv") d;;
                print Stdout ("[ok] guardado " +:+ name +:+ ".csv (csv fallback)"))
               (λ ex, print Stderr ("[error] no se pudo guardar " +:+ name)))
  | None => print Stdout ("[info] tabla " +:+ name +:+ " vacia, no se guarda.")
  end.

(** The dictionary [dims]: [build_dimensions] sets each of its six keys to
    a frame or to [None], and [build_facts] only asks
    [dims.get(k) is not None] before reading [dims[k]]. *)
Record Dims := mkDims {
  customers : option DataFrame;
  products : option DataFrame;
  stores : option DataFrame;
  dates : option DataFrame;
  address : option DataFrame;
  product_category : option DataFrame
}.

Section Tablas.
Context (parse_datetime : string → option Z).
(** The elementwise [*] of two cells ([f['quantity'] * f['unit_price']]). *)
Context (cell_mul : value → value → value).

Definition _ensure_datetime (df : DataFrame) (col : string) : DataFrame :=
  if has_col df col
  then assign df col (λ r, to_datetime_coerce parse_datetime (cell (columns df) col r))
  else df.

(** The step every dimension block repeats:
    [if key in c.columns: c = c.drop_duplicates(subset=[key]) else:
     c = c.drop_duplicates()], each followed by [reset_index(drop=True)]. *)
Definition dedupe (c : DataFrame) (key : string) : result DataFrame :=
  if has_col c key then drop_duplicates_subset c key
  else Ok (drop_duplicates c).

(** [c.insert(0, sk, range(1, len(c)+1))] *)
Definition insert_sk (c : DataFrame) (sk : string) : result DataFrame :=
  insert0 c sk (range1 (len c)).

(** The customers block, lines 71-81: [c] when it reaches the
    deduplication, then the dimension. *)
Definition canonical_customers (customers : DataFrame) : DataFrame :=
  let c := customers in
  let c := if negb (has_col c "customer_id") && has_col c "id"
           then rename c "id" "customer_id" else c in
  _ensure_datetime c "created_at".

Definition dim_customers (customers : DataFrame) : result DataFrame :=
  let c := canonical_customers customers in
  c ← dedupe c "customer_id";
  insert_sk c "customer_sk".

(** The products block, lines 90-96 *)
Definition canonical_products (products : DataFrame) : DataFrame :=
  let p := products in
  _ensure_datetime p "created_at".

Definition dim_products (products : DataFrame) : result DataFrame :=
  let p := canonical_products products in
  p ← dedupe p "product_id";
  insert_sk p "product_sk".

(** The stores block, lines 107-115 *)
Definition canonical_stores (stores : DataFrame) : DataFrame :=
  let s := stores in
  if negb (has_col s "store_id") && has_col s "channel_id"
  then rename s "channel_id" "store_id" else s.

Definition dim_stores (stores : DataFrame) : result DataFrame :=
  let s := canonical_stores stores in
  s ← dedupe s "store_id";
  insert_sk s "store_sk".

Definition dim_address (address : DataFrame) : result DataFrame :=
  let a := address in
  a ← dedupe a "address_id";
  insert_sk a "address_sk".

Definition dim_product_category (pc : DataFrame) : result DataFrame :=
  let cat := pc in
  cat ← dedupe cat "category_id";
  insert_sk cat "product_category_sk".

(** [pd.DataFrame({'date': pd.to_datetime(df[col], errors='coerce')
                            .dt.normalize().dropna().unique()})] *)
Definition distinct_days (df : DataFrame) (col : string) : DataFrame :=
  mkDF ["date"]
    ((λ v, [v]) <$>
       unique (dropna (normalize <$>
                 (to_datetime_coerce parse_datetime <$> get_col df col)))).

(** The three sources of the date dimension, as [build_dimensions] tries
    them in turn. *)
Definition dates_from_orders (orders : option DataFrame) : option DataFrame :=
  match orders with
  | Some o => if has_col o "order_date" then Some (distinct_days o "order_date") else None
  | None => None
  end.

Definition dates_from_customers (customers : option DataFrame) : option DataFrame :=
  match customers with
  | Some c => if has_col c "created_at" then Some (distinct_days c "created_at") else None
  | None => None
  end.

Definition dates_from_calendar (orders : option DataFrame) : option DataFrame :=
  match orders with
  | Some o =>
      if has_col o "order_date" then
        let rng := to_datetime_coerce parse_datetime <$> get_col o "order_date" in
        match normalize (series_min rng), normalize (series_max rng) with
        | VTime mn, VTime mx => Some (mkDF ["date"] ((λ v, [v]) <$> date_range mn mx))
        | _, _ => None
        end
      else None
  | None => None
  end.

(** The variable [dates] after the three [if] blocks (lines 122-137). *)
Definition select_dates (orders customers : option DataFrame) : option DataFrame :=
  let dates := None in
  let dates := match dates_from_orders orders with
               | Some d => Some d
               | None => dates
               end in
  let dates := if none_or_empty dates then
                 match dates_from_customers customers with
                 | Some d => Some d
                 | None => dates
                 end
               else dates in
  let dates := if none_or_empty dates then
                 match dates_from_calendar orders with
                 | Some d => Some d
                 | None => dates
                 end
               else dates in
  dates.

(** The body of [if dates is not None and not dates.empty:] (lines
    139-146), up to the write. *)
Definition dim_date (dates : DataFrame) : result DataFrame :=
  dates ← sort_values dates "date";
  dates ← assign_checked dates "date"
             (λ r, to_datetime parse_datetime (cell (columns dates) "date" r));
  dates ← insert_sk dates "date_sk";
  dates ← assign_checked dates "date_id"
             (λ r, strftime_Ymd_int (cell (columns dates) "date" r));
  let dates := assign dates "year" (λ r, dt_year (cell (columns dates) "date" r)) in
  let dates := assign dates "month" (λ r, dt_month (cell (columns dates) "date" r)) in
  let dates := assign dates "day" (λ r, dt_day (cell (columns dates) "date" r)) in
  let dates := assign dates "weekday" (λ r, dt_weekday (cell (columns dates) "date" r)) in
  Ok dates.

(** One dimension block: build, write, and keep the frame for [dims]. *)
Definition dimension (src : option DataFrame) (build : DataFrame → result DataFrame)
    (name : string) : M (option DataFrame) :=
  match src with
  | Some t =>
      c ← lift (build t);
      write_table (Some c) name;;
      mret (Some c)
  | None => mret None
  end.

(** [x = read_staging(a); if x is None: x = read_staging(b)] *)
Definition read_staging_or (x : option DataFrame) (b : string) : M (option DataFrame) :=
  match x with
  | None => read_staging b
  | Some _ => mret x
  end.

(** Lines 103-119 *)
Definition stores_block : M (option DataFrame) :=
  stores ← read_staging "stores";
  stores ← read_staging_or stores "channels";
  dimension stores dim_stores "dim_stores".

(** [dates] as the test [if dates is not None and not dates.empty:]
    lets it through. *)
Definition dates_source (orders customers : option DataFrame) : option DataFrame :=
  let dates := select_dates orders customers in
  if none_or_empty dates then None else dates.

Definition build_dimensions : M Dims :=
  customers ← read_staging "customers";
  dc ← dimension customers dim_customers "dim_customers";
  products ← read_staging "products";
  dp ← dimension products dim_products "dim_products";
  ds ← stores_block;
  orders ← read_staging "orders";
  dd ← dimension (dates_source orders customers) dim_date "dim_date";
  address ← read_staging "address";
  da ← dimension address dim_address "dim_address";
  pc ← read_staging "product_category";
  dpc ← dimension pc dim_product_category "dim_product_category";
  mret (mkDims dc dp ds dd da dpc).

(** ** Facts *)

(** [if dims.get(d) is not None and key in f.columns:
      f = f.merge(dims[d][[sk, key]], on=key, how='left')] *)
Definition merge_dim (f : DataFrame) (dim : option DataFrame) (sk key : string)
  : result DataFrame :=
  match dim with
  | Some d =>
      if has_col f key then
        d' ← select d [sk; key];
        merge f d' key HowLeft "_x" "_y"
      else Ok f
  | None => Ok f
  end.

(** The date mapping every fact block repeats on its own timestamp
    column [col]:
    [f[col] = pd.to_datetime(f[col], errors='coerce')
     f = f.merge(dims['dates'][sel],
                 left_on=pd.to_datetime(f[col]).dt.normalize(),
                 right_on='date', how='left')
     if 'date_sk' in f.columns: f = f.rename(columns={'date_sk': sk})
     f = f.drop(columns=[c for c in ('key_0','date') if c in f.columns])] *)
Definition merge_date (f : DataFrame) (dates : DataFrame) (col : string)
    (sel : list string) (sk : string) : result DataFrame :=
  let f := assign f col
             (λ r, to_datetime_coerce parse_datetime (cell (columns f) col r)) in
  d ← select dates sel;
  keys ← mapM (to_datetime parse_datetime) (get_col f col);
  f ← merge_left_on f (normalize <$> keys) d "date" HowLeft;
  let f := if has_col f "date_sk" then rename f "date_sk" sk else f in
  Ok (drop_cols f (filter (λ c, has_col f c) ["key_0"; "date"])).

(** [cols = [c for c in allowed if c in f.columns]
     f[cols].copy().drop_duplicates().reset_index(drop=True)] *)
Definition select_fact (f : DataFrame) (allowed : list string) : result DataFrame :=
  let cols := filter (λ c, has_col f c) allowed in
  f' ← select f cols;
  Ok (drop_duplicates f').

(** Lines 201-205, [# ensure quantity and price] *)
Definition ensure_quantity_price (f : DataFrame) : DataFrame :=
  let f := if negb (has_col f "quantity") && has_col f "qty"
           then assign f "quantity" (cell (columns f) "qty") else f in
  let f := if negb (has_col f "unit_price") && has_col f "price"
           then assign f "unit_price" (cell (columns f) "price") else f in
  f.

(** Lines 226-233, [# compute measures] *)
Definition compute_measures (f : DataFrame) : DataFrame :=
  let f := if negb (has_col f "quantity")
           then assign f "quantity" (λ _, VNum 1) else f in
  let f := if has_col f "unit_price"
           then assign f "line_total"
                  (λ r, cell_mul (cell (columns f) "quantity" r)
                                 (cell (columns f) "unit_price" r))
           else if negb (has_col f "line_total")
                then assign f "line_total" (λ _, VNull) else f in
  f.

(** Lines 197-199, [# merge order header] *)
Definition merge_header (f : DataFrame) (orders : option DataFrame) : result DataFrame :=
  match orders with
  | Some o =>
      if has_col o "order_id" then
        o' ← select o ["order_id"; "order_date"; "customer_id"; "store_id"];
        merge f o' "order_id" HowLeft "_x" "_y"
      else Ok f
  | None => Ok f
  end.

(** [f] at the comment [# select common fact columns] (lines 196-233) *)
Definition order_lines (items : DataFrame) (orders : option DataFrame)
    (dims : Dims) : result DataFrame :=
  let f := items in
  f ← merge_header f orders;
  let f := ensure_quantity_price f in
  f ← merge_dim f (customers dims) "customer_sk" "customer_id";
  f ← merge_dim f (products dims) "product_sk" "product_id";
  f ← merge_dim f (stores dims) "store_sk" "store_id";
  f ← match dates dims with
      | Some d =>
          if has_col f "order_date"
          then merge_date f d "order_date" ["date_sk"; "date"; "date_id"] "order_date_sk"
          else Ok f
      | None => Ok f
      end;
  Ok (compute_measures f).

Definition fact_order_lines (items : DataFrame) (orders : option DataFrame)
    (dims : Dims) : result DataFrame :=
  f ← order_lines items orders dims;
  select_fact f ["order_id"; "order_date_sk"; "customer_sk"; "product_sk";
                 "store_sk"; "quantity"; "unit_price"; "line_total"].

(** [o] at the comment [# select] (lines 244-256) *)
Definition orders_enriched (orders : DataFrame) (dims : Dims) : result DataFrame :=
  let o := orders in
  o ← merge_dim o (customers dims) "customer_sk" "customer_id";
  o ← merge_dim o (stores dims) "store_sk" "store_id";
  match dates dims with
  | Some d =>
      if has_col o "order_date"
      then merge_date o d "order_date" ["date_sk"; "date"] "order_date_sk"
      else Ok o
  | None => Ok o
  end.

Definition fact_orders (orders : DataFrame) (dims : Dims) : result DataFrame :=
  o ← orders_enriched orders dims;
  select_fact o ["order_id"; "order_date_sk"; "customer_sk"; "store_sk"; "status";
                 "subtotal"; "tax_amount"; "shipping_fee"; "total_amount"].

(** The four facts that only map a date: [guard] is the extra column
    the block asks for before it joins ([order_id] for payments and
    shipments, none for web sessions and survey responses). *)
Definition dated (src : DataFrame) (dims : Dims) (guard : option string)
    (col sk : string) : result DataFrame :=
  let t := src in
  match dates dims with
  | Some d =>
      if from_option (has_col t) true guard && has_col t col
      then merge_date t d col ["date_sk"; "date"] sk
      else Ok t
  | None => Ok t
  end.

Definition dated_fact (src : DataFrame) (dims : Dims) (guard : option string)
    (col sk : string) (allowed : list string) : result DataFrame :=
  t ← dated src dims guard col sk;
  select_fact t allowed.

Definition fact_payments (payments : DataFrame) (dims : Dims) : result DataFrame :=
  dated_fact payments dims (Some "order_id") "created_at" "payment_date_sk"
    ["payment_id"; "order_id"; "payment_date_sk"; "amount"; "status"; "payment_method"].

Definition fact_shipments (shipments : DataFrame) (dims : Dims) : result DataFrame :=
  dated_fact shipments dims (Some "order_id") "shipped_at" "shipped_date_sk"
    ["shipment_id"; "order_id"; "shipped_date_sk"; "carrier"; "status"; "tracking_number"].

Definition fact_web_sessions (ws : DataFrame) (dims : Dims) : result DataFrame :=
  dated_fact ws dims None "started_at" "session_date_sk"
    ["session_id"; "customer_id"; "session_date_sk"; "page_views"; "duration_seconds"].

Definition fact_nps (nps : DataFrame) (dims : Dims) : result DataFrame :=
  dated_fact nps dims None "response_date" "response_date_sk"
    ["nps_id"; "customer_id"; "response_date_sk"; "score"; "comment"].

(** One fact block: build and write, or warn that the source is missing. *)
Definition fact (src : option DataFrame) (build : DataFrame → result DataFrame)
    (name : string) (warning : string) : M unit :=
  match src with
  | Some t =>
      f ← lift (build t);
      write_table (Some f) name
  | None => print Stdout warning
  end.

Definition build_facts (dims : Dims) : M unit :=
  items ← read_staging "order_items";
  items ← read_staging_or items "sales_order_item";
  items ← read_staging_or items "sales_order_item";
  orders ← read_staging "orders";
  orders ← read_staging_or orders "sales_order";
  fact items (λ it, fact_order_lines it orders dims) "fact_order_lines"
       "[warn] no hay order_items para crear fact_order_lines";;
  fact orders (λ o, fact_orders o dims) "fact_orders"
       "[warn] no hay orders para crear fact_orders";;
  payments ← read_staging "payment";
  fact payments (λ t, fact_payments t dims) "fact_payments"
       "[warn] no hay payment para crear fact_payments";;
  shipments ← read_staging "shipment";
  fact shipments (λ t, fact_shipments t dims) "fact_shipments"
       "[warn] no hay shipment para crear fact_shipments";;
  ws ← read_staging "web_session";
  fact ws (λ t, fact_web_sessions t dims) "fact_web_sessions"
       "[warn] no hay web_session para crear fact_web_sessions";;
  nps ← read_staging "nps_response";
  fact nps (λ t, fact_nps t dims) "fact_nps"
       "[warn] no hay nps_response para crear fact_nps".

Definition main : M unit :=
  print Stdout "[start]";;
  dims ← build_dimensions;
  build_facts dims;;
  print Stdout "[done] tablas creadas".

End Tablas.
End Tablas.

(* ===================================================================== *)
(** * desnormalizar.py *)
(* ===================================================================== *)

(** Python's [str] methods the script calls, on ASCII strings. *)
Module Str.

Definition lower_ascii (a : Ascii.ascii) : Ascii.ascii :=
  let n := Ascii.N_of_ascii a in
  if decide (65 ≤ n ≤ 90)%N then Ascii.ascii_of_N (n + 32) else a.

(** [s.lower()] *)
Fixpoint lower (s : string) : string :=
  match s with
  | EmptyString => EmptyString
  | String a s' => String (lower_ascii a) (lower s')
  end.

(** [s.startswith(k)] *)
Fixpoint startswith (k s : string) : bool :=
  match k, s with
  | EmptyString, _ => true
  | String _ _, EmptyString => false
  | String a k', String b s' => bool_decide (a = b) && startswith k' s'
  end.

(** [k in s] *)
Fixpoint contains (k s : string) : bool :=
  startswith k s ||
  match s with
  | EmptyString => false
  | String _ s' => contains k s'
  end.

(** [s.endswith(k)] *)
Definition endswith (k s : string) : bool :=
  startswith (String.rev k) (String.rev s).

(** [s.replace(' ', '_')] *)
Fixpoint replace_spaces (s : string) : string :=
  match s with
  | EmptyString => EmptyString
  | String a s' =>
      String (if decide (a = " "%char) then "_"%char else a) (replace_spaces s')
  end.

Definition is_whitespace (a : Ascii.ascii) : bool :=
  let n := Ascii.N_of_ascii a in
  bool_decide (n = 32 ∨ 9 ≤ n ≤ 13 ∨ 28 ≤ n ≤ 31)%N.

Fixpoint lstrip (s : string) : string :=
  match s with
  | EmptyString => EmptyString
  | String a s' => if is_whitespace a then lstrip s' else s
  end.

(** [s.strip()] *)
Definition strip (s : string) : string :=
  String.rev (lstrip (String.rev (lstrip s))).

(** Position of the last ['.'] of [s], counted from the left. *)
Fixpoint rfind_dot (s : string) : option nat :=
  match s with
  | EmptyString => None
  | String a s' =>
      match rfind_dot s' with
      | Some i => Some (S i)
      | None => if decide (a = "."%char) then Some 0%nat else None
      end
  end.

(** [Path(name).stem]: the name up to its last dot, when that dot is
    neither the first nor the last character. *)
Definition stem (name : string) : string :=
  match rfind_dot name with
  | Some i =>
      if decide (0 < i < String.length name - 1)%nat
      then String.substring 0 i name else name
  | None => name
  end.

End Str.

Module Desnormalizar.
Import Str.

(** A dict literal is filled left to right: a key that comes again keeps
    its first position and takes the new value. *)
Fixpoint dict_set (d : list (string * string)) (k v : string)
  : list (string * string) :=
  match d with
  | [] => [(k, v)]
  | (k', v') :: d' => if decide (k' = k) then (k, v) :: d' else (k', v') :: dict_set d' k v
  end.

Definition dict_literal (items : list (string * string)) : list (string * string) :=
  foldl (λ d kv, dict_set d kv.1 kv.2) [] items.

(** [mapping_rules], as written at lines 70-87; iterating a dict follows
    the order of first insertion. *)
Definition mapping_rules : list (string * string) :=
  dict_literal
    [("customer", "customers");
     ("product", "products");
     ("store", "stores");
     ("channel", "stores");
     ("order_item", "order_items");
     ("sales_order_item", "order_items");
     ("sales_order", "orders");
     ("sales_order_item", "order_items");
     ("order", "orders");
     ("payment", "payment");
     ("shipment", "shipment");
     ("web_session", "web_session");
     ("nps_response", "nps_response");
     ("province", "province");
     ("product_category", "product_category");
     ("address", "address")].

(** [for k, v in rules: if k in name: target = v; break], starting from
    [target = None]. *)
Fixpoint first_rule (rules : list (string * string)) (name : string) : option string :=
  match rules with
  | [] => None
  | (k, v) :: rules' => if contains k name then Some v else first_rule rules' name
  end.

(** The canonical name [build_staging] gives the raw file called
    [file] (lines 92-100). *)
Definition target_of (file : string) : string :=
  let name := lower (stem file) in
  match first_rule mapping_rules name with
  | Some target => target
  | None => name
  end.

(** [find_file(base_name)] *)
Definition find_file (base_name : string) : M (option (string * option DataFrame)) := λ w,
  (Ok (head (mjoin ((λ ext, filter (λ f, f.1 = base_name +:+ ext) (raw_dir w))
                      <$> [".parquet"; ".csv"]))),
   w).

(** [read_table(name)]; reading a file that cannot be parsed raises. *)
Definition read_table (name : string) : M (option DataFrame) :=
  p ← find_file name;
  match p with
  | None => print Stderr ("[warn] no se encontro " +:+ name);; mret None
  | Some (file, Some df) => mret (Some df)
  | Some (file, None) => raise (IOError ("read " +:+ file))
  end.

(** [_canonicalize_columns(df)], for string labels. *)
Definition _canonicalize_columns (df : DataFrame) : DataFrame :=
  mkDF ((λ c, replace_spaces (lower (strip c))) <$> columns df) (rows df).

(** [write_staging(df, name)] *)
Definition write_staging (df : option DataFrame) (name : string) : M unit :=
  match df with
  | Some d =>
      if empty d then print Stdout ("[info] staging " +:+ name +:+ " vacia, no se guarda.")
      else
        to_parquet STAGING_DIR (name +:+ ".parquet") d;;
        print Stdout ("[ok] guardado staging " +:+ name +:+ ".parquet")
  | None => print Stdout ("[info] staging " +:+ name +:+ " vacia, no se guarda.")
  end.

(** [write_table(df, name)] of this script *)
Definition write_table (df : option DataFrame) (name : string) : M unit :=
  match df with
  | Some d =>
      if empty d then print Stdout ("[info] tabla " +:+ name +:+ " vacia, no se guarda.")
      else
        to_parquet DWH_DIR (name +:+ ".parquet") d;;
        print Stdout ("[ok] guardado " +:+ name +:+ ".parquet")
  | None => print Stdout ("[info] tabla " +:+ name +:+ " vacia, no se guarda.")
  end.

(** [a or b] on frames: asking a frame for its truth value raises, so the
    right operand is only reached when the left one is [None]. *)
Definition py_or (a : option DataFrame) (b : M (option DataFrame)) : M (option DataFrame) :=
  match a with
  | Some _ => raise (ValueError "The truth value of a DataFrame is ambiguous")
  | None => b
  end.

Record Dims := mkDims {
  customers : option DataFrame;
  products : option DataFrame;
  stores : option DataFrame;
  dates : option DataFrame
}.

Section Desnormalizar.
Context (parse_datetime : string → option Z).
Context (cell_mul : value → value → value).

(** [pd.to_datetime(s, errors='coerce')] on a whole column, as the staging
    loop calls it: the Series it returns, one cell per row of the column,
    or the exception it raises.  pandas settles on one way of reading the
    strings for the whole column, so equal strings of two columns need not
    be read alike; what it returns and when it raises is left open. *)
Context (to_datetime_series : list value → result (list value)).

(** ** Staging *)

Definition is_date_column (c : string) : bool :=
  bool_decide (c ∈ ["order_date"; "created_at"; "fecha"; "date"])
  || endswith "_date" c || endswith "_at" c.

(** One turn of the loop at lines 122-125:
    [try: df[c] = pd.to_datetime(df[c], errors='coerce')
     except Exception: pass].
    Under a label that occurs more than once [df[c]] is a frame, on which
    [to_datetime] raises.  Whenever the call raises, the [except] clause
    leaves the frame as it is. *)
Definition parse_date_column (df : DataFrame) (c : string) : DataFrame :=
  if bool_decide (length (filter (λ c', c' = c) (columns df)) = 1%nat) then
    match to_datetime_series (get_col df c) with
    | Ok vals => assign_col df c vals
    | Raise _ => df
    end
  else df.

(** The loop over [list(df.columns)] at lines 120-125. *)
Definition parse_date_columns (df : DataFrame) : DataFrame :=
  foldl (λ df c, if is_date_column c then parse_date_column df c else df)
        df (columns df).

(** Lines 127-136: [write_staging] guarded by the csv fallback. *)
Definition safe_write_staging (df : DataFrame) (target : string) : M unit :=
  try_except (write_staging (Some df) target)
    (λ e,
       try_except
         (to_csv STAGING_DIR (target +:+ ".csv") df;;
          print Stdout ("[ok] guardado staging " +:+ target +:+ ".csv (csv fallback)"))
         (λ ex, print Stderr ("[error] no se pudo guardar staging " +:+ target))).

(** The loop [for p in raw_files], with the set [processed]. *)
Fixpoint stage_files (raw_files : list (string * option DataFrame))
    (processed : gset string) : M unit :=
  match raw_files with
  | [] => mret ()
  | (file, content) :: rest =>
      let target := target_of file in
      if decide (target ∈ processed) then
        print Stdout ("[info] ya procesado " +:+ target +:+ ", salto " +:+ file);;
        stage_files rest processed
      else
        match content with
        | None =>
            print Stderr ("[warn] no se pudo leer " +:+ file);;
            stage_files rest processed
        | Some df =>
            let df := _canonicalize_columns df in
            let df := parse_date_columns df in
            safe_write_staging df target;;
            stage_files rest (processed ∪ {[target]})
        end
  end.

(** [RAW_DIR.glob("*" + ext)] *)
Definition glob (ext : string) (w : World) : list (string * option DataFrame) :=
  filter (λ f, endswith ext f.1) (raw_dir w).

Definition build_staging : M bool := λ w,
  let raw_files := glob ".csv" w ++ glob ".parquet" w in
  match raw_files with
  | [] => (print Stderr "[warn] no hay archivos en RAW_DIR";; mret false) w
  | _ => (stage_files raw_files ∅;; mret true) w
  end.

(** ** Dimensions *)

(** The customers, products and stores blocks (lines 152-180): drop exact
    duplicates, and number the rows under [key] when that column is
    missing. *)
Definition dim_table (t : DataFrame) (key : string) : result DataFrame :=
  let d := drop_duplicates t in
  if negb (has_col d key) then insert0 d key (range1 (len d)) else Ok d.

Definition dimension (src : option DataFrame) (key name : string)
  : M (option DataFrame) :=
  match src with
  | Some t =>
      d ← lift (dim_table t key);
      write_table (Some d) name;;
      mret (Some d)
  | None => mret None
  end.

(** Lines 188-190 *)
Definition dates_from_orders (orders : DataFrame) : result DataFrame :=
  ts ← mapM (to_datetime parse_datetime) (get_col orders "order_date");
  let dates := mkDF ["date"] ((λ v, [v]) <$> unique (normalize <$> ts)) in
  dates ← sort_values dates "date";
  Ok (assign_col dates "date_id" (range1 (len dates))).

(** Lines 195-207: the body of [if "date_id" not in dates.columns:]. *)
Definition homogenize_dates (dates : DataFrame) : result DataFrame :=
  if negb (has_col dates "date_id") then
    let dates :=
      if negb (has_col dates "date") then
        if has_col dates "order_date" then rename dates "order_date" "date"
        else if has_col dates "fecha" then rename dates "fecha" "date"
        else dates
      else dates in
    if negb (has_col dates "date") then Raise (KeyError "date")
    else
      dates ← assign_checked dates "date"
                 (λ r, to_datetime parse_datetime (cell (columns dates) "date" r));
      dates ← assign_checked dates "date_id"
                 (λ r, strftime_Ymd_int (cell (columns dates) "date" r));
      let dates := assign dates "year" (λ r, dt_year (cell (columns dates) "date" r)) in
      let dates := assign dates "month" (λ r, dt_month (cell (columns dates) "date" r)) in
      let dates := assign dates "day" (λ r, dt_day (cell (columns dates) "date" r)) in
      Ok dates
  else Ok dates.

Definition build_dimensions : M Dims :=
  customers ← read_table "customers";
  customers_dim ← dimension customers "customer_id" "dim_customers";
  products ← read_table "products";
  products_dim ← dimension products "product_id" "dim_products";
  stores ← (a ← read_table "stores"; py_or a (read_table "channels"));
  stores_dim ← dimension stores "store_id" "dim_stores";
  dates ← read_table "dates";
  dates ← (match dates with
           | None =>
               orders ← read_table "orders";
               match orders with
               | Some o =>
                   if has_col o "order_date"
                   then d ← lift (dates_from_orders o); mret (Some d)
                   else mret None
               | None => mret None
               end
           | Some _ => mret dates
           end);
  dates ← (match dates with
           | Some d =>
               d ← lift (homogenize_dates d);
               write_table (Some d) "dim_date";;
               mret (Some d)
           | None => mret None
           end);
  mret (mkDims customers_dim products_dim stores_dim dates).

(** ** The order-line fact *)

(** [if dims.get(d) is not None and key in df.columns:
      df = df.merge(dims[d], on=key, how="left", suffixes=("", sfx))] *)
Definition merge_dim (df : DataFrame) (dim : option DataFrame) (key sfx : string)
  : result DataFrame :=
  match dim with
  | Some d => if has_col df key then merge df d key HowLeft "" sfx else Ok df
  | None => Ok df
  end.

(** Lines 240-246 *)
Definition add_date_id (df : DataFrame) : result DataFrame :=
  if has_col df "order_date" then
    df ← assign_checked df "order_date"
            (λ r, to_datetime parse_datetime (cell (columns df) "order_date" r));
    assign_checked df "date_id"
      (λ r, strftime_Ymd_int (cell (columns df) "order_date" r))
  else if has_col df "date" then
    assign_checked df "date_id"
      (λ r, v ← to_datetime parse_datetime (cell (columns df) "date" r);
            strftime_Ymd_int v)
  else Ok df.

(** [next((c for c in df.columns if c.lower() in names), None)] *)
Definition first_column (df : DataFrame) (names : list string) : option string :=
  List.find (λ c, bool_decide (lower c ∈ names)) (columns df).

(** Lines 250-258 *)
Definition measures (df : DataFrame) : DataFrame :=
  let qty_col := first_column df ["quantity"; "qty"; "units"] in
  let price_col := first_column df ["price"; "unit_price"; "unitprice"; "precio"] in
  let df := assign df "quantity"
              (match qty_col with
               | Some c => cell (columns df) c
               | None => λ _, VNum 1
               end) in
  match price_col with
  | Some c =>
      let df := assign df "unit_price" (cell (columns df) c) in
      assign df "line_total"
        (λ r, cell_mul (cell (columns df) "quantity" r) (cell (columns df) "unit_price" r))
  | None =>
      let df := assign df "unit_price" (λ _, VNull) in
      assign df "line_total" (λ _, VNull)
  end.

(** [df] at the comment [# seleccionar columnas relevantes para el fact] *)
Definition order_lineitems (orders items : DataFrame) (dims : Dims)
  : result DataFrame :=
  df ← merge items orders "order_id" HowLeft "_item" "_order";
  df ← merge_dim df (customers dims) "customer_id" "_cust";
  df ← merge_dim df (products dims) "product_id" "_prod";
  df ← merge_dim df (stores dims) "store_id" "_store";
  df ← match dates dims with
       | Some _ => add_date_id df
       | None => Ok df
       end;
  Ok (measures df).

Definition fact_order_lineitems (orders items : DataFrame) (dims : Dims)
  : result DataFrame :=
  df ← order_lineitems orders items dims;
  let preserve := filter (λ c, has_col df c)
                    ["order_id"; "date_id"; "customer_id"; "product_id"; "store_id";
                     "quantity"; "unit_price"; "line_total"] in
  fact ← select df preserve;
  Ok (drop_duplicates fact).

Definition build_fact_order_lineitems (dims : Dims) : M (option DataFrame) :=
  orders ← read_table "orders";
  items ← (a ← read_table "order_items";
           py_or a (b ← read_table "items"; py_or b (read_table "orderlines")));
  match orders, items with
  | Some o, Some it =>
      fact ← lift (fact_order_lineitems o it dims);
      write_table (Some fact) "fact_order_lines";;
      mret (Some fact)
  | _, _ =>
      print Stderr "[error] faltan orders o order_items, fact no creado.";;
      mret None
  end.

Definition main : M unit :=
  print Stdout "[start]";;
  build_staging;;
  dims ← build_dimensions;
  build_fact_order_lineitems dims;;
  print Stdout "[done] proceso terminado.".

End Desnormalizar.
End Desnormalizar.

(* ===================================================================== *)
(** * What the specification says, as predicates *)
(* ===================================================================== *)

(** "First matching rule wins; if no rule matches, the stem itself", for a
    rule table [rules] and a lowercased stem [name]. *)
Definition first_match_wins (rules : list (string * string)) (name target : string)
  : Prop :=
  (∃ i k, rules !! i = Some (k, target) ∧ Str.contains k name = true ∧
          ∀ j k' v', (j < i)%nat → rules !! j = Some (k', v') →
                     Str.contains k' name = false)
  ∨ ((∀ k v, (k, v) ∈ rules → Str.contains k name = false) ∧ target = name).

(** The staging table a run of [tablas.py] finds under [name]: the parquet
    file, else the csv file. *)
Definition staged (w : World) (name : string) : option DataFrame :=
  match staging_dir w !! (name +:+ ".parquet") with
  | Some df => Some df
  | None => staging_dir w !! (name +:+ ".csv")
  end.

(** [staged w a] with the alternate name [b] when [a] is missing. *)
Definition staged_or (w : World) (a b : string) : option DataFrame :=
  match staged w a with
  | Some df => Some df
  | None => staged w b
  end.

(** A step that leaves the inputs of a run alone: the same staged and raw
    files and the same write outcomes, and nothing printed is lost. *)
Definition same_inputs (w w' : World) : Prop :=
  raw_dir w' = raw_dir w ∧ staging_dir w' = staging_dir w ∧
  parquet_ok w' = parquet_ok w ∧ csv_ok w' = csv_ok w ∧
  printed w `prefix_of` printed w'.

(** [od] is the dimension built from [src] by [build]: null when there is
    no source. *)
Definition dim_of (src : option DataFrame) (build : DataFrame → result DataFrame)
    (od : option DataFrame) : Prop :=
  match src with
  | None => od = None
  | Some t => ∃ d, build t = Ok d ∧ od = Some d
  end.

(** The precedence of the date sources: the first one, in the order given,
    that yields at least one date, and null when none does. *)
Definition first_yielding (sources : list (option DataFrame)) : option DataFrame :=
  match filter (λ s, none_or_empty s = false) sources with
  | s :: _ => s
  | [] => None
  end.

(** ** Sample runs *)

(** Midnight of the [n]-th day after the epoch. *)
Definition day (n : Z) : value := VTime (n * ns_per_day).

(** A reader of timestamps that accepts no string, and the product of
    integer cells, to run the scripts on frames whose dates are already
    timestamps and whose amounts are integers. *)
Definition no_parse : string → option Z := λ _, None.

Definition int_mul (a b : value) : value :=
  match a, b with
  | VNum x, VNum y => VNum (x * y)
  | _, _ => VNull
  end.

Definition world_of (staging : gmap string DataFrame) : World :=
  mkWorld [] staging ∅ (λ _, true) (λ _, true) [].

(** The end-to-end scenario of the specification: three customers rows
    with a repeated key, one order of 2024-01-05 and one order line. *)
Definition scenario : World :=
  world_of
    (<["customers.parquet" :=
         mkDF ["customer_id"; "name"]
              [[VNum 1; VStr "A"]; [VNum 1; VStr "A"]; [VNum 2; VStr "B"]]]>
     (<["orders.parquet" :=
          mkDF ["order_id"; "order_date"; "customer_id"; "store_id"]
               [[VNum 100; day 19727; VNum 1; VNum 7]]]>
      (<["order_items.parquet" :=
           mkDF ["order_id"; "product_id"; "quantity"; "unit_price"]
                [[VNum 100; VNum 9; VNum 2; VNum 10]]]> ∅))).

(** ** Surrogate keys *)

(** The column [sk] of [d] holds 1, 2, ..., N down the rows, N being the
    number of rows of [d]. *)
Definition dense_keys (d : DataFrame) (sk : string) : Prop :=
  get_col d sk = range1 (len d).

(** [d] is [c] with the key column [sk] put in front, the [i]-th row of
    [c] (counting from 1) carrying the key [i]. *)
Definition keyed_in_order (d c : DataFrame) (sk : string) : Prop :=
  columns d = sk :: columns c ∧ rows d = zip_with cons (range1 (len c)) (rows c).

(** The first column of [df] is [sk] and holds [vals]. *)
Definition headed (df : DataFrame) (sk : string) (vals : list value) : Prop :=
  (∃ rest, columns df = sk :: rest) ∧ head <$> rows df = Some <$> vals.

(** ** Deduplication on a natural key *)

(** [d] keeps, of the rows of [c], the first one of every natural key, in
    the order of [c], each with its position (from 1) in front:
    - the [n]-th row of [d] is the key [n+1] followed by a row of [c] that
      no earlier row of [c] shares its natural key with;
    - no natural key occurs twice in [d], and every natural key of [c]
      occurs in [d];
    - without their first cell, the rows of [d] are rows of [c] in the
      order of [c]. *)
Definition first_occurrences (c d : DataFrame) (key : string) : Prop :=
  (∀ n r, rows d !! n = Some r →
     ∃ i r0, r = VNum (Z.of_nat n + 1) :: r0 ∧ rows c !! i = Some r0 ∧
             ∀ j r', (j < i)%nat → rows c !! j = Some r' →
                     cell (columns c) key r' ≠ cell (columns c) key r0)
  ∧ NoDup (get_col d key)
  ∧ (∀ r0, r0 ∈ rows c → cell (columns c) key r0 ∈ get_col d key)
  ∧ sublist (tail <$> rows d) (rows c).

(** ** Measures *)

(** Quantity, unit price and line total of the order-line fact of
    [tablas.py], read off the frame [f] the measures are computed on. *)
Definition tablas_quantity (f : DataFrame) : list value :=
  if has_col f "quantity" then get_col f "quantity"
  else if has_col f "qty" then get_col f "qty"
  else replicate (len f) (VNum 1).

Definition tablas_unit_price (f : DataFrame) : option (list value) :=
  if has_col f "unit_price" then Some (get_col f "unit_price")
  else if has_col f "price" then Some (get_col f "price")
  else None.

Definition tablas_line_total (cell_mul : value → value → value) (f : DataFrame)
  : list value :=
  match tablas_unit_price f with
  | Some p => zip_with cell_mul (tablas_quantity f) p
  | None => if has_col f "line_total" then get_col f "line_total"
            else replicate (len f) VNull
  end.

(** [c] is the first column of [df], in column order, whose lowercased
    label is one of [names]. *)
Definition first_recognized (df : DataFrame) (names : list string) (c : string) : Prop :=
  ∃ i, columns df !! i = Some c ∧ Str.lower c ∈ names ∧
       ∀ j c', (j < i)%nat → columns df !! j = Some c' → Str.lower c' ∉ names.

(** The same three measures for the order-line fact of
    [desnormalizar.py]. *)
Definition desnormalizar_quantity (df : DataFrame) : list value :=
  match Desnormalizar.first_column df ["quantity"; "qty"; "units"] with
  | Some c => get_col df c
  | None => replicate (len df) (VNum 1)
  end.

Definition desnormalizar_unit_price (df : DataFrame) : list value :=
  match Desnormalizar.first_column df ["price"; "unit_price"; "unitprice"; "precio"] with
  | Some c => get_col df c
  | None => replicate (len df) VNull
  end.

Definition desnormalizar_line_total (cell_mul : value → value → value)
    (df : DataFrame) : list value :=
  match Desnormalizar.first_column df ["price"; "unit_price"; "unitprice"; "precio"] with
  | Some c => zip_with cell_mul (desnormalizar_quantity df) (get_col df c)
  | None => replicate (len df) VNull
  end.

(** No dimension at all. *)
Definition no_dims : Tablas.Dims := Tablas.mkDims None None None None None None.

(** ** The writer's contract *)

(** What the specification asks of a table writer [write] that targets the
    directory [d], run on any table, name and world: it returns normally;
    a null or empty table changes no file; a non-empty table goes to
    [name.parquet] when that write succeeds, else to [name.csv] when that
    one succeeds, else no file changes and an error is printed. *)
Definition dir_of (d : dir) (w : World) : gmap string DataFrame :=
  match d with
  | STAGING_DIR => staging_dir w
  | DWH_DIR => dwh_dir w
  end.

Definition writer_contract (d : dir) (error_line : string → string)
    (write : option DataFrame → string → M unit) : Prop :=
  ∀ df name w,
    ∃ w', write df name w = (Ok (), w') ∧
          (none_or_empty df = true → dir_of d w' = dir_of d w) ∧
          (∀ t, df = Some t → empty t = false →
             if parquet_ok w (name +:+ ".parquet")
             then dir_of d w' = <[name +:+ ".parquet" := t]> (dir_of d w)
             else if csv_ok w (name +:+ ".csv")
                  then dir_of d w' = <[name +:+ ".csv" := t]> (dir_of d w)
                  else dir_of d w' = dir_of d w ∧
                       (Stderr, error_line name) ∈ printed w').

(** A world in which no parquet file can be written. *)
Definition no_parquet_engine : World :=
  mkWorld [] ∅ ∅ (λ _, false) (λ _, true) [].

(** A run of [desnormalizar.py] on the raw files [raw]. *)
Definition raw_world (raw : list (string * option DataFrame)) : World :=
  mkWorld raw ∅ ∅ (λ _, true) (λ _, true) [].

(** A staging area in which one order line meets two order headers that
    share its [order_id] and differ in their date. *)
Definition repeated_order_id : World :=
  world_of
    (<["orders.parquet" :=
         mkDF ["order_id"; "order_date"; "customer_id"; "store_id"]
              [[VNum 100; day 19727; VNum 1; VNum 7];
               [VNum 100; day 19728; VNum 1; VNum 7]]]>
     (<["order_items.parquet" :=
          mkDF ["order_id"; "product_id"; "quantity"; "unit_price"]
               [[VNum 100; VNum 9; VNum 2; VNum 10]]]> ∅)).

(** A staging area whose order headers have an [order_id] but none of the
    other columns the order-line block selects, next to a payments
    table. *)
Definition bare_orders : World :=
  world_of
    (<["orders.parquet" := mkDF ["order_id"] [[VNum 100]]]>
     (<["order_items.parquet" := mkDF ["order_id"] [[VNum 100]]]>
      (<["payment.parquet" := mkDF ["payment_id"; "amount"] [[VNum 1; VNum 20]]]> ∅))).

(** ** Labels after the date join *)

(** The labels the date join leaves behind the labels of the fact: those
    selected from the date dimension, [date_sk] under its new name [sk],
    without the helper column [date]. *)
Definition date_labels (sel : list string) (sk : string) : list string :=
  filter (λ c, c ∉ ["key_0"; "date"])
         ((λ c, if decide (c = "date_sk") then sk else c) <$> sel).

(** A staging area in which the order refers to the store 7 while the
    stores table only has the store 1. *)
Definition unknown_store : World :=
  world_of
    (<["stores.parquet" := mkDF ["store_id"; "name"] [[VNum 1; VStr "centro"]]]>
     (<["orders.parquet" :=
          mkDF ["order_id"; "order_date"; "customer_id"; "store_id"]
               [[VNum 100; day 19727; VNum 1; VNum 7]]]>
      (<["order_items.parquet" :=
           mkDF ["order_id"; "product_id"; "quantity"; "unit_price"]
                [[VNum 100; VNum 9; VNum 2; VNum 10]]]> ∅))).

(** ** The six fact blocks *)

(** [file] is one of the two files [write_table] can write for [name]. *)
Definition touches (name file : string) : Prop :=
  file = name +:+ ".parquet" ∨ file = name +:+ ".csv".

(** What a fact block computes before it writes: nothing when its source
    is missing, the fact table, or the exception of its joins. *)
Definition fact_outcome (src : option DataFrame)
    (build : DataFrame → result DataFrame) : result (option DataFrame) :=
  match src with
  | None => Ok None
  | Some t => f ← build t; Ok (Some f)
  end.

(** The six blocks of [build_facts] on the staging area of [w]: file name,
    warning, and outcome. *)
Definition fact_plan (parse_datetime : string → option Z)
    (cell_mul : value → value → value) (dims : Tablas.Dims) (w : World)
  : list (string * string * result (option DataFrame)) :=
  let items := staged_or w "order_items" "sales_order_item" in
  let orders := staged_or w "orders" "sales_order" in
  [("fact_order_lines", "[warn] no hay order_items para crear fact_order_lines",
    fact_outcome items
      (λ it, Tablas.fact_order_lines parse_datetime cell_mul it orders dims));
   ("fact_orders", "[warn] no hay orders para crear fact_orders",
    fact_outcome orders (λ o, Tablas.fact_orders parse_datetime o dims));
   ("fact_payments", "[warn] no hay payment para crear fact_payments",
    fact_outcome (staged w "payment")
      (λ t, Tablas.fact_payments parse_datetime t dims));
   ("fact_shipments", "[warn] no hay shipment para crear fact_shipments",
    fact_outcome (staged w "shipment")
      (λ t, Tablas.fact_shipments parse_datetime t dims));
   ("fact_web_sessions", "[warn] no hay web_session para crear fact_web_sessions",
    fact_outcome (staged w "web_session")
      (λ t, Tablas.fact_web_sessions parse_datetime t dims));
   ("fact_nps", "[warn] no hay nps_response para crear fact_nps",
    fact_outcome (staged w "nps_response")
      (λ t, Tablas.fact_nps parse_datetime t dims))].

(** What a run from [w] to [w'] shows of a block that did not raise: a
    skipped block has printed its warning and left its files alone; a
    block with a non-empty fact table has written it, as parquet or else
    as csv, or printed the error when both writes fail. *)
Definition block_done (w w' : World) (name warning : string)
    (o : option DataFrame) : Prop :=
  match o with
  | None =>
      (Stdout, warning) ∈ printed w' ∧
      ∀ file, touches name file → dwh_dir w' !! file = dwh_dir w !! file
  | Some f =>
      empty f = false →
      if parquet_ok w (name +:+ ".parquet")
      then dwh_dir w' !! (name +:+ ".parquet") = Some f
      else if csv_ok w (name +:+ ".csv")
           then dwh_dir w' !! (name +:+ ".csv") = Some f
           else (Stderr, "[error] no se pudo guardar " +:+ name) ∈ printed w'
  end.

(** From [a] to [b], only files of the tables [names] may have changed. *)
Definition frame_over (names : list string) (a b : World) : Prop :=
  ∀ file, (∀ n, n ∈ names → ¬ touches n file) →
          dwh_dir b !! file = dwh_dir a !! file.

(** ** The rows of the date dimension *)

(** [date.strftime('%Y%m%d')] read as an integer, for the timestamp [t]. *)
Definition date_id_of (t : Z) : value :=
  let '(y, m, d) := civil_from_days (days_of t) in VNum (y * 10000 + m * 100 + d).

(** The row of [dim_date] for the timestamp [t] at position [i] (from 0):
    key, date, and the five attributes read off the date. *)
Definition date_row (i : nat) (t : Z) : row :=
  [VNum (Z.of_nat i + 1); VTime t; date_id_of t; dt_year (VTime t);
   dt_month (VTime t); dt_day (VTime t); dt_weekday (VTime t)].

Definition dim_date_columns : list string :=
  ["date_sk"; "date"; "date_id"; "year"; "month"; "day"; "weekday"].

(** ** The shape of a fact table *)

(** [fact] is a table over some of the labels [allowed], in their order,
    with one cell per label in every row and no row twice. *)
Definition fact_shape (allowed : list string) (fact : DataFrame) : Prop :=
  sublist (columns fact) allowed ∧ NoDup (columns fact) ∧
  aligned fact ∧ NoDup (rows fact).

(** ** What a run may touch *)

(** The step [m] leaves the inputs of a run alone and, in the warehouse,
    only changes files of the tables [names], whether it returns or
    raises. *)
Definition footprint {A} (names : list string) (m : M A) : Prop :=
  ∀ w r w', m w = (r, w') → same_inputs w w' ∧ frame_over names w w'.

(** The six dimensions and six facts of [tablas.py]. *)
Definition warehouse_tables : list string :=
  ["dim_customers"; "dim_products"; "dim_stores"; "dim_date"; "dim_address";
   "dim_product_category"; "fact_order_lines"; "fact_orders"; "fact_payments";
   "fact_shipments"; "fact_web_sessions"; "fact_nps"].

(** ** The rules that decide *)

(** [mapping_rules] without the rules for [sales_order_item],
    [sales_order] and [product_category]. *)
Definition effective_rules : list (string * string) :=
  [("customer", "customers"); ("product", "products"); ("store", "stores");
   ("channel", "stores"); ("order_item", "order_items"); ("order", "orders");
   ("payment", "payment"); ("shipment", "shipment");
   ("web_session", "web_session"); ("nps_response", "nps_response");
   ("province", "province"); ("address", "address")].

(** ** Canonical labels *)

(** A label that [_canonicalize_columns] leaves as it is: no whitespace
    at either end, no upper-case letter, no space. *)
Definition canonical_label (c : string) : Prop :=
  Str.strip c = c ∧ Str.lower c = c ∧ Str.replace_spaces c = c.

(** [s] is empty or starts with a character that is not whitespace. *)
Definition clean_head (s : string) : Prop :=
  match s with
  | EmptyString => True
  | String a _ => Str.is_whitespace a = false
  end.

(** ** What [build_staging] may touch *)

(** [raw_files], as [build_staging] lists them: the csv files, then the
    parquet files. *)
Definition raw_files (w : World) : list (string * option DataFrame) :=
  Desnormalizar.glob ".csv" w ++ Desnormalizar.glob ".parquet" w.

(** A step that only writes staging files: the raw and the warehouse
    files and the write outcomes stay, and nothing printed is lost. *)
Definition staging_only (w w' : World) : Prop :=
  raw_dir w' = raw_dir w ∧ dwh_dir w' = dwh_dir w ∧
  parquet_ok w' = parquet_ok w ∧ csv_ok w' = csv_ok w ∧
  printed w `prefix_of` printed w'.

(** What the guarded write of the frame [s] under the staging name [t]
    leaves in the staging directory. *)
Definition staged_outcome (w w' : World) (t : string) (s : DataFrame) : Prop :=
  if empty s then
    ∀ file, touches t file → staging_dir w' !! file = staging_dir w !! file
  else if parquet_ok w (t +:+ ".parquet") then
    staging_dir w' !! (t +:+ ".parquet") = Some s
  else if csv_ok w (t +:+ ".csv") then
    staging_dir w' !! (t +:+ ".csv") = Some s
  else ∀ file, touches t file → staging_dir w' !! file = staging_dir w !! file.

(** ** Raw files by name *)

(** The raw directory has a parquet or a csv file for the table [name]. *)
Definition has_raw (w : World) (name : string) : Prop :=
  ∃ f, f ∈ raw_dir w ∧ touches name f.1.

(** A step that leaves the raw directory as it is. *)
Definition raw_kept {A} (m : M A) : Prop :=
  ∀ w r w', m w = (r, w') → raw_dir w' = raw_dir w.

(** ** Two runs side by side *)

(** Two runs, started in [i1] and [i2], have reached [a] and [b]: they
    see the same staged files and write outcomes, and every warehouse
    file either is the same in both or has not been written by either. *)
Definition coupled_at (i1 i2 a b : World) : Prop :=
  staging_dir a = staging_dir b ∧ parquet_ok a = parquet_ok b ∧
  csv_ok a = csv_ok b ∧
  ∀ file, dwh_dir a !! file = dwh_dir b !! file
          ∨ (dwh_dir a !! file = dwh_dir i1 !! file ∧
             dwh_dir b !! file = dwh_dir i2 !! file).

(** The step [m] keeps two such runs together: it gives the same result
    in both. *)
Definition coupled {A} (m : M A) : Prop :=
  ∀ i1 i2 a b, coupled_at i1 i2 a b →
    (m a).1 = (m b).1 ∧ coupled_at i1 i2 (m a).2 (m b).2.


(** Every dimension table of [dims] that a fact is joined with has each
    of its labels once. *)
Definition dims_distinct (dims : Tablas.Dims) : Prop :=
  ∀ t d, t ∈ [Tablas.customers dims; Tablas.products dims; Tablas.stores dims;
              Tablas.dates dims] →
         t = Some d → NoDup (columns d).

(** ** Left joins, row by row *)

(** [v] is what a left join with the dimension [d] leaves under the
    surrogate key of a row whose natural key is [k]: the [sk] of a row of
    [d] whose [key] is [k], or null when [d] has no such row. *)
Definition key_or_null (d : DataFrame) (key sk : string) (k v : value) : Prop :=
  (v = VNull ∧ ∀ rd, rd ∈ rows d → cell (columns d) key rd ≠ k)
  ∨ (∃ rd, rd ∈ rows d ∧ cell (columns d) key rd = k ∧ v = cell (columns d) sk rd).

(** The row [r'] of [fact] has the cells of the row [r] of [src] under
    every label that both tables have, the labels of [skip] apart. *)
Definition same_cells (src fact : DataFrame) (skip : list string) (r r' : row)
  : Prop :=
  ∀ c, c ∈ columns src → c ∈ columns fact → c ∉ skip →
       cell (columns fact) c r' = cell (columns src) c r.

(** None of [labels] is a label of [df]. *)
Definition fresh (labels : list string) (df : DataFrame) : Prop :=
  ∀ c, c ∈ labels → c ∉ columns df.

(** The row [r'] of [fact] resolves the axis [key] of the row [r] of
    [src]: when the dimension is there, with distinct labels, and [src]
    has the natural key, [fact] has the column [sk], and [r'] holds in it
    the surrogate key of a dimension row with the natural key of [r], or
    null when the dimension has no such row. *)
Definition resolved (dim : option DataFrame) (key sk : string)
    (src fact : DataFrame) (r r' : row) : Prop :=
  ∀ d, dim = Some d → NoDup (columns d) → key ∈ columns src →
       sk ∈ columns fact ∧
       key_or_null d key sk (cell (columns src) key r) (cell (columns fact) sk r').

(** The same on the date axis: the natural key is the day of the
    timestamp read from the column [col] of [r], looked up in the column
    [date] of the date dimension.  [guard] is the column a block asks for
    besides [col] before it joins. *)
Definition date_resolved (parse_datetime : string → option Z)
    (dates : option DataFrame) (guard : option string) (col sk : string)
    (src fact : DataFrame) (r r' : row) : Prop :=
  ∀ d, dates = Some d → NoDup (columns d) →
       (∀ g, guard = Some g → g ∈ columns src) → col ∈ columns src →
       sk ∈ columns fact ∧
       key_or_null d "date" "date_sk"
         (normalize (to_datetime_coerce parse_datetime (cell (columns src) col r)))
         (cell (columns fact) sk r').

(** A fact that only maps a date keeps every row of its source and
    resolves its date. *)
Definition dated_rows_resolved (parse_datetime : string → option Z)
    (build : DataFrame → Tablas.Dims → result DataFrame)
    (guard : option string) (col sk : string) : Prop :=
  ∀ src dims fact,
    build src dims = Ok fact →
    aligned src → NoDup (columns src) →
    fresh ["key_0"; "date_sk"; "date"; sk] src →
    ∀ r, r ∈ rows src →
      ∃ r', r' ∈ rows fact ∧
            same_cells src fact [col] r r' ∧
            date_resolved parse_datetime (Tablas.dates dims) guard col sk
              src fact r r'.

(** Two order lines of one order, for the products 8 and 9, with the
    same quantity and price; the products table has neither product in
    [unknown_products], and both in [known_products]. *)
Definition unknown_products : World :=
  world_of
    (<["products.parquet" := mkDF ["product_id"; "name"] [[VNum 1; VStr "pan"]]]>
     (<["order_items.parquet" :=
          mkDF ["order_id"; "product_id"; "quantity"; "unit_price"]
               [[VNum 100; VNum 8; VNum 2; VNum 10];
                [VNum 100; VNum 9; VNum 2; VNum 10]]]> ∅)).

Definition known_products : World :=
  world_of
    (<["products.parquet" :=
         mkDF ["product_id"; "name"] [[VNum 8; VStr "pan"]; [VNum 9; VStr "vino"]]]>
     (<["order_items.parquet" :=
          mkDF ["order_id"; "product_id"; "quantity"; "unit_price"]
               [[VNum 100; VNum 8; VNum 2; VNum 10];
                [VNum 100; VNum 9; VNum 2; VNum 10]]]> ∅)).

(** Every row of [f] is carried into [f']: [f'] is aligned, has the
    labels of [f], and each row of [f] has a row in [f'] with its cells,
    the columns of [skip] apart. *)
Definition carries (f f' : DataFrame) (skip : list string) : Prop :=
  aligned f' ∧
  (∀ c, c ∈ columns f → c ∈ columns f') ∧
  ∀ r, r ∈ rows f → ∃ r', r' ∈ rows f' ∧ same_cells f f' skip r r'.

(* ===================================================================== *)
(** * Properties *)
(* ===================================================================== *)

Example civil_epoch : civil_from_days 0 = (1970, 1, 1).
Proof. reflexivity. Qed.
Example civil_2024_01_05 : civil_from_days 19727 = (2024, 1, 5).
Proof. reflexivity. Qed.
Example civil_leap : civil_from_days 19782 = (2024, 2, 29).
Proof. reflexivity. Qed.
Example civil_before_epoch : civil_from_days (-1) = (1969, 12, 31).
Proof. reflexivity. Qed.
Example weekday_2024_01_05 : dt_weekday (VTime (19727 * ns_per_day)) = VNum 4.
Proof. reflexivity. Qed.

(** ** Deduplication keeps first occurrences *)

Section KeepFirst.
Context {A K : Type} `{EqDecision K} (key : A → K).

Lemma keep_first_sublist seen l : sublist (keep_first key seen l) l.
Proof.
  revert seen; induction l as [|x l IH]; intros seen; simpl; [constructor|].
  destruct (decide (key x ∈ seen)).
  - by apply sublist_cons.
  - by apply sublist_skip.
Qed.

Lemma keep_first_length seen l : (length (keep_first key seen l) ≤ length l)%nat.
Proof. apply sublist_length, keep_first_sublist. Qed.

Lemma keep_first_fresh seen l x :
  x ∈ keep_first key seen l → key x ∉ seen.
Proof.
  revert seen; induction l as [|y l IH]; intros seen; simpl.
  - by intros ?%elem_of_nil.
  - destruct (decide (key y ∈ seen)) as [|Hy]; [by apply IH|].
    intros [->|Hx]%elem_of_cons; [done|].
    apply IH in Hx. set_solver.
Qed.

Lemma keep_first_NoDup seen l : NoDup (key <$> keep_first key seen l).
Proof.
  revert seen; induction l as [|y l IH]; intros seen; simpl; [constructor|].
  destruct (decide (key y ∈ seen)) as [|Hy]; [by apply IH|].
  rewrite fmap_cons. constructor; [|by apply IH].
  intros (z & Hz & Hin)%list_elem_of_fmap.
  apply keep_first_fresh in Hin. set_solver.
Qed.

Lemma keep_first_covers seen l x :
  x ∈ l → key x ∈ seen ∨ key x ∈ key <$> keep_first key seen l.
Proof.
  revert seen; induction l as [|y l IH]; intros seen; simpl.
  - by intros ?%elem_of_nil.
  - intros [->|Hx]%elem_of_cons.
    + destruct (decide (key y ∈ seen)); [by left|].
      right. rewrite fmap_cons. by left.
    + destruct (decide (key y ∈ seen)); [by apply IH|].
      destruct (IH (key y :: seen) Hx) as [[->|?]%elem_of_cons|?].
      * right. rewrite fmap_cons. by left.
      * by left.
      * right. rewrite fmap_cons. by right.
Qed.

(** The [n]-th survivor sits at some position [i] of the input, and no
    earlier row of the input has its key. *)
Lemma keep_first_is_first seen l n x :
  keep_first key seen l !! n = Some x →
  ∃ i, l !! i = Some x ∧ (key x ∉ seen) ∧
       ∀ j y, (j < i)%nat → l !! j = Some y → key y ≠ key x.
Proof.
  revert seen n; induction l as [|y l IH]; intros seen n; simpl; [done|].
  destruct (decide (key y ∈ seen)) as [Hy|Hy].
  - intros (i & Hi & Hs & Hfirst)%IH.
    exists (S i). split_and!; [done..|].
    intros [|j] z Hj Hz; simplify_eq/=.
    + congruence.
    + eapply Hfirst; [|done]. lia.
  - destruct n as [|n]; simpl.
    + intros [= ->]. exists 0%nat. split_and!; [done..|]. intros; lia.
    + intros (i & Hi & Hs & Hfirst)%IH.
      exists (S i). split_and!; [done|set_solver|].
      intros [|j] z Hj Hz; simplify_eq/=.
      * set_solver.
      * eapply Hfirst; [|done]. lia.
Qed.
End KeepFirst.

Lemma keep_first_id_elem {A} `{EqDecision A} (l : list A) x :
  x ∈ l → x ∈ keep_first id [] l.
Proof.
  intros Hx. destruct (keep_first_covers id [] l x Hx) as [?%elem_of_nil|Hin]; [done|].
  by rewrite list_fmap_id in Hin.
Qed.

(** ** Left joins keep every left row *)

Section Joins.
Context (lkey rkey : row → value) (rkeep : row → row) (nr : nat).

Lemma join_row_left_nonempty rrows lr :
  join_row HowLeft lkey rkey rkeep nr rrows lr ≠ [].
Proof.
  unfold join_row. by destruct (filter _ rrows).
Qed.

Lemma join_row_prefix h rrows lr r :
  r ∈ join_row h lkey rkey rkeep nr rrows lr → ∃ tl, r = lr ++ tl.
Proof.
  unfold join_row. destruct (filter _ rrows) as [|m ms] eqn:E.
  - destruct h; [|by intros ?%elem_of_nil].
    intros ->%list_elem_of_singleton. eauto.
  - intros (rr & -> & _)%list_elem_of_fmap. eauto.
Qed.

Lemma join_row_unmatched rrows lr :
  (∀ rr, rr ∈ rrows → rkey rr ≠ lkey lr) →
  join_row HowLeft lkey rkey rkeep nr rrows lr = [lr ++ replicate nr VNull].
Proof.
  intros Hno. unfold join_row.
  destruct (filter _ rrows) as [|m ms] eqn:E; [done|].
  assert (m ∈ filter (λ rr, rkey rr = lkey lr) rrows) as Hm by (rewrite E; left).
  apply list_elem_of_filter in Hm as [Hk Hin]. by destruct (Hno m Hin).
Qed.

Lemma filter_key_NoDup (rrows : list row) k :
  NoDup (rkey <$> rrows) → (length (filter (λ rr, rkey rr = k) rrows) ≤ 1)%nat.
Proof.
  induction rrows as [|r rrows IH]; [simpl; lia|].
  rewrite fmap_cons. intros [Hnotin Hnd]%NoDup_cons.
  rewrite filter_cons. destruct (decide (rkey r = k)) as [Hk|]; [|by apply IH].
  assert (filter (λ rr, rkey rr = k) rrows = []) as ->; [|simpl; lia].
  destruct (filter _ rrows) as [|m ms] eqn:E; [done|].
  assert (m ∈ filter (λ rr, rkey rr = k) rrows) as Hm by (rewrite E; left).
  apply list_elem_of_filter in Hm as [Hm Hin].
  destruct Hnotin. rewrite Hk, <- Hm. by apply list_elem_of_fmap_2.
Qed.

Lemma join_row_left_unique rrows lr :
  NoDup (rkey <$> rrows) →
  length (join_row HowLeft lkey rkey rkeep nr rrows lr) = 1%nat.
Proof.
  intros Hnd. unfold join_row.
  pose proof (filter_key_NoDup rrows (lkey lr) Hnd) as Hle.
  destruct (filter _ rrows) as [|m [|m' ms]]; simpl in *; [done..|lia].
Qed.


End Joins.

Lemma join_rows_left_length lkey rkey rkeep nr lrows rrows :
  (length lrows ≤ length (join_rows HowLeft lkey rkey rkeep nr lrows rrows))%nat.
Proof.
  unfold join_rows. induction lrows as [|lr lrows IH]; [simpl; lia|].
  rewrite bind_cons, length_app.
  pose proof (join_row_left_nonempty lkey rkey rkeep nr rrows lr).
  destruct (join_row HowLeft lkey rkey rkeep nr rrows lr); simpl in *; [done|lia].
Qed.

Lemma join_rows_left_length_unique lkey rkey rkeep nr lrows rrows :
  NoDup (rkey <$> rrows) →
  length (join_rows HowLeft lkey rkey rkeep nr lrows rrows) = length lrows.
Proof.
  intros Hnd. unfold join_rows. induction lrows as [|lr lrows IH]; [done|].
  rewrite bind_cons, length_app, join_row_left_unique, IH; done.
Qed.

Lemma join_rows_elem h lkey rkey rkeep nr lrows rrows lr r :
  lr ∈ lrows → r ∈ join_row h lkey rkey rkeep nr rrows lr →
  r ∈ join_rows h lkey rkey rkeep nr lrows rrows.
Proof. unfold join_rows. intros ??. apply list_elem_of_bind. eauto. Qed.

(** ** Cells by label *)

Lemma index_of_Some c cols i :
  index_of c cols = Some i → cols !! i = Some c ∧ (i < length cols)%nat.
Proof.
  revert i; induction cols as [|c' cols IH]; intros i; simpl; [done|].
  destruct (decide (c' = c)) as [->|Hne].
  - intros [= <-]. split; [done|simpl; lia].
  - destruct (index_of c cols) as [j|]; [|done].
    intros [= <-]. destruct (IH j eq_refl). split; [done|simpl; lia].
Qed.

Lemma index_of_None c cols : index_of c cols = None ↔ c ∉ cols.
Proof.
  induction cols as [|c' cols IH]; simpl.
  - split; [intros _; apply not_elem_of_nil|done].
  - destruct (decide (c' = c)) as [->|Hne].
    + split; [done|]. intros []. left.
    + rewrite not_elem_of_cons. destruct (index_of c cols); simpl.
      * split; [done|]. intros [_ H]. by apply IH in H.
      * split; [|done]. intros _. split; [done|]. by apply IH.
Qed.

Lemma index_of_is_Some c cols : c ∈ cols → is_Some (index_of c cols).
Proof.
  intros Hin. destruct (index_of c cols) eqn:E; [eauto|].
  by apply index_of_None in E.
Qed.

Lemma index_of_app_l c l1 l2 i :
  index_of c l1 = Some i → index_of c (l1 ++ l2) = Some i.
Proof.
  revert i; induction l1 as [|c' l1 IH]; intros i; simpl; [done|].
  destruct (decide (c' = c)); [done|].
  destruct (index_of c l1) as [j|]; [|done].
  intros [= <-]. by rewrite (IH j).
Qed.

Lemma index_of_app_r c l1 l2 :
  c ∉ l1 → index_of c (l1 ++ l2) = (λ i, length l1 + i)%nat <$> index_of c l2.
Proof.
  induction l1 as [|c' l1 IH]; simpl.
  - intros _. by destruct (index_of c l2).
  - intros [Hne Hnin]%not_elem_of_cons.
    destruct (decide (c' = c)); [congruence|].
    rewrite IH by done. by destruct (index_of c l2).
Qed.

Lemma index_of_NoDup c cols i :
  NoDup cols → cols !! i = Some c → index_of c cols = Some i.
Proof.
  revert i; induction cols as [|c' cols IH]; intros i; [done|].
  intros [Hnin Hnd]%NoDup_cons. simpl.
  destruct i as [|i]; simpl.
  - intros [= ->]. by rewrite decide_True.
  - intros Hi. destruct (decide (c' = c)) as [->|].
    + destruct Hnin. by eapply list_elem_of_lookup_2.
    + by rewrite (IH i).
Qed.

Lemma has_col_true df c : has_col df c = true ↔ c ∈ columns df.
Proof. unfold has_col. by rewrite bool_decide_eq_true. Qed.

Lemma has_col_false df c : has_col df c = false ↔ c ∉ columns df.
Proof. unfold has_col. by rewrite bool_decide_eq_false. Qed.

Lemma cell_head c cols v r : cell (c :: cols) c (v :: r) = v.
Proof. unfold cell. simpl. by rewrite decide_True. Qed.

Lemma cell_tail c c' cols v r :
  c' ≠ c → cell (c' :: cols) c (v :: r) = cell cols c r.
Proof.
  intros Hne. unfold cell. simpl. rewrite decide_False by done.
  by destruct (index_of c cols).
Qed.

Lemma cell_app_l cols cols' c r r' :
  c ∈ cols → length r = length cols →
  cell (cols ++ cols') c (r ++ r') = cell cols c r.
Proof.
  intros [i Hi]%index_of_is_Some Hlen. unfold cell.
  rewrite (index_of_app_l _ _ _ _ Hi), Hi.
  apply index_of_Some in Hi as [_ Hlt].
  by rewrite lookup_app_l by lia.
Qed.

Lemma cell_app_r cols cols' c r r' :
  c ∉ cols → length r = length cols →
  cell (cols ++ cols') c (r ++ r') = cell cols' c r'.
Proof.
  intros Hnin Hlen. unfold cell. rewrite index_of_app_r by done.
  destruct (index_of c cols') as [i|]; [|done].
  cbv [fmap option_fmap option_map].
  rewrite lookup_app_r by lia. do 2 f_equal. lia.
Qed.

Lemma cell_absent cols c r : c ∉ cols → cell cols c r = VNull.
Proof. intros ?%index_of_None. unfold cell. by rewrite H. Qed.

Lemma project_length cols cs r : length (project cols cs r) = length cs.
Proof. unfold project. by rewrite length_fmap. Qed.

Lemma cell_project cols cs c r :
  c ∈ cs → cell cs c (project cols cs r) = cell cols c r.
Proof.
  intros [i Hi]%index_of_is_Some. unfold cell at 1. rewrite Hi.
  apply index_of_Some in Hi as [Hi _]. unfold project.
  by rewrite list_lookup_fmap, Hi.
Qed.

Lemma project_self cols r :
  NoDup cols → length r = length cols → project cols cols r = r.
Proof.
  intros Hnd Hlen. apply list_eq. intros i. unfold project.
  rewrite list_lookup_fmap.
  destruct (cols !! i) as [c|] eqn:Hc; simpl.
  - unfold cell. rewrite (index_of_NoDup _ _ _ Hnd Hc).
    apply lookup_lt_Some in Hc.
    destruct (lookup_lt_is_Some_2 r i) as [v Hv]; [lia|]. by rewrite Hv.
  - apply lookup_ge_None in Hc. symmetry. apply lookup_ge_None. lia.
Qed.

(** ** Shapes of the frame operations *)

Lemma select_Ok df cs d :
  select df cs = Ok d →
  columns d = cs ∧ rows d = project (columns df) cs <$> rows df ∧
  ∀ c, c ∈ cs → c ∈ columns df.
Proof.
  unfold select. destruct (missing_col df cs) eqn:E; [done|].
  intros [= <-]. split_and!; [done..|].
  induction cs as [|c' cs IH]; [by intros ? ?%elem_of_nil|].
  simpl in E. destruct (has_col df c') eqn:Hc; [|done].
  intros c [->|?]%elem_of_cons; [by apply has_col_true|by apply IH].
Qed.

Lemma select_present df cs :
  (∀ c, c ∈ cs → c ∈ columns df) →
  select df cs = Ok (mkDF cs (project (columns df) cs <$> rows df)).
Proof.
  intros Hall. unfold select.
  assert (missing_col df cs = None) as ->; [|done].
  induction cs as [|c cs IH]; [done|]. simpl.
  assert (has_col df c = true) as -> by (apply has_col_true, Hall; left).
  apply IH. intros c' ?. apply Hall. by right.
Qed.

Lemma select_filter_has df allowed :
  select df (filter (λ c, has_col df c) allowed)
  = Ok (mkDF (filter (λ c, has_col df c) allowed)
             (project (columns df) (filter (λ c, has_col df c) allowed) <$> rows df)).
Proof.
  apply select_present. intros c [Hc _]%list_elem_of_filter.
  apply has_col_true. by destruct (has_col df c).
Qed.

Lemma select_len df cs d : select df cs = Ok d → len d = len df.
Proof.
  intros (_ & Hr & _)%select_Ok. unfold len. by rewrite Hr, length_fmap.
Qed.

Lemma drop_duplicates_len df : (len (drop_duplicates df) ≤ len df)%nat.
Proof. apply keep_first_length. Qed.

Lemma drop_duplicates_elem df r :
  r ∈ rows df → r ∈ rows (drop_duplicates df).
Proof. apply keep_first_id_elem. Qed.

Lemma assign_len df c f : len (assign df c f) = len df.
Proof.
  unfold assign, len. destruct (index_of c (columns df)); simpl;
    by rewrite length_fmap.
Qed.

Lemma rename_len df a b : len (rename df a b) = len df.
Proof. done. Qed.

Lemma drop_cols_len df cs : len (drop_cols df cs) = len df.
Proof. unfold drop_cols, len. simpl. by rewrite length_fmap. Qed.

Lemma merge_left_len l r key sx sy d :
  merge l r key HowLeft sx sy = Ok d → (len l ≤ len d)%nat.
Proof.
  unfold merge. destruct (has_col l key), (has_col r key); simpl; try done.
  intros [= <-]. apply join_rows_left_length.
Qed.

Lemma mapM_result_length {A B} (f : A → result B) l k :
  mapM f l = Ok k → length k = length l.
Proof.
  revert k; induction l as [|x l IH]; intros k; simpl.
  - by intros [= <-].
  - destruct (f x); simpl; [|done].
    destruct (mapM f l); simpl; [|done].
    intros [= <-]. simpl. by rewrite (IH _ eq_refl).
Qed.

Lemma mapM_result_ext {A B} (f : A → result B) (g : A → B) l :
  (∀ x, x ∈ l → f x = Ok (g x)) → mapM f l = Ok (g <$> l).
Proof.
  induction l as [|x l IH]; intros Hall; simpl; [done|].
  rewrite Hall by left. simpl.
  rewrite IH; [done|]. intros y ?. apply Hall. by right.
Qed.

Lemma merge_left_on_len l keys r c d :
  length keys = len l →
  merge_left_on l keys r c HowLeft = Ok d → (len l ≤ len d)%nat.
Proof.
  intros Hk. unfold merge_left_on. destruct (has_col r c); simpl; [|done].
  intros [= <-]. unfold len at 2. simpl.
  etrans; [|apply join_rows_left_length].
  rewrite length_zip_with. unfold len in *. lia.
Qed.

(** ** Row counts through the joins of [tablas.py] *)

Lemma select_key_column d sel key d' :
  select d sel = Ok d' → key ∈ sel →
  cell (columns d') key <$> rows d' = get_col d key.
Proof.
  intros (Hc & Hr & _)%select_Ok Hin. rewrite Hc, Hr. unfold get_col.
  rewrite <- list_fmap_compose. apply list_fmap_ext. intros _ r _. simpl.
  by apply cell_project.
Qed.

Lemma merge_len_unique l r key sx sy d :
  merge l r key HowLeft sx sy = Ok d →
  NoDup (get_col r key) → len d = len l.
Proof.
  unfold merge. destruct (has_col l key), (has_col r key); simpl; try done.
  intros [= <-] Hnd. by apply join_rows_left_length_unique.
Qed.

Lemma merge_left_on_len_unique l keys r c d :
  length keys = len l →
  merge_left_on l keys r c HowLeft = Ok d →
  NoDup (get_col r c) → len d = len l.
Proof.
  intros Hk. unfold merge_left_on. destruct (has_col r c); simpl; [|done].
  intros [= <-] Hnd. unfold len at 1. simpl.
  rewrite join_rows_left_length_unique by done.
  rewrite length_zip_with. unfold len in *. lia.
Qed.

Section TablasRowCounts.
Context (parse_datetime : string → option Z).

Lemma merge_dim_len f dim sk key f' :
  Tablas.merge_dim f dim sk key = Ok f' → (len f ≤ len f')%nat.
Proof.
  unfold Tablas.merge_dim. destruct dim as [d|]; [|by intros [= <-]].
  destruct (has_col f key); [|by intros [= <-]].
  destruct (select d [sk; key]) as [d'|]; [|done]. simpl.
  apply merge_left_len.
Qed.

Lemma merge_dim_len_unique f dim sk key f' :
  Tablas.merge_dim f dim sk key = Ok f' →
  (∀ d, dim = Some d → NoDup (get_col d key)) →
  len f' = len f.
Proof.
  unfold Tablas.merge_dim. destruct dim as [d|]; [|by intros [= <-]].
  destruct (has_col f key); [|by intros [= <-]].
  destruct (select d [sk; key]) as [d'|] eqn:Hsel; [|done]. simpl.
  intros Hm Hnd. eapply merge_len_unique; [done|].
  unfold get_col at 1. erewrite select_key_column; [by apply Hnd|done|].
  set_solver.
Qed.

Lemma merge_date_len f d col sel sk f' :
  Tablas.merge_date parse_datetime f d col sel sk = Ok f' → (len f ≤ len f')%nat.
Proof.
  unfold Tablas.merge_date.
  destruct (select d sel) as [d'|]; [|done]. simpl.
  destruct (mapM _ _) as [keys|] eqn:Hk; [|done]. simpl.
  destruct (merge_left_on _ _ _ _ _) as [m|] eqn:Hm; [|done]. simpl.
  intros [= <-]. rewrite drop_cols_len.
  apply merge_left_on_len in Hm.
  - rewrite assign_len in Hm.
    by destruct (has_col m "date_sk").
  - apply mapM_result_length in Hk.
    rewrite length_fmap, Hk. unfold get_col, len. by rewrite length_fmap.
Qed.

Lemma merge_date_len_unique f d col sel sk f' :
  Tablas.merge_date parse_datetime f d col sel sk = Ok f' →
  "date" ∈ sel → NoDup (get_col d "date") → len f' = len f.
Proof.
  unfold Tablas.merge_date.
  destruct (select d sel) as [d'|] eqn:Hsel; [|done]. simpl.
  destruct (mapM _ _) as [keys|] eqn:Hk; [|done]. simpl.
  destruct (merge_left_on _ _ _ _ _) as [m|] eqn:Hm; [|done]. simpl.
  intros [= <-] Hin Hnd. rewrite drop_cols_len.
  apply merge_left_on_len_unique in Hm.
  - rewrite assign_len in Hm.
    by destruct (has_col m "date_sk").
  - apply mapM_result_length in Hk.
    rewrite length_fmap, Hk. unfold get_col, len. by rewrite length_fmap.
  - unfold get_col. by erewrite select_key_column.
Qed.

Lemma select_fact_Ok f allowed :
  ∃ fact, Tablas.select_fact f allowed = Ok fact ∧
          (len fact ≤ len f)%nat ∧
          ∀ r, r ∈ rows f → project (columns f) (columns fact) r ∈ rows fact.
Proof.
  unfold Tablas.select_fact. rewrite select_filter_has. simpl.
  eexists; split; [done|]. split.
  - etrans; [apply drop_duplicates_len|].
    unfold len. simpl. by rewrite length_fmap.
  - intros r Hr. apply drop_duplicates_elem. simpl.
    by apply list_elem_of_fmap_2.
Qed.
End TablasRowCounts.

(** ** The staging mapper *)

Lemma startswith_spec k s : Str.startswith k s = true ↔ ∃ b, s = k +:+ b.
Proof.
  revert s; induction k as [|a k IH]; intros s; simpl.
  - split; [eauto|done].
  - destruct s as [|a' s]; simpl.
    + split; [done|]. by intros [b ?].
    + rewrite andb_true_iff, bool_decide_eq_true, IH. split.
      * intros [-> [b ->]]. eauto.
      * intros [b [= -> ->]]. eauto.
Qed.

Lemma contains_spec k s : Str.contains k s = true ↔ ∃ a b, s = a +:+ k +:+ b.
Proof.
  induction s as [|c s IH]; simpl.
  - rewrite orb_false_r, startswith_spec. split.
    + intros [b ->]. by exists "", b.
    + intros ([|??] & b & Hs); simpl in Hs; [eauto|done].
  - rewrite orb_true_iff, startswith_spec, IH. split.
    + intros [[b ->]|(a & b & ->)]; [by exists "", b|by exists (String c a), b].
    + intros ([|c' a] & b & Hs); simpl in Hs; [eauto|].
      injection Hs as -> ->. eauto.
Qed.

(** The rule table in the order the loop visits it. *)
Lemma mapping_rules_order :
  Desnormalizar.mapping_rules =
    [("customer", "customers"); ("product", "products"); ("store", "stores");
     ("channel", "stores"); ("order_item", "order_items");
     ("sales_order_item", "order_items"); ("sales_order", "orders");
     ("order", "orders"); ("payment", "payment"); ("shipment", "shipment");
     ("web_session", "web_session"); ("nps_response", "nps_response");
     ("province", "province"); ("product_category", "product_category");
     ("address", "address")].
Proof. reflexivity. Qed.

Lemma first_rule_Some rules name v :
  Desnormalizar.first_rule rules name = Some v →
  ∃ i k, rules !! i = Some (k, v) ∧ Str.contains k name = true ∧
         ∀ j k' v', (j < i)%nat → rules !! j = Some (k', v') →
                    Str.contains k' name = false.
Proof.
  induction rules as [|[k0 v0] rules IH]; simpl; [done|].
  destruct (Str.contains k0 name) eqn:Hc.
  - intros [= ->]. exists 0%nat, k0. split_and!; [done..|]. intros; lia.
  - intros (i & k & Hi & Hk & Hfirst)%IH. exists (S i), k.
    split_and!; [done..|].
    intros [|j] k' v' Hj Hl; simplify_eq/=; [done|].
    eapply Hfirst; [|done]. lia.
Qed.

Lemma first_rule_None rules name :
  Desnormalizar.first_rule rules name = None →
  ∀ k v, (k, v) ∈ rules → Str.contains k name = false.
Proof.
  induction rules as [|[k0 v0] rules IH]; simpl; [by intros _ ?? ?%elem_of_nil|].
  destruct (Str.contains k0 name) eqn:Hc; [done|].
  intros Hn k v [[= -> ->]|Hin]%elem_of_cons; [done|]. by eapply IH.
Qed.

(** C9.  For every raw file name, the canonical name given by the staging
    mapper is the value of the first rule, in the order of the rule table,
    whose keyword occurs in the lowercased stem, and the lowercased stem
    itself when no keyword occurs in it; [k in name] is substring
    containment; the item rules come before the [order] rule, so that
    [sales_order_item_detail.csv] is mapped to [order_items]. *)
Theorem C9_first_matching_rule_wins :
  (∀ file,
     first_match_wins Desnormalizar.mapping_rules
       (Str.lower (Str.stem file)) (Desnormalizar.target_of file))
  ∧ (∀ k s, Str.contains k s = true ↔ ∃ a b, s = a +:+ k +:+ b)
  ∧ (∃ i j, Desnormalizar.mapping_rules !! i = Some ("order_item", "order_items")
            ∧ Desnormalizar.mapping_rules !! j = Some ("order", "orders")
            ∧ (i < j)%nat)
  ∧ Desnormalizar.target_of "sales_order_item_detail.csv" = "order_items"
  ∧ Desnormalizar.target_of "customers.csv" = "customers"
  ∧ Desnormalizar.target_of "Customer_Data.parquet" = "customers"
  ∧ Desnormalizar.target_of "inventory.csv" = "inventory".
Proof.
  split_and!.
  - intros file. unfold Desnormalizar.target_of.
    destruct (Desnormalizar.first_rule _ _) as [v|] eqn:E.
    + left. by apply first_rule_Some.
    + right. split; [|done]. by apply first_rule_None.
  - apply contains_spec.
  - exists 4%nat, 7%nat. split_and!; [reflexivity..|lia].
  - reflexivity.
  - reflexivity.
  - reflexivity.
  - reflexivity.
Qed.

(** ** Running the scripts *)

Lemma same_inputs_refl w : same_inputs w w.
Proof. by repeat split. Qed.

Lemma same_inputs_trans w1 w2 w3 :
  same_inputs w1 w2 → same_inputs w2 w3 → same_inputs w1 w3.
Proof.
  intros (?&?&?&?&?) (?&?&?&?&?). repeat split; try congruence. by etrans.
Qed.

Lemma same_inputs_staged w w' name : same_inputs w w' → staged w' name = staged w name.
Proof. intros (_&Hs&_). unfold staged. by rewrite Hs. Qed.

Lemma same_inputs_staged_or w w' a b :
  same_inputs w w' → staged_or w' a b = staged_or w a b.
Proof. intros H. unfold staged_or. by rewrite !(same_inputs_staged _ _ _ H). Qed.

Lemma bind_run {A B} (m : M A) (k : A → M B) w r w' :
  (m ≫= k) w = (r, w') →
  (∃ a w1, m w = (Ok a, w1) ∧ k a w1 = (r, w'))
  ∨ (∃ e, m w = (Raise e, w') ∧ r = Raise e).
Proof.
  unfold mbind, M_bind. destruct (m w) as [[a|e] w1]; [left; eauto|].
  intros [= <- <-]. right; eauto.
Qed.

Lemma bind_Ok {A B} (m : M A) (k : A → M B) w a w1 :
  m w = (Ok a, w1) → (m ≫= k) w = k a w1.
Proof. unfold mbind, M_bind. by intros ->. Qed.

Lemma bind_Raise {A B} (m : M A) (k : A → M B) w e w1 :
  m w = (Raise e, w1) → (m ≫= k) w = (Raise e, w1).
Proof. unfold mbind, M_bind. by intros ->. Qed.

Lemma bind_run_Ok {A B} (m : M A) (k : A → M B) w b w' :
  (m ≫= k) w = (Ok b, w') →
  ∃ a w1, m w = (Ok a, w1) ∧ k a w1 = (Ok b, w').
Proof. intros [?|(e & _ & ?)]%bind_run; [done|done]. Qed.

Lemma print_run s line w :
  ∃ w', print s line w = (Ok (), w') ∧ same_inputs w w' ∧
        dwh_dir w' = dwh_dir w ∧ printed w' = printed w ++ [(s, line)].
Proof.
  eexists; split; [done|]. split_and!; try done.
  repeat split; try done. simpl. by apply prefix_app_r.
Qed.

Lemma read_staging_run name w :
  ∃ w', Tablas.read_staging name w = (Ok (staged w name), w') ∧
        same_inputs w w' ∧ dwh_dir w' = dwh_dir w ∧
        (staged w name = None →
         (Stderr, "[warn] staging " +:+ name +:+ " no encontrado") ∈ printed w').
Proof.
  unfold Tablas.read_staging, staged.
  destruct (staging_dir w !! (name +:+ ".parquet")) as [d|].
  { exists w. split_and!; [done|apply same_inputs_refl|done..]. }
  destruct (staging_dir w !! (name +:+ ".csv")) as [d|].
  { exists w. split_and!; [done|apply same_inputs_refl|done..]. }
  eexists; split; [done|]. split_and!; try done.
  - repeat split; try done. simpl. by apply prefix_app_r.
  - intros _. simpl. apply elem_of_app. right. left.
Qed.

Lemma read_staging_or_run x b w :
  ∃ w', Tablas.read_staging_or x b w
        = (Ok (match x with Some _ => x | None => staged w b end), w') ∧
        same_inputs w w' ∧ dwh_dir w' = dwh_dir w.
Proof.
  destruct x as [d|]; simpl.
  - exists w. split_and!; [done|apply same_inputs_refl|done].
  - destruct (read_staging_run b w) as (w' & ? & ? & ? & _). eauto.
Qed.

(** [write_table] of [tablas.py] returns normally on every input, and only
    touches the two files of its table. *)
Lemma tablas_write_table_run df name w :
  ∃ w', Tablas.write_table df name w = (Ok (), w') ∧ same_inputs w w' ∧
        ∀ file, file ≠ name +:+ ".parquet" → file ≠ name +:+ ".csv" →
                dwh_dir w' !! file = dwh_dir w !! file.
Proof.
  unfold Tablas.write_table.
  assert (∀ line, ∃ w', print Stdout line w = (Ok (), w') ∧ same_inputs w w' ∧
            ∀ file, file ≠ name +:+ ".parquet" → file ≠ name +:+ ".csv" →
                    dwh_dir w' !! file = dwh_dir w !! file) as Hprint.
  { intros line. destruct (print_run Stdout line w) as (w' & ? & ? & Hd & _).
    exists w'. split_and!; [done..|]. intros. by rewrite Hd. }
  destruct df as [d|]; [|apply Hprint].
  destruct (empty d); [apply Hprint|].
  unfold try_except, mbind, M_bind, to_parquet, to_csv.
  destruct (parquet_ok w (name +:+ ".parquet")) eqn:Hp.
  { eexists; split; [done|]. split.
    - repeat split; try done. simpl. by apply prefix_app_r.
    - intros file Hf _. simpl. by rewrite lookup_insert_ne. }
  destruct (csv_ok w (name +:+ ".csv")) eqn:Hc.
  { eexists; split; [done|]. split.
    - repeat split; try done. simpl. by apply prefix_app_r.
    - intros file _ Hf. simpl. by rewrite lookup_insert_ne. }
  eexists; split; [done|]. split; [|done].
  repeat split; try done. simpl. by apply prefix_app_r.
Qed.

Section TablasRuns.
Context (parse_datetime : string → option Z).

Lemma dimension_run src build name w r w' :
  Tablas.dimension src build name w = (r, w') →
  same_inputs w w' ∧
  match src with
  | None => r = Ok None
  | Some t => match build t with
              | Ok d => r = Ok (Some d)
              | Raise e => r = Raise e
              end
  end.
Proof.
  unfold Tablas.dimension. destruct src as [t|].
  - intros [(d & w1 & Hl & H)|(e & Hl & ->)]%bind_run.
    + unfold lift in Hl. injection Hl as Hb <-. rewrite Hb.
      apply bind_run in H as [(u & w2 & Hw & H)|(e & Hw & _)].
      * destruct (tablas_write_table_run (Some d) name w) as (w2' & Hw' & Hs & _).
        rewrite Hw in Hw'. unfold mret, M_ret in H. by simplify_eq.
      * destruct (tablas_write_table_run (Some d) name w) as (? & Hw' & _).
        congruence.
    + unfold lift in Hl. injection Hl as Hb <-. rewrite Hb.
      split; [apply same_inputs_refl|done].
  - unfold mret, M_ret. intros [= <- <-]. split; [apply same_inputs_refl|done].
Qed.

Lemma dimension_run_Ok src build name w od w' :
  Tablas.dimension src build name w = (Ok od, w') →
  same_inputs w w' ∧ dim_of src build od.
Proof.
  intros [Hs H]%dimension_run. split; [done|].
  unfold dim_of. destruct src as [t|]; [|congruence].
  destruct (build t); simplify_eq; eauto.
Qed.

(** The stores table is [stores], and [channels] only when [stores] is
    missing. *)
Lemma stores_block_run w r w' :
  Tablas.stores_block w = (r, w') →
  same_inputs w w' ∧
  match staged_or w "stores" "channels" with
  | None => r = Ok None
  | Some t => match Tablas.dim_stores t with
              | Ok d => r = Ok (Some d)
              | Raise e => r = Raise e
              end
  end.
Proof.
  unfold Tablas.stores_block.
  destruct (read_staging_run "stores" w) as (w1 & Hr1 & Hs1 & _).
  rewrite (bind_Ok _ _ _ _ _ Hr1).
  destruct (read_staging_or_run (staged w "stores") "channels" w1)
    as (w2 & Hr2 & Hs2 & _).
  rewrite (bind_Ok _ _ _ _ _ Hr2).
  intros [Hs3 H]%dimension_run.
  rewrite (same_inputs_staged _ _ _ Hs1) in H.
  split; [eauto using same_inputs_trans|].
  unfold staged_or. by destruct (staged w "stores").
Qed.
End TablasRuns.

(** ** The date dimension's source *)

Lemma unique_NoDup s : NoDup (unique s).
Proof.
  unfold unique. rewrite <- (list_fmap_id (keep_first id [] s)).
  apply keep_first_NoDup.
Qed.

Lemma elem_of_unique s v : v ∈ unique s ↔ v ∈ s.
Proof.
  split; [|apply keep_first_id_elem].
  intros Hv. eapply elem_of_sublist; [done|apply keep_first_sublist].
Qed.

Lemma elem_of_dropna s v : v ∈ dropna s ↔ v ≠ VNull ∧ v ∈ s.
Proof. unfold dropna. by rewrite list_elem_of_filter. Qed.

Lemma get_col_single c vs : get_col (mkDF [c] ((λ v, [v]) <$> vs)) c = vs.
Proof.
  unfold get_col. simpl. rewrite <- list_fmap_compose.
  rewrite <- (list_fmap_id vs) at 2. apply list_fmap_ext.
  intros _ v _. simpl. apply cell_head.
Qed.

Lemma foldr_min_spec t0 ts :
  foldr Z.min t0 ts ∈ t0 :: ts ∧ ∀ t, t ∈ t0 :: ts → foldr Z.min t0 ts ≤ t.
Proof.
  induction ts as [|t1 ts [IHin IHle]]; simpl.
  - split; [left|]. intros t Ht. apply list_elem_of_singleton in Ht. lia.
  - split.
    + destruct (Z.min_spec t1 (foldr Z.min t0 ts)) as [[_ Hm]|[_ Hm]]; rewrite Hm.
      * right. left.
      * apply elem_of_cons in IHin as [Heq|Hin]; [rewrite Heq; left|].
        right. by right.
    + intros t Ht. apply elem_of_cons in Ht as [Heq|Ht].
      * specialize (IHle t0 ltac:(left)). lia.
      * apply elem_of_cons in Ht as [Heq|Ht]; [lia|].
        specialize (IHle t ltac:(by right)). lia.
Qed.

Lemma foldr_max_spec t0 ts :
  foldr Z.max t0 ts ∈ t0 :: ts ∧ ∀ t, t ∈ t0 :: ts → t ≤ foldr Z.max t0 ts.
Proof.
  induction ts as [|t1 ts [IHin IHle]]; simpl.
  - split; [left|]. intros t Ht. apply list_elem_of_singleton in Ht. lia.
  - split.
    + destruct (Z.max_spec t1 (foldr Z.max t0 ts)) as [[_ Hm]|[_ Hm]]; rewrite Hm.
      * apply elem_of_cons in IHin as [Heq|Hin]; [rewrite Heq; left|].
        right. by right.
      * right. left.
    + intros t Ht. apply elem_of_cons in Ht as [Heq|Ht].
      * specialize (IHle t0 ltac:(left)). lia.
      * apply elem_of_cons in Ht as [Heq|Ht]; [lia|].
        specialize (IHle t ltac:(by right)). lia.
Qed.

Lemma series_min_spec s m :
  series_min s = VTime m → m ∈ times s ∧ ∀ t, t ∈ times s → m ≤ t.
Proof.
  unfold series_min. destruct (times s) as [|t0 ts]; [done|].
  intros [= <-]. apply foldr_min_spec.
Qed.

Lemma series_max_spec s m :
  series_max s = VTime m → m ∈ times s ∧ ∀ t, t ∈ times s → t ≤ m.
Proof.
  unfold series_max. destruct (times s) as [|t0 ts]; [done|].
  intros [= <-]. apply foldr_max_spec.
Qed.

Lemma elem_of_times s t : t ∈ times s ↔ VTime t ∈ s.
Proof.
  unfold times. rewrite list_elem_of_bind. split.
  - intros (v & Hv & Hin). destruct v; try by apply elem_of_nil in Hv.
    by apply list_elem_of_singleton in Hv as ->.
  - intros Hin. exists (VTime t). split; [left|done].
Qed.

Lemma elem_of_date_range a b v :
  v ∈ date_range a b ↔
  ∃ i, 0 ≤ i ≤ (b - a) `div` ns_per_day ∧ v = VTime (a + i * ns_per_day).
Proof.
  unfold date_range. rewrite list_elem_of_fmap. split.
  - intros (i & -> & Hi%elem_of_seqZ). exists i. split; [lia|done].
  - intros (i & Hi & ->). exists i. split; [done|]. apply elem_of_seqZ. lia.
Qed.

Section DateSource.
Context (parse_datetime : string → option Z).

Lemma distinct_days_column df col :
  get_col (Tablas.distinct_days parse_datetime df col) "date"
  = unique (dropna (normalize <$> (to_datetime_coerce parse_datetime <$> get_col df col))).
Proof. apply get_col_single. Qed.

Lemma distinct_days_spec df col :
  NoDup (get_col (Tablas.distinct_days parse_datetime df col) "date") ∧
  ∀ v, v ∈ get_col (Tablas.distinct_days parse_datetime df col) "date" ↔
       v ≠ VNull ∧
       ∃ x, x ∈ get_col df col ∧ v = normalize (to_datetime_coerce parse_datetime x).
Proof.
  rewrite distinct_days_column. split; [apply unique_NoDup|].
  intros v. rewrite elem_of_unique, elem_of_dropna, <- list_fmap_compose.
  rewrite list_elem_of_fmap.
  split; intros [? (x & ? & ?)]; (split; [done|]); by exists x.
Qed.

Lemma dates_source_precedence orders customers :
  Tablas.dates_source parse_datetime orders customers
  = first_yielding [Tablas.dates_from_orders parse_datetime orders;
                    Tablas.dates_from_customers parse_datetime customers;
                    Tablas.dates_from_calendar parse_datetime orders].
Proof.
  unfold Tablas.dates_source, Tablas.select_dates, first_yielding.
  rewrite !filter_cons, filter_nil.
  destruct (Tablas.dates_from_orders parse_datetime orders) as [a|] eqn:Ea;
    destruct (Tablas.dates_from_customers parse_datetime customers) as [b|] eqn:Eb;
    destruct (Tablas.dates_from_calendar parse_datetime orders) as [c|] eqn:Ec;
    simpl;
    repeat match goal with
           | |- context [empty ?d] => destruct (empty d) eqn:?; simpl
           end;
    repeat case_decide; simplify_eq/=; try done.
Qed.

(** The generated calendar is never what the date dimension is built
    from: whenever the orders have a first and a last date, their
    distinct dates have already been taken. *)
Lemma calendar_never_selected orders customers c :
  Tablas.dates_from_calendar parse_datetime orders = Some c →
  Tablas.dates_source parse_datetime orders customers
  = Tablas.dates_from_orders parse_datetime orders.
Proof.
  unfold Tablas.dates_from_calendar.
  destruct orders as [o|]; [|done].
  destruct (has_col o "order_date") eqn:Hc; [|done].
  destruct (series_min _) as [| | |mn] eqn:Hmin; try done.
  intros _. apply series_min_spec in Hmin as [Hin%elem_of_times _].
  unfold Tablas.dates_source, Tablas.select_dates, Tablas.dates_from_orders.
  rewrite Hc.
  assert (none_or_empty (Some (Tablas.distinct_days parse_datetime o "order_date"))
          = false) as Hne.
  { simpl. unfold empty. simpl.
    destruct (unique _) as [|v vs] eqn:Hu; [|done].
    assert (normalize (VTime mn) ∈ unique (dropna (normalize <$>
              (to_datetime_coerce parse_datetime <$> get_col o "order_date"))))
      as Hv; [|by rewrite Hu in Hv; apply elem_of_nil in Hv].
    rewrite elem_of_unique, elem_of_dropna. split; [done|].
    by apply list_elem_of_fmap_2. }
  by rewrite !Hne.
Qed.
End DateSource.

Section TablasDimensions.
Context (parse_datetime : string → option Z).

(** What a run of [build_dimensions] that returns has put in [dims]. *)
Lemma build_dimensions_Ok w dims w' :
  Tablas.build_dimensions parse_datetime w = (Ok dims, w') →
  same_inputs w w' ∧
  dim_of (staged w "customers") (Tablas.dim_customers parse_datetime)
         (Tablas.customers dims) ∧
  dim_of (staged w "products") (Tablas.dim_products parse_datetime)
         (Tablas.products dims) ∧
  dim_of (staged_or w "stores" "channels") Tablas.dim_stores (Tablas.stores dims) ∧
  dim_of (Tablas.dates_source parse_datetime (staged w "orders") (staged w "customers"))
         (Tablas.dim_date parse_datetime) (Tablas.dates dims) ∧
  dim_of (staged w "address") Tablas.dim_address (Tablas.address dims) ∧
  dim_of (staged w "product_category") Tablas.dim_product_category
         (Tablas.product_category dims).
Proof.
  unfold Tablas.build_dimensions.
  destruct (read_staging_run "customers" w) as (w1 & Hr1 & Hs1 & _).
  rewrite (bind_Ok _ _ _ _ _ Hr1).
  intros (dc & w2 & [Hs2 Hdc]%dimension_run_Ok & H)%bind_run_Ok.
  pose proof (same_inputs_trans _ _ _ Hs1 Hs2) as Hw2.
  destruct (read_staging_run "products" w2) as (w3 & Hr3 & Hs3 & _).
  rewrite (bind_Ok _ _ _ _ _ Hr3) in H.
  apply bind_run_Ok in H as (dp & w4 & [Hs4 Hdp]%dimension_run_Ok & H).
  pose proof (same_inputs_trans _ _ _ Hw2 (same_inputs_trans _ _ _ Hs3 Hs4)) as Hw4.
  apply bind_run_Ok in H as (ds & w5 & [Hs5 Hds]%stores_block_run & H).
  pose proof (same_inputs_trans _ _ _ Hw4 Hs5) as Hw5.
  destruct (read_staging_run "orders" w5) as (w6 & Hr6 & Hs6 & _).
  rewrite (bind_Ok _ _ _ _ _ Hr6) in H.
  apply bind_run_Ok in H as (dd & w7 & [Hs7 Hdd]%dimension_run_Ok & H).
  pose proof (same_inputs_trans _ _ _ Hw5 (same_inputs_trans _ _ _ Hs6 Hs7)) as Hw7.
  destruct (read_staging_run "address" w7) as (w8 & Hr8 & Hs8 & _).
  rewrite (bind_Ok _ _ _ _ _ Hr8) in H.
  apply bind_run_Ok in H as (da & w9 & [Hs9 Hda]%dimension_run_Ok & H).
  pose proof (same_inputs_trans _ _ _ Hw7 (same_inputs_trans _ _ _ Hs8 Hs9)) as Hw9.
  destruct (read_staging_run "product_category" w9) as (w10 & Hr10 & Hs10 & _).
  rewrite (bind_Ok _ _ _ _ _ Hr10) in H.
  apply bind_run_Ok in H as (dpc & w11 & [Hs11 Hdpc]%dimension_run_Ok & H).
  unfold mret, M_ret in H. simplify_eq. simpl.
  rewrite (same_inputs_staged _ _ _ Hw2) in Hdp.
  rewrite (same_inputs_staged_or _ _ _ _ Hw4) in Hds.
  rewrite (same_inputs_staged _ _ _ Hw5) in Hdd.
  rewrite (same_inputs_staged _ _ _ Hw7) in Hda.
  rewrite (same_inputs_staged _ _ _ Hw9) in Hdpc.
  split_and!; try done.
  - eauto using same_inputs_trans.
  - unfold dim_of. destruct (staged_or w "stores" "channels"); [|congruence].
    destruct (Tablas.dim_stores d); simplify_eq; eauto.
Qed.
End TablasDimensions.

(** C6.  The source of the date dimension built by [tablas.py] is the
    first of three that yields at least one date: (a) the distinct
    normalized dates of [orders.order_date], when the orders staging table
    exists and has that column; (b) the distinct normalized dates of
    [customers.created_at]; (c) the daily calendar from the first to the
    last order date, both included.  When none yields a date the
    dimension is null. *)
Theorem C6_date_source_precedence (parse_datetime : string → option Z) :
  (∀ orders customers,
     Tablas.dates_source parse_datetime orders customers
     = first_yielding [Tablas.dates_from_orders parse_datetime orders;
                       Tablas.dates_from_customers parse_datetime customers;
                       Tablas.dates_from_calendar parse_datetime orders])
  ∧ (∀ orders d,
       Tablas.dates_from_orders parse_datetime orders = Some d ↔
       ∃ o, orders = Some o ∧ "order_date" ∈ columns o ∧
            d = Tablas.distinct_days parse_datetime o "order_date")
  ∧ (∀ customers d,
       Tablas.dates_from_customers parse_datetime customers = Some d ↔
       ∃ c, customers = Some c ∧ "created_at" ∈ columns c ∧
            d = Tablas.distinct_days parse_datetime c "created_at")
  ∧ (∀ df col,
       NoDup (get_col (Tablas.distinct_days parse_datetime df col) "date") ∧
       ∀ v, v ∈ get_col (Tablas.distinct_days parse_datetime df col) "date" ↔
            v ≠ VNull ∧
            ∃ x, x ∈ get_col df col ∧
                 v = normalize (to_datetime_coerce parse_datetime x))
  ∧ (∀ orders d,
       Tablas.dates_from_calendar parse_datetime orders = Some d →
       ∃ o mn mx,
         orders = Some o ∧ "order_date" ∈ columns o ∧
         series_min (to_datetime_coerce parse_datetime <$> get_col o "order_date")
           = VTime mn ∧
         series_max (to_datetime_coerce parse_datetime <$> get_col o "order_date")
           = VTime mx ∧
         get_col d "date"
           = date_range (days_of mn * ns_per_day) (days_of mx * ns_per_day))
  ∧ (∀ a b v,
       v ∈ date_range a b ↔
       ∃ i, 0 ≤ i ≤ (b - a) `div` ns_per_day ∧ v = VTime (a + i * ns_per_day))
  ∧ (∀ w dims w',
       Tablas.build_dimensions parse_datetime w = (Ok dims, w') →
       dim_of (first_yielding
                 [Tablas.dates_from_orders parse_datetime (staged w "orders");
                  Tablas.dates_from_customers parse_datetime (staged w "customers");
                  Tablas.dates_from_calendar parse_datetime (staged w "orders")])
              (Tablas.dim_date parse_datetime) (Tablas.dates dims)).
Proof.
  split_and!.
  - apply dates_source_precedence.
  - intros orders d. unfold Tablas.dates_from_orders. split.
    + destruct orders as [o|]; [|done].
      destruct (has_col o "order_date") eqn:Hc; [|done].
      intros [= <-]. exists o. by apply has_col_true in Hc.
    + intros (o & -> & Hc%has_col_true & ->). by rewrite Hc.
  - intros customers d. unfold Tablas.dates_from_customers. split.
    + destruct customers as [c|]; [|done].
      destruct (has_col c "created_at") eqn:Hc; [|done].
      intros [= <-]. exists c. by apply has_col_true in Hc.
    + intros (c & -> & Hc%has_col_true & ->). by rewrite Hc.
  - apply distinct_days_spec.
  - intros orders d. unfold Tablas.dates_from_calendar.
    destruct orders as [o|]; [|done].
    destruct (has_col o "order_date") eqn:Hc; [|done].
    destruct (series_min _) as [| | |mn] eqn:Hmin; try done.
    destruct (series_max _) as [| | |mx] eqn:Hmax; try done.
    simpl. intros [= <-]. exists o, mn, mx.
    split_and!; [done|by apply has_col_true|done..|apply get_col_single].
  - apply elem_of_date_range.
  - intros w dims w' (_ & _ & _ & _ & H & _)%build_dimensions_Ok.
    by rewrite dates_source_precedence in H.
Qed.

Lemma C6_date_source_precedence_witness :
  ∃ dims w',
    Tablas.build_dimensions no_parse scenario = (Ok dims, w') ∧
    dim_of (first_yielding
              [Tablas.dates_from_orders no_parse (staged scenario "orders");
               Tablas.dates_from_customers no_parse (staged scenario "customers");
               Tablas.dates_from_calendar no_parse (staged scenario "orders")])
           (Tablas.dim_date no_parse) (Tablas.dates dims).
Proof.
  eexists _, _. split; [vm_compute; reflexivity|].
  eapply (proj2 (proj2 (proj2 (proj2 (proj2 (proj2
            (C6_date_source_precedence no_parse))))))).
  vm_compute; reflexivity.
Defined.

(** ** Surrogate keys *)

Lemma range1_length n : length (range1 n) = n.
Proof. unfold range1. by rewrite length_fmap, length_seq. Qed.

Lemma range1_lookup n i :
  (i < n)%nat → range1 n !! i = Some (VNum (Z.of_nat i + 1)).
Proof.
  intros Hi. unfold range1. rewrite list_lookup_fmap.
  rewrite (proj2 (lookup_seq 0 n i i)) by (split; [done|lia]). simpl.
  do 2 f_equal. lia.
Qed.

Lemma range1_NoDup n : NoDup (range1 n).
Proof.
  unfold range1. apply NoDup_fmap_2; [|apply NoDup_seq].
  intros i j [=]. lia.
Qed.

Lemma heads_cells sk rest (rs : list row) vals :
  head <$> rs = Some <$> vals → cell (sk :: rest) sk <$> rs = vals.
Proof.
  revert vals; induction rs as [|r rs IH]; intros [|v vals]; try done.
  rewrite !fmap_cons. intros [= Hr Hrs].
  destruct r as [|x r]; simplify_eq/=. by rewrite cell_head, (IH vals).
Qed.

Lemma headed_get_col df sk vals : headed df sk vals → get_col df sk = vals.
Proof.
  intros [[rest Hc] Hh]. unfold get_col. rewrite Hc. by apply heads_cells.
Qed.

Lemma headed_len df sk vals : headed df sk vals → length vals = len df.
Proof.
  intros [_ Hh]. unfold len.
  by rewrite <- (length_fmap head (rows df)), Hh, length_fmap.
Qed.

Lemma insert0_Ok df c vals d :
  insert0 df c vals = Ok d →
  (c ∉ columns df) ∧ columns d = c :: columns df ∧
  rows d = zip_with cons vals (rows df).
Proof.
  unfold insert0. destruct (has_col df c) eqn:Hc; [done|].
  intros [= <-]. by apply has_col_false in Hc.
Qed.

Lemma insert0_absent df c vals :
  c ∉ columns df →
  insert0 df c vals = Ok (mkDF (c :: columns df) (zip_with cons vals (rows df))).
Proof. intros Hc%has_col_false. unfold insert0. by rewrite Hc. Qed.

Lemma heads_zip_cons (vals : list value) (rs : list row) :
  length vals = length rs → head <$> zip_with cons vals rs = Some <$> vals.
Proof.
  revert rs; induction vals as [|v vals IH]; intros [|r rs]; try done.
  simpl. intros [= Hl]. by rewrite IH.
Qed.

Lemma insert0_headed df c vals d :
  insert0 df c vals = Ok d → length vals = len df → headed d c vals.
Proof.
  intros (_ & Hc & Hr)%insert0_Ok Hl. split; [eauto|].
  rewrite Hr. by apply heads_zip_cons.
Qed.

Lemma index_of_tail_ne c sk rest i :
  c ≠ sk → index_of c (sk :: rest) = Some i → ∃ j, i = S j.
Proof.
  intros Hne. simpl. rewrite decide_False by done.
  destruct (index_of c rest) as [j|]; [|done]. intros [= <-]. eauto.
Qed.

Lemma head_insert_S {A} (l : list A) j x : head (<[S j := x]> l) = head l.
Proof. by destruct l. Qed.

Lemma head_snoc {A} (l : list A) x y : head l = Some y → head (l ++ [x]) = Some y.
Proof. by destruct l. Qed.

Lemma headed_assign df sk vals c f :
  headed df sk vals → c ≠ sk → headed (assign df c f) sk vals.
Proof.
  intros [[rest Hc] Hh] Hne. unfold assign.
  destruct (index_of c (columns df)) as [i|] eqn:Hi.
  - rewrite Hc in Hi. apply index_of_tail_ne in Hi as [j ->]; [|done].
    split; [simpl; eauto|]. simpl. rewrite <- Hh, <- list_fmap_compose.
    apply list_fmap_ext. intros _ r _. simpl. apply head_insert_S.
  - split; [simpl; rewrite Hc; simpl; eauto|]. simpl.
    rewrite <- Hh, <- list_fmap_compose.
    clear Hi. revert vals Hh. induction (rows df) as [|r rs IH]; intros [|v vals];
      try done.
    rewrite !fmap_cons. intros [= Hr Hrs]. simpl. f_equal.
    + rewrite Hr. by apply head_snoc.
    + by apply (IH vals).
Qed.

Lemma headed_assign_col df sk vals c vs :
  headed df sk vals → c ≠ sk → length vs = len df →
  headed (assign_col df c vs) sk vals.
Proof.
  intros [[rest Hc] Hh] Hne Hl. unfold assign_col, len in *.
  destruct (index_of c (columns df)) as [i|] eqn:Hi.
  - rewrite Hc in Hi. apply index_of_tail_ne in Hi as [j ->]; [|done].
    split; [simpl; eauto|]. simpl. rewrite <- Hh. clear Hh.
    revert vs Hl. induction (rows df) as [|r rs IH]; intros [|v vs]; try done.
    simpl. intros [= Hl]. by rewrite head_insert_S, IH.
  - split; [simpl; rewrite Hc; simpl; eauto|]. simpl.
    rewrite <- Hh. clear Hi.
    revert vals vs Hh Hl. induction (rows df) as [|r rs IH];
      intros [|v vals] [|x vs]; try done.
    rewrite !fmap_cons. intros [= Hr Hrs] [= Hl]. simpl. f_equal.
    + rewrite Hr. by apply head_snoc.
    + by apply (IH vals).
Qed.

Lemma assign_col_len df c vs : length vs = len df → len (assign_col df c vs) = len df.
Proof.
  intros Hl. unfold assign_col, len in *.
  destruct (index_of c (columns df)); simpl; rewrite length_zip_with; lia.
Qed.

Lemma assign_checked_Ok df c f d :
  assign_checked df c f = Ok d →
  ∃ vals, mapM f (rows df) = Ok vals ∧ d = assign_col df c vals ∧
          length vals = len df.
Proof.
  unfold assign_checked. destruct (mapM f (rows df)) as [vals|] eqn:Hm; [|done].
  simpl. intros [= <-]. exists vals. split_and!; [done..|].
  by apply mapM_result_length in Hm.
Qed.

Lemma sort_values_Ok df c d :
  sort_values df c = Ok d →
  c ∈ columns df ∧ columns d = columns df ∧ rows d ≡ₚ rows df.
Proof.
  unfold sort_values. destruct (has_col df c) eqn:Hc; [|done].
  intros [= <-]. split_and!; [by apply has_col_true|done|].
  simpl. apply merge_sort_Permutation.
Qed.

Lemma insert_sk_keyed c sk d :
  Tablas.insert_sk c sk = Ok d →
  keyed_in_order d c sk ∧ dense_keys d sk ∧ len d = len c.
Proof.
  unfold Tablas.insert_sk. intros H.
  pose proof (insert0_headed _ _ _ _ H (range1_length _)) as Hh.
  apply insert0_Ok in H as (_ & Hc & Hr).
  assert (len d = len c) as Hl.
  { unfold len. rewrite Hr, length_zip_with, range1_length. unfold len. lia. }
  split_and!; [done| |done].
  unfold dense_keys. rewrite Hl. by apply headed_get_col.
Qed.

Section DimensionKeys.
Context (parse_datetime : string → option Z).

(** Every one of the five keyed dimensions is its deduplicated frame
    with the surrogate key put in front. *)
Lemma keyed_dimension c key sk d :
  (c' ← Tablas.dedupe c key; Tablas.insert_sk c' sk) = Ok d →
  ∃ c', Tablas.dedupe c key = Ok c' ∧ keyed_in_order d c' sk ∧
        dense_keys d sk ∧ len d = len c'.
Proof.
  destruct (Tablas.dedupe c key) as [c'|]; [|done]. simpl.
  intros H%insert_sk_keyed. eauto.
Qed.

Lemma dim_date_dense src d :
  Tablas.dim_date parse_datetime src = Ok d →
  dense_keys d "date_sk" ∧ len d = len src.
Proof.
  unfold Tablas.dim_date.
  destruct (sort_values src "date") as [s1|] eqn:H1; [|done]. simpl.
  destruct (assign_checked s1 "date" _) as [s2|] eqn:H2; [|done]. simpl.
  destruct (Tablas.insert_sk s2 "date_sk") as [s3|] eqn:H3; [|done]. simpl.
  destruct (assign_checked s3 "date_id" _) as [s4|] eqn:H4; [|done]. simpl.
  intros [= <-].
  apply sort_values_Ok in H1 as (_ & _ & Hp).
  apply assign_checked_Ok in H2 as (v2 & _ & -> & Hl2).
  apply assign_checked_Ok in H4 as (v4 & _ & -> & Hl4).
  pose proof (insert0_headed _ _ _ _ H3 (range1_length _)) as Hh.
  apply insert_sk_keyed in H3 as (_ & _ & Hl3).
  set (s2 := assign_col s1 "date" v2) in *.
  assert (len s2 = len src) as Hlen2.
  { unfold s2. rewrite assign_col_len by done. unfold len. by rewrite Hp. }
  cbv zeta. split.
  - unfold dense_keys. rewrite !assign_len, assign_col_len, Hl3 by done.
    apply headed_get_col.
    repeat (apply headed_assign; [|done]).
    by apply headed_assign_col.
  - rewrite !assign_len, assign_col_len by done. congruence.
Qed.
End DimensionKeys.

(** C8.  In every dimension that [build_dimensions] builds, the surrogate
    key column holds the integers 1, 2, ..., N down the rows, where N is
    the number of rows left by the deduplication: the dimension is the
    deduplicated frame with that column put in front, the [i]-th row
    carrying the key [i].  For the date dimension the rows are the distinct
    dates, numbered in ascending order. *)
Theorem C8_surrogate_keys_dense (parse_datetime : string → option Z) w dims w' :
  Tablas.build_dimensions parse_datetime w = (Ok dims, w') →
  (∀ d, Tablas.customers dims = Some d →
        dense_keys d "customer_sk" ∧
        ∃ t c, staged w "customers" = Some t ∧
               Tablas.dedupe (Tablas.canonical_customers parse_datetime t) "customer_id"
                 = Ok c ∧
               keyed_in_order d c "customer_sk")
  ∧ (∀ d, Tablas.products dims = Some d →
        dense_keys d "product_sk" ∧
        ∃ t c, staged w "products" = Some t ∧
               Tablas.dedupe (Tablas.canonical_products parse_datetime t) "product_id"
                 = Ok c ∧
               keyed_in_order d c "product_sk")
  ∧ (∀ d, Tablas.stores dims = Some d →
        dense_keys d "store_sk" ∧
        ∃ t c, staged_or w "stores" "channels" = Some t ∧
               Tablas.dedupe (Tablas.canonical_stores t) "store_id" = Ok c ∧
               keyed_in_order d c "store_sk")
  ∧ (∀ d, Tablas.address dims = Some d →
        dense_keys d "address_sk" ∧
        ∃ t c, staged w "address" = Some t ∧
               Tablas.dedupe t "address_id" = Ok c ∧
               keyed_in_order d c "address_sk")
  ∧ (∀ d, Tablas.product_category dims = Some d →
        dense_keys d "product_category_sk" ∧
        ∃ t c, staged w "product_category" = Some t ∧
               Tablas.dedupe t "category_id" = Ok c ∧
               keyed_in_order d c "product_category_sk")
  ∧ (∀ d, Tablas.dates dims = Some d →
        dense_keys d "date_sk" ∧
        ∃ src, Tablas.dates_source parse_datetime (staged w "orders")
                 (staged w "customers") = Some src ∧
               len d = len src)
  ∧ (∀ n, length (range1 n) = n ∧ NoDup (range1 n) ∧
          ∀ i, (i < n)%nat → range1 n !! i = Some (VNum (Z.of_nat i + 1))).
Proof.
  intros (_ & Hc & Hp & Hs & Hd & Ha & Hpc)%build_dimensions_Ok.
  assert (∀ src prep key sk od,
            dim_of src (λ t, c' ← Tablas.dedupe (prep t) key; Tablas.insert_sk c' sk) od →
            ∀ d, od = Some d →
                 dense_keys d sk ∧
                 ∃ t c, src = Some t ∧ Tablas.dedupe (prep t) key = Ok c ∧
                        keyed_in_order d c sk) as Hkeyed.
  { intros src prep key sk od Hof d ->. unfold dim_of in Hof.
    destruct src as [t|]; [|done]. destruct Hof as (d' & Hb & [= <-]).
    apply keyed_dimension in Hb as (c & Hc' & Hk & Hdense & _).
    split; [done|]. by exists t, c. }
  split_and!.
  - by apply (Hkeyed _ (Tablas.canonical_customers parse_datetime) _ _ _ Hc).
  - by apply (Hkeyed _ (Tablas.canonical_products parse_datetime) _ _ _ Hp).
  - by apply (Hkeyed _ Tablas.canonical_stores _ _ _ Hs).
  - by apply (Hkeyed _ id _ _ _ Ha).
  - by apply (Hkeyed _ id _ _ _ Hpc).
  - intros d Hdd. rewrite Hdd in Hd. unfold dim_of in Hd.
    destruct (Tablas.dates_source _ _ _) as [src|]; [|done].
    destruct Hd as (d' & Hb & [= <-]).
    apply dim_date_dense in Hb as [??]. split; [done|]. by exists src.
  - intros n. split_and!;
      [apply range1_length|apply range1_NoDup|apply range1_lookup].
Qed.

Lemma C8_surrogate_keys_dense_witness :
  ∃ dims w' d,
    Tablas.build_dimensions no_parse scenario = (Ok dims, w') ∧
    Tablas.customers dims = Some d ∧
    dense_keys d "customer_sk".
Proof.
  eexists _, _, _. split; [vm_compute; reflexivity|].
  split; [vm_compute; reflexivity|].
  refine (proj1 (proj1 (C8_surrogate_keys_dense no_parse scenario _ _ _) _ _));
    vm_compute; reflexivity.
Defined.

(** ** Which row survives the deduplication *)

Lemma zip_cons_cells sk cols key (vals : list value) (rs : list row) :
  key ≠ sk → length vals = length rs →
  cell (sk :: cols) key <$> zip_with cons vals rs = cell cols key <$> rs.
Proof.
  intros Hne. revert rs; induction vals as [|v vals IH]; intros [|r rs]; try done.
  simpl. intros [= Hl]. f_equal; [by apply cell_tail|by apply IH].
Qed.

Lemma tail_zip_cons (vals : list value) (rs : list row) :
  length vals = length rs → tail <$> zip_with cons vals rs = rs.
Proof.
  revert rs; induction vals as [|v vals IH]; intros [|r rs]; try done.
  simpl. intros [= Hl]. by rewrite IH.
Qed.

Lemma dedupe_keyed c key c' :
  Tablas.dedupe c key = Ok c' → key ∈ columns c →
  c' = mkDF (columns c) (keep_first (cell (columns c) key) [] (rows c)).
Proof.
  unfold Tablas.dedupe, drop_duplicates_subset.
  intros H Hin%has_col_true. rewrite Hin in H. congruence.
Qed.

Lemma keyed_first_occurrences c key sk d :
  (c' ← Tablas.dedupe c key; Tablas.insert_sk c' sk) = Ok d →
  key ∈ columns c → key ≠ sk →
  first_occurrences c d key.
Proof.
  intros (c' & Hd & [Hcols Hrows] & _ & Hlen)%keyed_dimension Hin Hne.
  apply dedupe_keyed in Hd; [|done]. subst c'. simpl in *.
  unfold len in *. simpl in *.
  set (kept := keep_first (cell (columns c) key) [] (rows c)) in *.
  split_and!.
  - intros n r Hn. rewrite Hrows in Hn.
    apply lookup_zip_with_Some in Hn as (v & r0 & -> & Hv & Hr0).
    apply keep_first_is_first in Hr0 as (i & Hi & _ & Hfirst).
    assert (n < length kept)%nat as Hlt.
    { apply lookup_lt_Some in Hv. by rewrite range1_length in Hv. }
    rewrite range1_lookup in Hv by done. injection Hv as <-.
    exists i, r0. split_and!; [done..|].
    intros j r' Hj Hr'. by apply (Hfirst j r').
  - unfold get_col. rewrite Hcols, Hrows.
    rewrite zip_cons_cells by (done || apply range1_length).
    apply keep_first_NoDup.
  - intros r0 Hr0. unfold get_col. rewrite Hcols, Hrows.
    rewrite zip_cons_cells by (done || apply range1_length).
    destruct (keep_first_covers (cell (columns c) key) [] (rows c) r0 Hr0)
      as [?%elem_of_nil|?]; done.
  - rewrite Hrows, tail_zip_cons by apply range1_length.
    apply keep_first_sublist.
Qed.

(** C10.  In each of the five keyed dimensions of [tablas.py], when the
    staging table has the natural key column, the rows that survive the
    deduplication are the first occurrences of their natural key in row
    order ([keep='first']): the [n]-th survivor is a row that no earlier
    row shares its key with, it keeps its own attribute values, it gets
    the surrogate key [n], and every natural key keeps exactly one row. *)
Theorem C10_first_occurrence_survives (parse_datetime : string → option Z) :
  (∀ t d, Tablas.dim_customers parse_datetime t = Ok d →
          "customer_id" ∈ columns (Tablas.canonical_customers parse_datetime t) →
          first_occurrences (Tablas.canonical_customers parse_datetime t) d "customer_id")
  ∧ (∀ t d, Tablas.dim_products parse_datetime t = Ok d →
          "product_id" ∈ columns (Tablas.canonical_products parse_datetime t) →
          first_occurrences (Tablas.canonical_products parse_datetime t) d "product_id")
  ∧ (∀ t d, Tablas.dim_stores t = Ok d →
          "store_id" ∈ columns (Tablas.canonical_stores t) →
          first_occurrences (Tablas.canonical_stores t) d "store_id")
  ∧ (∀ t d, Tablas.dim_address t = Ok d →
          "address_id" ∈ columns t →
          first_occurrences t d "address_id")
  ∧ (∀ t d, Tablas.dim_product_category t = Ok d →
          "category_id" ∈ columns t →
          first_occurrences t d "category_id").
Proof.
  split_and!; intros t d Hd Hin;
    by eapply keyed_first_occurrences; [apply Hd|apply Hin|].
Qed.

Lemma C10_first_occurrence_survives_witness :
  first_occurrences
    (Tablas.canonical_customers no_parse
       (mkDF ["customer_id"; "name"]
             [[VNum 1; VStr "A"]; [VNum 1; VStr "Z"]; [VNum 2; VStr "B"]]))
    (mkDF ["customer_sk"; "customer_id"; "name"]
          [[VNum 1; VNum 1; VStr "A"]; [VNum 2; VNum 2; VStr "B"]])
    "customer_id".
Proof.
  apply (proj1 (C10_first_occurrence_survives no_parse)).
  - vm_compute; reflexivity.
  - apply has_col_true. vm_compute; reflexivity.
Defined.

(** ** Columns after an assignment *)

Lemma aligned_elem df r : aligned df → r ∈ rows df → length r = length (columns df).
Proof. unfold aligned. rewrite Forall_forall. auto. Qed.

Lemma aligned_assign df c f : aligned df → aligned (assign df c f).
Proof.
  unfold aligned, assign. intros Ha.
  destruct (index_of c (columns df)) as [i|]; simpl.
  - apply Forall_fmap. eapply Forall_impl; [done|]. intros r Hr. simpl.
    by rewrite length_insert.
  - apply Forall_fmap. eapply Forall_impl; [done|]. intros r Hr. simpl.
    rewrite !length_app, Hr. done.
Qed.

Lemma columns_assign df c f :
  columns (assign df c f)
  = if has_col df c then columns df else columns df ++ [c].
Proof.
  unfold assign. destruct (index_of c (columns df)) as [i|] eqn:Hi; simpl.
  - assert (has_col df c = true) as ->; [|done].
    apply has_col_true. destruct (decide (c ∈ columns df)) as [|Hn]; [done|].
    apply index_of_None in Hn. congruence.
  - apply index_of_None, has_col_false in Hi. by rewrite Hi.
Qed.

Lemma has_col_assign df c f c' :
  has_col (assign df c f) c' = has_col df c' || bool_decide (c' = c).
Proof.
  apply eq_true_iff_eq. rewrite has_col_true, columns_assign, orb_true_iff.
  rewrite has_col_true, bool_decide_eq_true.
  destruct (has_col df c) eqn:Hc.
  - apply has_col_true in Hc. split; [by left|]. intros [?| ->]; done.
  - rewrite elem_of_app, list_elem_of_singleton. done.
Qed.

Lemma get_col_assign_same df c f :
  aligned df → get_col (assign df c f) c = f <$> rows df.
Proof.
  intros Ha. unfold get_col, assign.
  destruct (index_of c (columns df)) as [i|] eqn:Hi; simpl.
  - rewrite <- list_fmap_compose. apply list_fmap_ext.
    intros _ r Hr%list_elem_of_lookup_2. simpl. unfold cell. rewrite Hi.
    apply index_of_Some in Hi as [_ Hlt].
    pose proof (aligned_elem _ _ Ha Hr) as Hlen.
    by rewrite list_lookup_insert_eq by lia.
  - rewrite <- list_fmap_compose. apply list_fmap_ext.
    intros _ r Hr%list_elem_of_lookup_2. simpl.
    pose proof (aligned_elem _ _ Ha Hr) as Hlen.
    apply index_of_None in Hi.
    rewrite cell_app_r by done. apply cell_head.
Qed.

Lemma get_col_assign_other df c f c' :
  aligned df → c' ≠ c → get_col (assign df c f) c' = get_col df c'.
Proof.
  intros Ha Hne. unfold get_col, assign.
  destruct (index_of c (columns df)) as [i|] eqn:Hi; simpl.
  - rewrite <- list_fmap_compose. apply list_fmap_ext.
    intros _ r _. simpl. unfold cell.
    destruct (index_of c' (columns df)) as [j|] eqn:Hj; [|done].
    rewrite list_lookup_insert_ne; [done|].
    intros ->. apply index_of_Some in Hi as [Hi _].
    apply index_of_Some in Hj as [Hj _]. congruence.
  - rewrite <- list_fmap_compose. apply list_fmap_ext.
    intros _ r Hr%list_elem_of_lookup_2. simpl.
    pose proof (aligned_elem _ _ Ha Hr) as Hlen.
    destruct (decide (c' ∈ columns df)) as [Hin|Hnin].
    + by rewrite cell_app_l.
    + rewrite cell_app_r by done. rewrite (cell_absent (columns df)) by done.
      apply cell_absent. by intros ->%list_elem_of_singleton.
Qed.

Lemma get_col_absent df c : c ∉ columns df → get_col df c = replicate (len df) VNull.
Proof.
  intros Hc. unfold get_col, len.
  induction (rows df) as [|r rs IH]; [done|].
  rewrite fmap_cons, IH, cell_absent by done. done.
Qed.

Lemma fmap_const_replicate {A B} (l : list A) (b : B) :
  (λ _, b) <$> l = replicate (length l) b.
Proof. induction l; [done|]. simpl. by f_equal. Qed.

(** ** Measures *)

Lemma fmap_mul_cells (mul : value → value → value) cols a b (rs : list row) :
  (λ r, mul (cell cols a r) (cell cols b r)) <$> rs
  = zip_with mul (cell cols a <$> rs) (cell cols b <$> rs).
Proof.
  induction rs as [|r rs IH]; [done|]. rewrite !fmap_cons. simpl. by f_equal.
Qed.

Lemma first_column_Some df names c :
  Desnormalizar.first_column df names = Some c → first_recognized df names c.
Proof.
  unfold Desnormalizar.first_column, first_recognized.
  induction (columns df) as [|c0 cols IH]; simpl; [done|].
  destruct (bool_decide (Str.lower c0 ∈ names)) eqn:Hc0.
  - intros [= ->]. apply bool_decide_eq_true in Hc0.
    exists 0%nat. split_and!; [done..|]. intros; lia.
  - intros (i & Hi & Hn & Hfirst)%IH. apply bool_decide_eq_false in Hc0.
    exists (S i). split_and!; [done..|].
    intros [|j] c' Hj Hl; simplify_eq/=; [done|].
    eapply Hfirst; [|done]. lia.
Qed.

Lemma first_column_None df names :
  Desnormalizar.first_column df names = None →
  ∀ c, c ∈ columns df → Str.lower c ∉ names.
Proof.
  unfold Desnormalizar.first_column.
  induction (columns df) as [|c0 cols IH]; simpl; [by intros _ ? ?%elem_of_nil|].
  destruct (bool_decide (Str.lower c0 ∈ names)) eqn:Hc0; [done|].
  apply bool_decide_eq_false in Hc0.
  intros Hn c [->|Hin]%elem_of_cons; [done|]. by apply IH.
Qed.

Lemma has_col_assign_other df c f c' :
  c' ≠ c → has_col (assign df c f) c' = has_col df c'.
Proof.
  intros. by rewrite has_col_assign, bool_decide_eq_false_2, orb_false_r.
Qed.

Lemma has_col_assign_same df c f : has_col (assign df c f) c = true.
Proof. by rewrite has_col_assign, bool_decide_eq_true_2, orb_true_r. Qed.

Section Measures.
Context (parse_datetime : string → option Z).
Context (cell_mul : value → value → value).

(** Lines 201-205: [quantity] is filled from [qty], and [unit_price]
    from [price], when they are missing. *)
Lemma ensure_quantity_price_spec f :
  aligned f →
  let f1 := Tablas.ensure_quantity_price f in
  aligned f1 ∧ len f1 = len f ∧
  has_col f1 "quantity" = has_col f "quantity" || has_col f "qty" ∧
  get_col f1 "quantity"
    = (if has_col f "quantity" then get_col f "quantity" else get_col f "qty") ∧
  has_col f1 "unit_price" = has_col f "unit_price" || has_col f "price" ∧
  get_col f1 "unit_price"
    = (if has_col f "unit_price" then get_col f "unit_price" else get_col f "price") ∧
  has_col f1 "line_total" = has_col f "line_total" ∧
  get_col f1 "line_total" = get_col f "line_total".
Proof.
  intros Ha. unfold Tablas.ensure_quantity_price.
  set (f0 := if negb (has_col f "quantity") && has_col f "qty"
             then assign f "quantity" (cell (columns f) "qty") else f).
  assert (aligned f0 ∧ len f0 = len f ∧
          has_col f0 "quantity" = has_col f "quantity" || has_col f "qty" ∧
          get_col f0 "quantity"
            = (if has_col f "quantity" then get_col f "quantity" else get_col f "qty") ∧
          (∀ c, c ≠ "quantity" → has_col f0 c = has_col f c ∧ get_col f0 c = get_col f c))
    as (Ha0 & Hl0 & Hhq & Hgq & Hother).
  { unfold f0. destruct (has_col f "quantity") eqn:Hq, (has_col f "qty") eqn:Hy;
      simpl; rewrite ?Hq, ?Hy; try by split_and!.
    - split_and!.
      + by apply aligned_assign.
      + apply assign_len.
      + by rewrite has_col_assign_same.
      + by rewrite get_col_assign_same.
      + intros c Hc. rewrite has_col_assign, get_col_assign_other by done.
        by rewrite bool_decide_eq_false_2, orb_false_r.
    - split_and!; try done. rewrite !get_col_absent; [done|by apply has_col_false..]. }
  cbv zeta.
  destruct (Hother "unit_price" ltac:(done)) as [Hhu Hgu].
  destruct (Hother "price" ltac:(done)) as [Hhp Hgp].
  destruct (Hother "line_total" ltac:(done)) as [Hhl Hgl].
  rewrite Hhu, Hhp.
  destruct (has_col f "unit_price") eqn:Hu, (has_col f "price") eqn:Hp; simpl;
    try by split_and!.
  - split_and!.
    + by apply aligned_assign.
    + by rewrite assign_len.
    + by rewrite has_col_assign_other.
    + by rewrite get_col_assign_other.
    + by rewrite ?has_col_assign_same, ?has_col_assign_other.
    + by rewrite get_col_assign_same.
    + by rewrite has_col_assign_other.
    + by rewrite get_col_assign_other.
  - split_and!; try done.
    rewrite Hgu, !get_col_absent; [done|by apply has_col_false..].
Qed.

(** Lines 226-233: [quantity] defaults to 1, and [line_total] is the
    product when there is a [unit_price]. *)
Lemma compute_measures_spec f :
  aligned f →
  let m := Tablas.compute_measures cell_mul f in
  get_col m "quantity"
    = (if has_col f "quantity" then get_col f "quantity"
       else replicate (len f) (VNum 1)) ∧
  has_col m "unit_price" = has_col f "unit_price" ∧
  get_col m "unit_price" = get_col f "unit_price" ∧
  get_col m "line_total"
    = (if has_col f "unit_price"
       then zip_with cell_mul (get_col m "quantity") (get_col f "unit_price")
       else if has_col f "line_total" then get_col f "line_total"
            else replicate (len f) VNull).
Proof.
  intros Ha. unfold Tablas.compute_measures.
  set (f0 := if negb (has_col f "quantity")
             then assign f "quantity" (λ _, VNum 1) else f).
  assert (aligned f0 ∧ len f0 = len f ∧
          get_col f0 "quantity"
            = (if has_col f "quantity" then get_col f "quantity"
               else replicate (len f) (VNum 1)) ∧
          (∀ c, c ≠ "quantity" → has_col f0 c = has_col f c ∧ get_col f0 c = get_col f c))
    as (Ha0 & Hl0 & Hgq & Hother).
  { unfold f0. destruct (has_col f "quantity") eqn:Hq; simpl; [by split_and!|].
    split_and!.
    - by apply aligned_assign.
    - apply assign_len.
    - by rewrite get_col_assign_same, fmap_const_replicate.
    - intros c Hc. rewrite has_col_assign, get_col_assign_other by done.
      by rewrite bool_decide_eq_false_2, orb_false_r. }
  cbv zeta.
  destruct (Hother "unit_price" ltac:(done)) as [Hhu Hgu].
  destruct (Hother "line_total" ltac:(done)) as [Hhl Hgl].
  rewrite Hhu, Hhl.
  destruct (has_col f "unit_price") eqn:Hu; simpl.
  - split_and!.
    + by rewrite get_col_assign_other.
    + by rewrite ?has_col_assign_same, ?has_col_assign_other.
    + by rewrite get_col_assign_other.
    + rewrite get_col_assign_same, get_col_assign_other by done.
      rewrite fmap_mul_cells. by rewrite <- Hgu.
  - destruct (has_col f "line_total") eqn:Hl; simpl.
    + by split_and!.
    + split_and!.
      * by rewrite get_col_assign_other.
      * by rewrite ?has_col_assign_same, ?has_col_assign_other.
      * by rewrite get_col_assign_other.
      * rewrite get_col_assign_same, fmap_const_replicate by done. by rewrite <- Hl0.
Qed.

Lemma tablas_measures f :
  aligned f →
  let m := Tablas.compute_measures cell_mul (Tablas.ensure_quantity_price f) in
  get_col m "quantity" = tablas_quantity f ∧
  match tablas_unit_price f with
  | Some p => get_col m "unit_price" = p
  | None => "unit_price" ∉ columns m
  end ∧
  get_col m "line_total" = tablas_line_total cell_mul f.
Proof.
  intros Ha.
  destruct (ensure_quantity_price_spec f Ha)
    as (Ha1 & Hl1 & Hhq & Hgq & Hhu & Hgu & Hhl & Hgl).
  destruct (compute_measures_spec (Tablas.ensure_quantity_price f) Ha1)
    as (Hq & Hhu' & Hu & Ht).
  cbv zeta in *. unfold tablas_line_total, tablas_unit_price, tablas_quantity.
  rewrite Hhq, Hgq, Hl1 in Hq. rewrite Hhu, Hhl, Hgl, Hgu, Hl1 in Ht.
  rewrite Hhu in Hhu'. rewrite Hgu in Hu.
  assert (get_col (Tablas.compute_measures cell_mul (Tablas.ensure_quantity_price f))
            "quantity" = tablas_quantity f) as Hquantity.
  { rewrite Hq. unfold tablas_quantity.
    by destruct (has_col f "quantity"), (has_col f "qty"). }
  split; [done|]. rewrite Hquantity in Ht. unfold tablas_quantity in Ht.
  destruct (has_col f "unit_price") eqn:Eu; [by split|].
  destruct (has_col f "price") eqn:Ep; [by split|].
  split; [by apply has_col_false|]. done.
Qed.

Lemma desnormalizar_measures df :
  aligned df →
  let m := Desnormalizar.measures cell_mul df in
  get_col m "quantity" = desnormalizar_quantity df ∧
  get_col m "unit_price" = desnormalizar_unit_price df ∧
  get_col m "line_total" = desnormalizar_line_total cell_mul df.
Proof.
  intros Ha. unfold Desnormalizar.measures, desnormalizar_quantity,
    desnormalizar_unit_price, desnormalizar_line_total, desnormalizar_quantity.
  set (g := match Desnormalizar.first_column df ["quantity"; "qty"; "units"] with
            | Some c => cell (columns df) c
            | None => λ _, VNum 1
            end).
  set (df1 := assign df "quantity" g).
  assert (aligned df1) as Ha1 by by apply aligned_assign.
  assert (get_col df1 "quantity"
          = match Desnormalizar.first_column df ["quantity"; "qty"; "units"] with
            | Some c => get_col df c
            | None => replicate (len df) (VNum 1)
            end) as Hq.
  { unfold df1. rewrite get_col_assign_same by done. unfold g.
    destruct (Desnormalizar.first_column _ _); [done|].
    apply fmap_const_replicate. }
  destruct (Desnormalizar.first_column df ["price"; "unit_price"; "unitprice"; "precio"])
    as [c|] eqn:Hp.
  - assert (c ≠ "quantity") as Hc.
    { intros ->. apply first_column_Some in Hp as (_ & _ & Hin & _).
      apply list_elem_of_In in Hin. vm_compute in Hin. intuition discriminate. }
    set (df2 := assign df1 "unit_price" (cell (columns df1) c)).
    assert (aligned df2) as Ha2 by by apply aligned_assign.
    assert (get_col df2 "unit_price" = get_col df c) as Hu.
    { unfold df2. rewrite get_col_assign_same by done.
      fold (get_col df1 c). unfold df1. by rewrite get_col_assign_other. }
    assert (get_col df2 "quantity" = get_col df1 "quantity") as Hq2.
    { unfold df2. by rewrite get_col_assign_other. }
    split_and!.
    + rewrite get_col_assign_other by done. by rewrite Hq2.
    + by rewrite get_col_assign_other.
    + rewrite get_col_assign_same, fmap_mul_cells by done.
      fold (get_col df2 "quantity"). fold (get_col df2 "unit_price").
      by rewrite Hq2, Hu, Hq.
  - set (df2 := assign df1 "unit_price" (λ _, VNull)).
    assert (aligned df2) as Ha2 by by apply aligned_assign.
    assert (len df2 = len df) as Hl2 by (unfold df2, df1; by rewrite !assign_len).
    split_and!.
    + rewrite get_col_assign_other by done. unfold df2.
      by rewrite get_col_assign_other.
    + rewrite get_col_assign_other by done. unfold df2.
      rewrite get_col_assign_same, fmap_const_replicate by done.
      unfold df1. by rewrite <- (assign_len df "quantity" g).
    + rewrite get_col_assign_same, fmap_const_replicate by done.
      by rewrite <- Hl2.
Qed.
End Measures.

(** C7, as the code has it.  In the order-line fact of [tablas.py] the
    quantity is the [quantity] column, else the [qty] column, else the
    constant 1; the unit price is the [unit_price] column, else the
    [price] column; the line total is quantity times unit price when there
    is a unit price, and otherwise a [line_total] column that is already
    there is kept, or it is null.  The columns [units], [unitprice] and
    [precio] play no part.  In the order-line fact of [desnormalizar.py]
    the quantity is the first column, in column order, whose lowercased
    label is [quantity], [qty] or [units], else the constant 1; the unit
    price is the first column whose lowercased label is [price],
    [unit_price], [unitprice] or [precio], else null; the line total is
    quantity times unit price when there is such a price column, else
    null. *)
Theorem C7_measures (parse_datetime : string → option Z)
    (cell_mul : value → value → value) :
  (∀ f, aligned f →
     get_col (Tablas.compute_measures cell_mul (Tablas.ensure_quantity_price f))
             "quantity" = tablas_quantity f ∧
     match tablas_unit_price f with
     | Some p =>
         get_col (Tablas.compute_measures cell_mul (Tablas.ensure_quantity_price f))
                 "unit_price" = p
     | None =>
         "unit_price" ∉
           columns (Tablas.compute_measures cell_mul (Tablas.ensure_quantity_price f))
     end ∧
     get_col (Tablas.compute_measures cell_mul (Tablas.ensure_quantity_price f))
             "line_total" = tablas_line_total cell_mul f)
  ∧ (∀ items,
       Tablas.order_lines parse_datetime cell_mul items None no_dims
       = Ok (Tablas.compute_measures cell_mul (Tablas.ensure_quantity_price items)))
  ∧ (∀ df, aligned df →
       get_col (Desnormalizar.measures cell_mul df) "quantity"
         = desnormalizar_quantity df ∧
       get_col (Desnormalizar.measures cell_mul df) "unit_price"
         = desnormalizar_unit_price df ∧
       get_col (Desnormalizar.measures cell_mul df) "line_total"
         = desnormalizar_line_total cell_mul df)
  ∧ (∀ df names c,
       Desnormalizar.first_column df names = Some c → first_recognized df names c)
  ∧ (∀ df names,
       Desnormalizar.first_column df names = None →
       ∀ c, c ∈ columns df → Str.lower c ∉ names).
Proof.
  split_and!.
  - intros f Ha. apply (tablas_measures cell_mul f Ha).
  - done.
  - intros df Ha. apply (desnormalizar_measures cell_mul df Ha).
  - apply first_column_Some.
  - apply first_column_None.
Qed.

Lemma C7_measures_witness :
  get_col (Tablas.compute_measures int_mul
             (Tablas.ensure_quantity_price
                (mkDF ["order_id"; "qty"; "price"] [[VNum 100; VNum 2; VNum 10]])))
          "line_total"
  = tablas_line_total int_mul
      (mkDF ["order_id"; "qty"; "price"] [[VNum 100; VNum 2; VNum 10]]).
Proof.
  apply (proj1 (C7_measures no_parse int_mul)).
  repeat constructor.
Defined.

(** The claim of the specification fails on [tablas.py]: an order line
    with 5 [units] at a [precio] of 3 gets the quantity 1, no unit price
    and a null line total. *)
Lemma C7_tablas_ignores_units_and_precio :
  Tablas.fact_order_lines no_parse int_mul
    (mkDF ["order_id"; "units"; "precio"] [[VNum 1; VNum 5; VNum 3]]) None no_dims
  = Ok (mkDF ["order_id"; "quantity"; "line_total"] [[VNum 1; VNum 1; VNull]])
  ∧ get_col (mkDF ["order_id"; "units"; "precio"] [[VNum 1; VNum 5; VNum 3]]) "units"
    = [VNum 5]
  ∧ get_col (mkDF ["order_id"; "units"; "precio"] [[VNum 1; VNum 5; VNum 3]]) "precio"
    = [VNum 3].
Proof. by vm_compute. Qed.

(** ** The table writers *)

(** [write_table] of [tablas.py] obeys the contract. *)
Lemma tablas_write_table_contract :
  writer_contract DWH_DIR (λ name, "[error] no se pudo guardar " +:+ name)
                  Tablas.write_table.
Proof.
  intros df name w. unfold Tablas.write_table.
  destruct df as [t|]; [|by eexists; split_and!].
  destruct (empty t) eqn:He; [by eexists; split_and!; [done|done|congruence]|].
  unfold try_except, mbind, M_bind, to_parquet, to_csv.
  destruct (parquet_ok w (name +:+ ".parquet")) eqn:Hp.
  { eexists; split_and!; [done|simpl; congruence|].
    by intros t' [= <-] _. }
  destruct (csv_ok w (name +:+ ".csv")) eqn:Hc.
  { eexists; split_and!; [done|simpl; congruence|].
    by intros t' [= <-] _. }
  eexists; split_and!; [done|simpl; congruence|].
  intros t' [= <-] _. split; [done|].
  simpl. apply elem_of_app. right. left.
Qed.

Section StagingWriter.
Context (parse_datetime : string → option Z).

(** The guarded write of [build_staging] obeys the contract. *)
Lemma safe_write_staging_contract :
  writer_contract STAGING_DIR
    (λ name, "[error] no se pudo guardar staging " +:+ name)
    (λ df name, match df with
                | Some t => Desnormalizar.safe_write_staging t name
                | None => Desnormalizar.write_staging None name
                end).
Proof.
  intros df name w.
  destruct df as [t|]; [|by eexists; split_and!].
  unfold Desnormalizar.safe_write_staging, Desnormalizar.write_staging.
  destruct (empty t) eqn:He.
  { unfold try_except. simpl. by eexists; split_and!; [done|done|congruence]. }
  unfold try_except, mbind, M_bind, to_parquet, to_csv.
  destruct (parquet_ok w (name +:+ ".parquet")) eqn:Hp.
  { eexists; split_and!; [done|simpl; congruence|].
    by intros t' [= <-] _. }
  destruct (csv_ok w (name +:+ ".csv")) eqn:Hc.
  { eexists; split_and!; [done|simpl; congruence|].
    by intros t' [= <-] _. }
  eexists; split_and!; [done|simpl; congruence|].
  intros t' [= <-] _. split; [done|].
  simpl. apply elem_of_app. right. left.
Qed.
End StagingWriter.

(** [write_table] of [desnormalizar.py] has no fallback: when the parquet
    write fails the exception reaches the caller, and nothing is
    written. *)
Lemma desnormalizar_write_table_raises t name w :
  empty t = false → parquet_ok w (name +:+ ".parquet") = false →
  Desnormalizar.write_table (Some t) name w
  = (Raise (IOError ("to_parquet " +:+ name +:+ ".parquet")), w).
Proof.
  intros He Hp. unfold Desnormalizar.write_table. rewrite He.
  unfold mbind, M_bind, to_parquet. by rewrite Hp.
Qed.

(** C3 at the failing input: with no parquet engine, [write_table] of
    [desnormalizar.py], given a table of one row, raises to its caller
    and writes nothing, where the contract asks for the csv file; on the
    same input [write_table] of [tablas.py] writes the csv file and
    returns. *)
Theorem C3_desnormalizar_write_table_breaks_contract :
  Desnormalizar.write_table (Some (mkDF ["customer_id"] [[VNum 1]])) "dim_customers"
    no_parquet_engine
  = (Raise (IOError "to_parquet dim_customers.parquet"), no_parquet_engine)
  ∧ ¬ writer_contract DWH_DIR (λ name, "[error] no se pudo guardar " +:+ name)
        Desnormalizar.write_table
  ∧ (Tablas.write_table (Some (mkDF ["customer_id"] [[VNum 1]])) "dim_customers"
       no_parquet_engine).1 = Ok ()
  ∧ dwh_dir (Tablas.write_table (Some (mkDF ["customer_id"] [[VNum 1]]))
               "dim_customers" no_parquet_engine).2
    !! "dim_customers.csv" = Some (mkDF ["customer_id"] [[VNum 1]]).
Proof.
  split_and!.
  - by apply desnormalizar_write_table_raises.
  - intros Hc.
    destruct (Hc (Some (mkDF ["customer_id"] [[VNum 1]])) "dim_customers"
                no_parquet_engine) as (w' & Hw & _).
    rewrite desnormalizar_write_table_raises in Hw by done. done.
  - by vm_compute.
  - by vm_compute.
Qed.

(** ** The stores dimension *)

Lemma dedupe_Ok c key :
  ∃ c', Tablas.dedupe c key = Ok c' ∧ columns c' = columns c.
Proof.
  unfold Tablas.dedupe, drop_duplicates_subset, drop_duplicates.
  destruct (has_col c key); eauto.
Qed.








(** ** The warehouse builder kept in [desnormalizar.py]

    [desnormalizar.py] has a dimension and fact builder of its own, which
    reads the raw files and not the staging tables.  It differs from
    [tablas.py] on the points below. *)

(** [read_table("stores") or read_table("channels")] asks a frame for its
    truth value: with a raw [stores] file the builder raises. *)
Example desnormalizar_stores_present_raises :
  (Desnormalizar.build_dimensions no_parse
     (raw_world [("stores.csv", Some (mkDF ["store_id"] [[VNum 1]]))])).1
  = Raise (ValueError "The truth value of a DataFrame is ambiguous").
Proof. by vm_compute. Qed.

(** With a raw [channels] file only, [channel_id] is not renamed: a
    [store_id] column 1..N is put in front. *)
Example desnormalizar_channels_not_renamed :
  (Desnormalizar.build_dimensions no_parse
     (raw_world [("channels.csv",
                  Some (mkDF ["channel_id"; "name"] [[VNum 7; VStr "web"]]))])).1
  = Ok (Desnormalizar.mkDims None None
          (Some (mkDF ["store_id"; "channel_id"; "name"]
                      [[VNum 1; VNum 7; VStr "web"]]))
          None).
Proof. by vm_compute. Qed.

(** A raw [dates] file comes before the order dates, and there is neither
    a customers fallback nor a calendar. *)
Example desnormalizar_dates_file_first :
  (Desnormalizar.build_dimensions no_parse
     (raw_world [("dates.csv", Some (mkDF ["date"] [[day 3]]));
                 ("orders.csv",
                  Some (mkDF ["order_id"; "order_date"] [[VNum 1; day 19727]]))])).1
  = Ok (Desnormalizar.mkDims None None None
          (Some (mkDF ["date"; "date_id"; "year"; "month"; "day"]
                      [[day 3; VNum 19700104; VNum 1970; VNum 1; VNum 4]]))).
Proof. by vm_compute. Qed.

(** With a raw [order_items] file the fact builder raises for the same
    reason as the stores block. *)
Example desnormalizar_order_items_present_raises :
  (Desnormalizar.build_fact_order_lineitems no_parse int_mul
     (Desnormalizar.mkDims None None None None)
     (raw_world [("orders.csv", Some (mkDF ["order_id"] [[VNum 1]]));
                 ("order_items.csv", Some (mkDF ["order_id"] [[VNum 1]]))])).1
  = Raise (ValueError "The truth value of a DataFrame is ambiguous").
Proof. by vm_compute. Qed.

(** ** Columns through the other frame operations *)

Lemma aligned_assign_col df c vals : aligned df → aligned (assign_col df c vals).
Proof.
  unfold aligned, assign_col. intros Ha.
  destruct (index_of c (columns df)) as [i|]; simpl.
  - revert vals. induction Ha as [|r rs Hr Hrs IH]; intros [|v vals];
      simpl; constructor; [by rewrite length_insert|apply IH].
  - revert vals. induction Ha as [|r rs Hr Hrs IH]; intros [|v vals];
      simpl; constructor; [|apply IH].
    rewrite !length_app, Hr. done.
Qed.

Lemma get_col_assign_col_same df c vals :
  aligned df → length vals = len df → get_col (assign_col df c vals) c = vals.
Proof.
  unfold aligned, get_col, assign_col, len. intros Ha Hl.
  destruct (index_of c (columns df)) as [i|] eqn:Hi; simpl.
  - unfold cell. rewrite Hi. apply index_of_Some in Hi as [_ Hlt].
    revert vals Hl. induction Ha as [|r rs Hr Hrs IH]; intros [|v vals]; try done.
    simpl. intros [= Hl]. rewrite IH by done. f_equal.
    by rewrite list_lookup_insert_eq by lia.
  - apply index_of_None in Hi.
    revert vals Hl. induction Ha as [|r rs Hr Hrs IH]; intros [|v vals]; try done.
    simpl. intros [= Hl]. rewrite IH by done. f_equal.
    rewrite cell_app_r by done. apply cell_head.
Qed.

Lemma get_col_assign_col_other df c vals c' :
  aligned df → length vals = len df → c' ≠ c →
  get_col (assign_col df c vals) c' = get_col df c'.
Proof.
  unfold aligned, get_col, assign_col, len. intros Ha Hl Hne.
  destruct (index_of c (columns df)) as [i|] eqn:Hi; simpl.
  - unfold cell. destruct (index_of c' (columns df)) as [j|] eqn:Hj.
    + assert (i ≠ j) as Hij.
      { intros ->. apply index_of_Some in Hi as [Hi _].
        apply index_of_Some in Hj as [Hj _]. congruence. }
      revert vals Hl. induction Ha as [|r rs Hr Hrs IH]; intros [|v vals]; try done.
      simpl. intros [= Hl]. rewrite IH by done. f_equal.
      by rewrite list_lookup_insert_ne.
    + revert vals Hl. induction Ha as [|r rs Hr Hrs IH]; intros [|v vals]; try done.
      simpl. intros [= Hl]. by rewrite IH.
  - revert vals Hl. induction Ha as [|r rs Hr Hrs IH]; intros [|v vals]; try done.
    simpl. intros [= Hl]. rewrite IH by done. f_equal.
    destruct (decide (c' ∈ columns df)) as [Hin|Hnin].
    + by rewrite cell_app_l.
    + rewrite cell_app_r by done. rewrite (cell_absent (columns df)) by done.
      apply cell_absent. by intros ->%list_elem_of_singleton.
Qed.

Lemma insert0_aligned df c vals d :
  insert0 df c vals = Ok d → aligned df → aligned d.
Proof.
  intros (_ & Hc & Hr)%insert0_Ok Ha. unfold aligned in *. rewrite Hc, Hr.
  clear Hc Hr. revert vals. induction Ha as [|r rs Hr' Hrs IH]; intros [|v vals];
    simpl; constructor; [simpl; by rewrite Hr'|apply IH].
Qed.

Lemma insert0_get_col df c vals d c' :
  insert0 df c vals = Ok d → length vals = len df → c' ≠ c →
  get_col d c' = get_col df c'.
Proof.
  intros (_ & Hc & Hr)%insert0_Ok Hl Hne. unfold get_col. rewrite Hc, Hr.
  by apply zip_cons_cells.
Qed.

Lemma sort_values_aligned df c d : sort_values df c = Ok d → aligned df → aligned d.
Proof.
  intros (_ & Hc & Hp)%sort_values_Ok. unfold aligned. by rewrite Hc, Hp.
Qed.

Lemma sort_values_get_col df c d c' :
  sort_values df c = Ok d → get_col d c' ≡ₚ get_col df c'.
Proof.
  intros (_ & Hc & Hp)%sort_values_Ok. unfold get_col. by rewrite Hc, Hp.
Qed.

Lemma aligned_singles c (vs : list value) : aligned (mkDF [c] ((λ v, [v]) <$> vs)).
Proof. unfold aligned. simpl. apply Forall_fmap, Forall_true. done. Qed.

(** ** The keys of the dimensions are distinct *)

Section DimensionKeysDistinct.
Context (parse_datetime : string → option Z).

Lemma dim_date_dates src d :
  Tablas.dim_date parse_datetime src = Ok d → aligned src →
  (∀ v, v ∈ get_col src "date" → ∃ t, v = VTime t) →
  get_col d "date" ≡ₚ get_col src "date".
Proof.
  unfold Tablas.dim_date. intros H Ha Htimes.
  destruct (sort_values src "date") as [s1|] eqn:H1; [|done]. simpl in H.
  destruct (assign_checked s1 "date" _) as [s2|] eqn:H2; [|done]. simpl in H.
  destruct (Tablas.insert_sk s2 "date_sk") as [s3|] eqn:H3; [|done]. simpl in H.
  destruct (assign_checked s3 "date_id" _) as [s4|] eqn:H4; [|done]. simpl in H.
  injection H as <-.
  pose proof (sort_values_aligned _ _ _ H1 Ha) as Ha1.
  pose proof (sort_values_get_col _ _ _ "date" H1) as Hp1.
  apply assign_checked_Ok in H2 as (v2 & Hm2 & -> & Hl2).
  rewrite (mapM_result_ext _ (cell (columns s1) "date")) in Hm2; cycle 1.
  { intros r Hr.
    destruct (Htimes (cell (columns s1) "date" r)) as [t ->]; [|done].
    rewrite <- Hp1. unfold get_col. by apply list_elem_of_fmap_2. }
  injection Hm2 as <-. fold (get_col s1 "date") in *.
  set (s2 := assign_col s1 "date" (get_col s1 "date")) in *.
  assert (aligned s2) as Ha2 by by apply aligned_assign_col.
  assert (get_col s2 "date" = get_col s1 "date") as Hg2
    by by apply get_col_assign_col_same.
  unfold Tablas.insert_sk in H3.
  pose proof (insert0_aligned _ _ _ _ H3 Ha2) as Ha3.
  pose proof (insert0_get_col _ _ _ _ "date" H3 (range1_length _) ltac:(done)) as Hg3.
  apply assign_checked_Ok in H4 as (v4 & _ & -> & Hl4).
  set (s4 := assign_col s3 "date_id" v4) in *.
  assert (aligned s4) as Ha4 by by apply aligned_assign_col.
  assert (get_col s4 "date" = get_col s3 "date") as Hg4
    by by apply get_col_assign_col_other.
  rewrite !get_col_assign_other by (done || eauto using aligned_assign).
  by rewrite Hg4, Hg3, Hg2.
Qed.

(** Whatever source the date dimension is built from is one column of
    distinct timestamps. *)
Lemma dates_source_shape orders customers src :
  Tablas.dates_source parse_datetime orders customers = Some src →
  aligned src ∧ NoDup (get_col src "date") ∧
  ∀ v, v ∈ get_col src "date" → ∃ t, v = VTime t.
Proof.
  rewrite dates_source_precedence. unfold first_yielding.
  intros Hsrc.
  assert (Some src ∈ [Tablas.dates_from_orders parse_datetime orders;
                      Tablas.dates_from_customers parse_datetime customers;
                      Tablas.dates_from_calendar parse_datetime orders]) as Hin.
  { destruct (filter _ _) as [|s l] eqn:Hf; [done|]. subst s.
    eapply (list_elem_of_filter (λ s, none_or_empty s = false)).
    rewrite Hf. left. }
  clear Hsrc.
  assert (∀ df col, let s := Tablas.distinct_days parse_datetime df col in
            aligned s ∧ NoDup (get_col s "date") ∧
            ∀ v, v ∈ get_col s "date" → ∃ t, v = VTime t) as Hdistinct.
  { intros df col s. split; [apply aligned_singles|].
    destruct (distinct_days_spec parse_datetime df col) as [Hnd Hel].
    split; [done|]. intros v (Hnn & x & _ & ->)%Hel.
    destruct (to_datetime_coerce parse_datetime x); simpl in *; eauto; done. }
  repeat apply elem_of_cons in Hin as [Hin|Hin].
  - symmetry in Hin. unfold Tablas.dates_from_orders in Hin.
    destruct orders as [o|]; [|done]. destruct (has_col o "order_date"); [|done].
    injection Hin as <-. apply Hdistinct.
  - symmetry in Hin. unfold Tablas.dates_from_customers in Hin.
    destruct customers as [c|]; [|done]. destruct (has_col c "created_at"); [|done].
    injection Hin as <-. apply Hdistinct.
  - symmetry in Hin. unfold Tablas.dates_from_calendar in Hin.
    destruct orders as [o|]; [|done]. destruct (has_col o "order_date"); [|done].
    destruct (normalize (series_min _)) as [| | |mn]; try done.
    destruct (normalize (series_max _)) as [| | |mx]; try done.
    injection Hin as <-. split; [apply aligned_singles|].
    rewrite get_col_single. split.
    + unfold date_range. apply NoDup_fmap_2; [|apply NoDup_seqZ].
      intros i j [= Hij]. unfold ns_per_day in Hij. lia.
    + intros v (i & _ & ->)%elem_of_date_range. eauto.
  - by apply elem_of_nil in Hin.
Qed.

Lemma dim_of_dates_NoDup orders customers od d :
  dim_of (Tablas.dates_source parse_datetime orders customers)
         (Tablas.dim_date parse_datetime) od →
  od = Some d → NoDup (get_col d "date").
Proof.
  unfold dim_of. intros Hof ->.
  destruct (Tablas.dates_source _ _ _) as [src|] eqn:Hsrc; [|done].
  destruct Hof as (d' & Hd & [= <-]).
  apply dates_source_shape in Hsrc as (Ha & Hnd & Ht).
  by rewrite (dim_date_dates _ _ Hd Ha Ht).
Qed.

Lemma dim_of_keyed_NoDup src prep key sk od d :
  dim_of src (λ t, c' ← Tablas.dedupe (prep t) key; Tablas.insert_sk c' sk) od →
  od = Some d → key ≠ sk → key ∈ columns d → NoDup (get_col d key).
Proof.
  unfold dim_of. intros Hof -> Hne Hin.
  destruct src as [t|]; [|done]. destruct Hof as (d' & Hd & [= <-]).
  pose proof Hd as (c & Hc & [Hcols _] & _)%keyed_dimension.
  destruct (dedupe_Ok (prep t) key) as (c2 & Hc2 & Hcols2).
  rewrite Hc in Hc2. injection Hc2 as <-.
  rewrite Hcols, Hcols2 in Hin.
  apply elem_of_cons in Hin as [?|Hin]; [done|].
  by apply (keyed_first_occurrences _ _ _ _ Hd Hin Hne).
Qed.
End DimensionKeysDistinct.

(** ** Row counts of the facts *)

Section FactRowCounts.
Context (parse_datetime : string → option Z).
Context (cell_mul : value → value → value).

Lemma merge_dim_len_keyed f dim sk key f' :
  Tablas.merge_dim f dim sk key = Ok f' →
  (∀ d, dim = Some d → key ∈ columns d → NoDup (get_col d key)) →
  len f' = len f.
Proof.
  unfold Tablas.merge_dim. destruct dim as [d|]; [|by intros [= <-]].
  destruct (has_col f key); [|by intros [= <-]].
  destruct (select d [sk; key]) as [d'|] eqn:Hsel; [|done]. simpl.
  intros Hm Hnd. eapply merge_len_unique; [done|].
  unfold get_col at 1. erewrite select_key_column; [|done|set_solver].
  apply Hnd; [done|]. apply select_Ok in Hsel as (_ & _ & Hin).
  apply Hin. set_solver.
Qed.

Lemma ensure_quantity_price_len f : len (Tablas.ensure_quantity_price f) = len f.
Proof.
  unfold Tablas.ensure_quantity_price.
  repeat (destruct (_ && _); rewrite ?assign_len); done.
Qed.

Lemma compute_measures_len f : len (Tablas.compute_measures cell_mul f) = len f.
Proof.
  unfold Tablas.compute_measures.
  destruct (negb (has_col f "quantity")); simpl;
    repeat (match goal with
            | |- context [if ?b then _ else _] => destruct b
            end; rewrite ?assign_len); done.
Qed.

Lemma merge_header_len f orders f' :
  Tablas.merge_header f orders = Ok f' → (len f ≤ len f')%nat.
Proof.
  unfold Tablas.merge_header. destruct orders as [o|]; [|by intros [= <-]].
  destruct (has_col o "order_id"); [|by intros [= <-]].
  destruct (select o _) as [o'|]; [|done]. simpl. apply merge_left_len.
Qed.

Lemma merge_header_len_unique f orders f' :
  Tablas.merge_header f orders = Ok f' →
  (∀ o, orders = Some o → "order_id" ∈ columns o → NoDup (get_col o "order_id")) →
  len f' = len f.
Proof.
  unfold Tablas.merge_header. destruct orders as [o|]; [|by intros [= <-]].
  destruct (has_col o "order_id") eqn:Hc; [|by intros [= <-]].
  destruct (select o _) as [o'|] eqn:Hsel; [|done]. simpl.
  intros Hm Hnd. eapply merge_len_unique; [done|].
  unfold get_col at 1. erewrite select_key_column; [|done|set_solver].
  apply Hnd; [done|]. by apply has_col_true.
Qed.

Lemma dated_fact_len src dims guard col sk allowed fact :
  (∀ d, Tablas.dates dims = Some d → NoDup (get_col d "date")) →
  Tablas.dated_fact parse_datetime src dims guard col sk allowed = Ok fact →
  (len fact ≤ len src)%nat.
Proof.
  intros Hnd. unfold Tablas.dated_fact.
  destruct (Tablas.dated _ _ _ _ _ _) as [t|] eqn:Ht; [|done]. simpl.
  destruct (select_fact_Ok t allowed) as (fact' & Hf & Hle & _).
  rewrite Hf. intros [= <-]. etrans; [done|].
  unfold Tablas.dated in Ht.
  destruct (Tablas.dates dims) as [d|]; [|by injection Ht as <-].
  destruct (_ && _); [|by injection Ht as <-].
  apply merge_date_len_unique in Ht; [lia|set_solver|by apply Hnd].
Qed.

(** With distinct keys in the dimensions, the enriched order lines are
    as many as the order lines joined with their headers. *)
Lemma order_lines_len items orders dims f :
  (∀ d, Tablas.customers dims = Some d → "customer_id" ∈ columns d →
        NoDup (get_col d "customer_id")) →
  (∀ d, Tablas.products dims = Some d → "product_id" ∈ columns d →
        NoDup (get_col d "product_id")) →
  (∀ d, Tablas.stores dims = Some d → "store_id" ∈ columns d →
        NoDup (get_col d "store_id")) →
  (∀ d, Tablas.dates dims = Some d → NoDup (get_col d "date")) →
  Tablas.order_lines parse_datetime cell_mul items orders dims = Ok f →
  ∃ h, Tablas.merge_header items orders = Ok h ∧ len f = len h.
Proof.
  intros Hc Hp Hs Hd. unfold Tablas.order_lines.
  destruct (Tablas.merge_header items orders) as [h|] eqn:Hh; [|done]. simpl.
  destruct (Tablas.merge_dim _ (Tablas.customers dims) _ _) as [f1|] eqn:H1;
    [|done]. simpl.
  destruct (Tablas.merge_dim _ (Tablas.products dims) _ _) as [f2|] eqn:H2;
    [|done]. simpl.
  destruct (Tablas.merge_dim _ (Tablas.stores dims) _ _) as [f3|] eqn:H3;
    [|done]. simpl.
  destruct (match Tablas.dates dims with Some _ => _ | None => _ end)
    as [f4|] eqn:H4; [|done]. simpl.
  intros [= <-]. exists h. split; [done|].
  rewrite compute_measures_len.
  apply merge_dim_len_keyed in H1; [|done].
  apply merge_dim_len_keyed in H2; [|done].
  apply merge_dim_len_keyed in H3; [|done].
  rewrite ensure_quantity_price_len in H1.
  assert (len f4 = len f3) as Hl4.
  { destruct (Tablas.dates dims) as [d|]; [|by injection H4 as <-].
    destruct (has_col f3 "order_date"); [|by injection H4 as <-].
    apply merge_date_len_unique in H4; [done|set_solver|by apply Hd]. }
  congruence.
Qed.
End FactRowCounts.

(** C4, as the code has it.  With the dimensions built by
    [build_dimensions], the facts of payments, shipments, web sessions and
    survey responses never have more rows than their staged source; the
    order-line fact never has more rows than the staged order lines
    joined with the order headers on [order_id], hence no more than the
    staged order lines when the order headers do not repeat an
    [order_id]. *)
Theorem C4_fact_rows_bounded (parse_datetime : string → option Z)
    (cell_mul : value → value → value) w dims w' :
  Tablas.build_dimensions parse_datetime w = (Ok dims, w') →
  (∀ t fact, Tablas.fact_payments parse_datetime t dims = Ok fact →
             (len fact ≤ len t)%nat)
  ∧ (∀ t fact, Tablas.fact_shipments parse_datetime t dims = Ok fact →
               (len fact ≤ len t)%nat)
  ∧ (∀ t fact, Tablas.fact_web_sessions parse_datetime t dims = Ok fact →
               (len fact ≤ len t)%nat)
  ∧ (∀ t fact, Tablas.fact_nps parse_datetime t dims = Ok fact →
               (len fact ≤ len t)%nat)
  ∧ (∀ items orders fact,
       Tablas.fact_order_lines parse_datetime cell_mul items orders dims = Ok fact →
       ∃ h, Tablas.merge_header items orders = Ok h ∧
            (len items ≤ len h)%nat ∧ (len fact ≤ len h)%nat)
  ∧ (∀ items orders fact,
       Tablas.fact_order_lines parse_datetime cell_mul items orders dims = Ok fact →
       (∀ o, orders = Some o → "order_id" ∈ columns o →
             NoDup (get_col o "order_id")) →
       (len fact ≤ len items)%nat).
Proof.
  intros (_ & Hc & Hp & Hs & Hd & _)%build_dimensions_Ok.
  assert (∀ d, Tablas.dates dims = Some d → NoDup (get_col d "date")) as Hdates.
  { intros d Hdd. by eapply dim_of_dates_NoDup. }
  assert (∀ items orders fact,
            Tablas.fact_order_lines parse_datetime cell_mul items orders dims = Ok fact →
            ∃ h, Tablas.merge_header items orders = Ok h ∧ (len fact ≤ len h)%nat)
    as Hlines.
  { intros items orders fact. unfold Tablas.fact_order_lines.
    destruct (Tablas.order_lines _ _ _ _ _) as [f|] eqn:Hf; [|done]. simpl.
    destruct (select_fact_Ok f ["order_id"; "order_date_sk"; "customer_sk";
                "product_sk"; "store_sk"; "quantity"; "unit_price"; "line_total"])
      as (fact' & Hsel & Hle & _).
    rewrite Hsel. intros [= <-].
    apply order_lines_len in Hf as (h & Hh & Hl); [| | | |done].
    - exists h. split; [done|lia].
    - intros d Hdd Hin.
      by apply (dim_of_keyed_NoDup _ (Tablas.canonical_customers parse_datetime)
                  _ _ _ _ Hc Hdd).
    - intros d Hdd Hin.
      by apply (dim_of_keyed_NoDup _ (Tablas.canonical_products parse_datetime)
                  _ _ _ _ Hp Hdd).
    - intros d Hdd Hin.
      by apply (dim_of_keyed_NoDup _ Tablas.canonical_stores _ _ _ _ Hs Hdd). }
  split_and!.
  - intros t fact. by apply dated_fact_len.
  - intros t fact. by apply dated_fact_len.
  - intros t fact. by apply dated_fact_len.
  - intros t fact. by apply dated_fact_len.
  - intros items orders fact (h & Hh & Hle)%Hlines. exists h.
    split_and!; [done| |done]. by eapply merge_header_len.
  - intros items orders fact (h & Hh & Hle)%Hlines Hnd.
    apply merge_header_len_unique in Hh; [lia|done].
Qed.

Lemma C4_fact_rows_bounded_witness :
  ∃ dims w',
    Tablas.build_dimensions no_parse scenario = (Ok dims, w') ∧
    (len (mkDF ["payment_id"; "order_id"; "payment_date_sk"; "amount"]
               [[VNum 1; VNum 100; VNum 1; VNum 20]])
     ≤ len (mkDF ["payment_id"; "order_id"; "created_at"; "amount"]
                 [[VNum 1; VNum 100; day 19727; VNum 20];
                  [VNum 1; VNum 100; day 19727; VNum 20]]))%nat.
Proof.
  eexists _, _. split; [vm_compute; reflexivity|].
  refine (proj1 (C4_fact_rows_bounded no_parse int_mul scenario _ _ _) _ _ _);
    vm_compute; reflexivity.
Defined.

(** The claim of the specification fails for the order lines: one staged
    order line whose [order_id] is on two order headers with different
    dates gives two rows in [fact_order_lines]. *)
Lemma C4_order_lines_exceed_items :
  (Tablas.main no_parse int_mul repeated_order_id).1 = Ok ()
  ∧ dwh_dir (Tablas.main no_parse int_mul repeated_order_id).2
      !! "fact_order_lines.parquet"
    = Some (mkDF ["order_id"; "order_date_sk"; "quantity"; "unit_price"; "line_total"]
                 [[VNum 100; VNum 1; VNum 2; VNum 10; VNum 20];
                  [VNum 100; VNum 2; VNum 2; VNum 10; VNum 20]])
  ∧ staged repeated_order_id "order_items"
    = Some (mkDF ["order_id"; "product_id"; "quantity"; "unit_price"]
                 [[VNum 100; VNum 9; VNum 2; VNum 10]]).
Proof. by vm_compute. Qed.

(** ** Left joins with the dimensions *)

Lemma suffixed_fresh other sfx cs :
  (∀ c, c ∈ cs → c ∉ other) → suffixed other sfx cs = cs.
Proof.
  intros Hf. unfold suffixed. rewrite <- (list_fmap_id cs) at 2.
  apply list_fmap_ext. intros _ c Hc%list_elem_of_lookup_2. simpl.
  by rewrite decide_False by by apply Hf.
Qed.

Lemma cell_nulls cols c n : cell cols c (replicate n VNull) = VNull.
Proof.
  unfold cell. destruct (index_of c cols) as [i|]; [|done].
  destruct (replicate n VNull !! i) as [v|] eqn:Hv; [|done].
  by apply lookup_replicate in Hv as [-> _].
Qed.

Lemma project_nulls cols cs n : project cols cs (replicate n VNull) = replicate (length cs) VNull.
Proof.
  unfold project. induction cs as [|c cs IH]; [done|].
  rewrite fmap_cons, IH, cell_nulls. done.
Qed.

Lemma project_app cols cs1 cs2 r :
  project cols (cs1 ++ cs2) r = project cols cs1 r ++ project cols cs2 r.
Proof. unfold project. by rewrite fmap_app. Qed.

Lemma project_ext cols cols' cs r r' :
  (∀ c, c ∈ cs → cell cols c r = cell cols' c r') →
  project cols cs r = project cols' cs r'.
Proof.
  intros H. unfold project. apply list_fmap_ext.
  intros _ c Hc%list_elem_of_lookup_2. by apply H.
Qed.

Lemma filter_fmap_comm {A B} (g : A → B) (P : B → Prop) `{!∀ x, Decision (P x)}
    (l : list A) :
  filter P (g <$> l) = g <$> filter (λ x, P (g x)) l.
Proof.
  induction l as [|x l IH]; [done|].
  rewrite fmap_cons, !filter_cons. destruct (decide (P (g x))); simpl; by rewrite IH.
Qed.

Lemma join_row_fmap_right h lkey rkey rkeep nr (g : row → row) rrows lr :
  join_row h lkey rkey rkeep nr (g <$> rrows) lr
  = join_row h lkey (λ rr, rkey (g rr)) (λ rr, rkeep (g rr)) nr rrows lr.
Proof.
  unfold join_row. rewrite filter_fmap_comm.
  destruct (filter _ rrows) as [|m ms]; [done|].
  rewrite !fmap_cons. f_equal. by rewrite <- list_fmap_compose.
Qed.

Lemma join_row_ext h lkey rkey rkey' rkeep rkeep' nr rrows lr :
  (∀ rr, rkey rr = rkey' rr) → (∀ rr, rkeep rr = rkeep' rr) →
  join_row h lkey rkey rkeep nr rrows lr = join_row h lkey rkey' rkeep' nr rrows lr.
Proof.
  intros Hk Hp. unfold join_row.
  rewrite (list_filter_iff _ (λ rr, rkey' rr = lkey lr)); [|by intros rr; rewrite Hk].
  destruct (filter _ rrows) as [|m ms]; [done|].
  apply list_fmap_ext. intros _ rr _. by rewrite Hp.
Qed.

Lemma merge_dim_Some_shape f d sk key f' :
  Tablas.merge_dim f (Some d) sk key = Ok f' →
  key ∈ columns f → sk ∉ columns f → sk ≠ key →
  columns f' = columns f ++ [sk] ∧
  rows f' = rows f ≫=
    join_row HowLeft (cell (columns f) key) (cell (columns d) key)
             (λ r', [cell (columns d) sk r']) 1 (rows d).
Proof.
  unfold Tablas.merge_dim. intros H Hk%has_col_true Hsk Hne. rewrite Hk in H.
  destruct (select d [sk; key]) as [d'|] eqn:Hsel; [|done]. simpl in H.
  apply select_Ok in Hsel as (Hc' & Hr' & _).
  unfold merge in H. rewrite Hk in H. simpl in H.
  destruct (has_col d' key); [|done]. simpl in H. injection H as <-.
  rewrite Hc'. simpl.
  assert (filter (λ c, c ≠ key) [sk; key] = [sk]) as ->.
  { rewrite filter_cons_True by done.
    rewrite filter_cons_False by (intros HH; by apply HH). done. }
  split.
  - rewrite suffixed_fresh; [|intros c Hc Hin%list_elem_of_singleton; by subst].
    unfold suffixed. simpl. by rewrite decide_False.
  - unfold join_rows. rewrite Hr'. apply list_bind_ext; [|done].
    intros r. rewrite join_row_fmap_right. apply join_row_ext.
    + intros rr. apply cell_project. set_solver.
    + intros rr. unfold project at 1. cbn [fmap list_fmap]. f_equal.
      apply cell_project. set_solver.
Qed.

Lemma zip_cons_fmap (g : row → value) (rs : list row) :
  zip_with cons (g <$> rs) rs = (λ r, g r :: r) <$> rs.
Proof. induction rs as [|r rs IH]; [done|]. rewrite !fmap_cons. simpl. by f_equal. Qed.

Lemma project_behind_key k cols extra r tl :
  NoDup cols → "key_0" ∉ cols → length r = length cols →
  project ("key_0" :: cols ++ extra) cols (k :: r ++ tl) = r.
Proof.
  intros Hnd Hk Hl. rewrite <- (project_self cols r) at 2 by done.
  apply project_ext. intros c Hc.
  rewrite cell_tail by (intros <-; done). by apply cell_app_l.
Qed.

Lemma to_datetime_coerced parse_datetime v :
  to_datetime parse_datetime (to_datetime_coerce parse_datetime v)
  = Ok (to_datetime_coerce parse_datetime v).
Proof.
  destruct v as [|n|s|t]; simpl; try done.
  by destruct (parse_datetime s).
Qed.

(** ** A join that does not happen *)

Lemma merge_dim_skipped f dim sk key :
  dim = None ∨ key ∉ columns f → Tablas.merge_dim f dim sk key = Ok f.
Proof.
  unfold Tablas.merge_dim. intros [->|Hk%has_col_false]; [done|].
  destruct dim; [|done]. by rewrite Hk.
Qed.

Lemma select_fact_keeps f allowed fact :
  Tablas.select_fact f allowed = Ok fact →
  ∀ r, r ∈ rows f → project (columns f) (columns fact) r ∈ rows fact.
Proof.
  intros H. destruct (select_fact_Ok f allowed) as (fact' & H' & _ & Hk).
  rewrite H in H'. by injection H' as <-.
Qed.

(** The scenario of the specification: the order line of an order whose
    store is not in [dim_stores] is in [fact_order_lines], with a null
    [store_sk]. *)
Example unknown_store_keeps_the_line :
  dwh_dir (Tablas.main no_parse int_mul unknown_store).2 !! "fact_order_lines.parquet"
  = Some (mkDF ["order_id"; "order_date_sk"; "store_sk"; "quantity"; "unit_price";
                "line_total"]
               [[VNum 100; VNum 1; VNull; VNum 2; VNum 10; VNum 20]]).
Proof. by vm_compute. Qed.

(** ** Running the fact blocks *)

Lemma elem_of_printed_mono w w' x :
  same_inputs w w' → x ∈ printed w → x ∈ printed w'.
Proof.
  intros (_ & _ & _ & _ & [k ->]) Hx. apply elem_of_app. by left.
Qed.

(** One fact block, from [w] to [w']. *)
Lemma fact_run src build name warning w r w' :
  Tablas.fact src build name warning w = (r, w') →
  match fact_outcome src build with
  | Raise e => r = Raise e
  | Ok o =>
      r = Ok () ∧ same_inputs w w' ∧
      (∀ file, ¬ touches name file → dwh_dir w' !! file = dwh_dir w !! file) ∧
      block_done w w' name warning o
  end.
Proof.
  unfold Tablas.fact, fact_outcome. destruct src as [t|].
  - destruct (build t) as [f|e] eqn:Hb; cbn [mbind result_bind].
    + rewrite (bind_Ok _ _ _ f w) by done.
      destruct (tablas_write_table_run (Some f) name w) as (w1 & Hw & Hs & Hframe).
      destruct (tablas_write_table_contract (Some f) name w) as (w2 & Hw' & _ & Hc).
      rewrite Hw in Hw'. injection Hw' as <-. cbv beta. rewrite Hw.
      intros [= <- <-].
      split_and!; [done|done| |].
      * intros file Hf. apply Hframe; intros ->; apply Hf; [by left|by right].
      * intros He. specialize (Hc f eq_refl He). simpl in Hc.
        destruct (parquet_ok w _); [by rewrite Hc, lookup_insert_eq|].
        destruct (csv_ok w _); [by rewrite Hc, lookup_insert_eq|]. apply Hc.
    + rewrite (bind_Raise _ _ _ e w) by done. by intros [= <- <-].
  - destruct (print_run Stdout warning w) as (w1 & Hp & Hs & Hd & Hpr).
    rewrite Hp. intros [= <- <-]. split_and!; [done|done| |].
    + intros file _. by rewrite Hd.
    + split; [|intros file _; by rewrite Hd].
      rewrite Hpr. apply elem_of_app. right. left.
Qed.

Lemma frame_over_refl names a b : dwh_dir b = dwh_dir a → frame_over names a b.
Proof. intros H file _. by rewrite H. Qed.

Lemma frame_over_trans ns1 ns2 a b c :
  frame_over ns1 a b → frame_over ns2 b c → frame_over (ns1 ++ ns2) a c.
Proof.
  intros H1 H2 file Hf. rewrite H2, H1; [done|..];
    intros n Hn; apply Hf, elem_of_app; auto.
Qed.

Lemma fact_then src build name warning (k : M unit) w r w' :
  (Tablas.fact src build name warning ≫= λ _, k) w = (r, w') →
  match fact_outcome src build with
  | Raise e => r = Raise e
  | Ok o => ∃ v, same_inputs w v ∧ frame_over [name] w v ∧
                 block_done w v name warning o ∧ k v = (r, w')
  end.
Proof.
  intros [(u & v & Hf & Hk)|(e & Hf & ->)]%bind_run.
  - apply fact_run in Hf. destruct (fact_outcome src build) as [o|e]; [|done].
    destruct Hf as (_ & Hs & Hfr & Hd). exists v. split_and!; [done| |done..].
    intros file Hn. apply Hfr, Hn. left.
  - apply fact_run in Hf. destruct (fact_outcome src build) as [o|e']; [|done].
    by destruct Hf.
Qed.

Lemma read_then {A} name (k : option DataFrame → M A) w r w' :
  (Tablas.read_staging name ≫= k) w = (r, w') →
  ∃ v, same_inputs w v ∧ dwh_dir v = dwh_dir w ∧ k (staged w name) v = (r, w').
Proof.
  destruct (read_staging_run name w) as (v & Hr & Hs & Hd & _).
  rewrite (bind_Ok _ _ _ _ _ Hr). eauto.
Qed.

Lemma read_or_then {A} x b (k : option DataFrame → M A) w r w' :
  (Tablas.read_staging_or x b ≫= k) w = (r, w') →
  ∃ v, same_inputs w v ∧ dwh_dir v = dwh_dir w ∧
       k (match x with Some _ => x | None => staged w b end) v = (r, w').
Proof.
  destruct (read_staging_or_run x b w) as (v & Hr & Hs & Hd).
  rewrite (bind_Ok _ _ _ _ _ Hr). eauto.
Qed.

(** A block's record, read between the start and the end of the run. *)
Lemma block_done_between w u v w' name warning o :
  same_inputs w u → same_inputs v w' →
  (∀ file, touches name file → dwh_dir u !! file = dwh_dir w !! file) →
  (∀ file, touches name file → dwh_dir w' !! file = dwh_dir v !! file) →
  block_done u v name warning o → block_done w w' name warning o.
Proof.
  intros Hwu Hvw Hpre Hpost. unfold block_done.
  destruct o as [f|].
  - intros Hd He. specialize (Hd He).
    destruct Hwu as (_ & _ & <- & <- & _).
    destruct (parquet_ok u _); [rewrite Hpost; [done|by left]|].
    destruct (csv_ok u _); [rewrite Hpost; [done|by right]|].
    by eapply elem_of_printed_mono.
  - intros [Hp Hd]. split; [by eapply elem_of_printed_mono|].
    intros file Hf. by rewrite Hpost, Hd, Hpre.
Qed.

Lemma staged_or_read w v a b :
  same_inputs w v →
  match staged w a with Some _ => staged w a | None => staged v b end
  = staged_or w a b.
Proof.
  intros Hs. unfold staged_or. rewrite (same_inputs_staged _ _ _ Hs).
  by destruct (staged w a).
Qed.

Lemma staged_or_again w v a b :
  same_inputs w v →
  match staged_or w a b with Some _ => staged_or w a b | None => staged v b end
  = staged_or w a b.
Proof.
  intros Hs. rewrite (same_inputs_staged _ _ _ Hs). unfold staged_or.
  by destruct (staged w a), (staged w b).
Qed.

(** A file of one fact table is not a file of another one. *)
Ltac other_table Ht :=
  let n := fresh "n" in
  let Hn := fresh "Hn" in
  let Hj := fresh "Hj" in
  intros n Hn; apply list_elem_of_singleton in Hn; subst n; intros Hj;
  destruct Ht as [Ht|Ht]; rewrite Ht in Hj;
  destruct Hj as [Hj|Hj]; vm_compute in Hj; discriminate Hj.

Section FactStage.
Context (parse_datetime : string → option Z).
Context (cell_mul : value → value → value).

Lemma build_facts_run dims w r w' :
  Tablas.build_facts parse_datetime cell_mul dims w = (r, w') →
  (r = Ok () ↔
   Forall (λ b, is_ok b.2 = true) (fact_plan parse_datetime cell_mul dims w))
  ∧ (r = Ok () →
     Forall (λ b, ∀ o, b.2 = Ok o → block_done w w' b.1.1 b.1.2 o)
            (fact_plan parse_datetime cell_mul dims w)).
Proof.
  unfold Tablas.build_facts, fact_plan. intros H.
  apply read_then in H as (v1 & S1 & D1 & H).
  apply read_or_then in H as (v2 & S2 & D2 & H).
  rewrite (staged_or_read w v1) in H by done.
  apply read_or_then in H as (v3 & S3 & D3 & H).
  rewrite (staged_or_again w v2) in H by eauto using same_inputs_trans.
  apply read_then in H as (v4 & S4 & D4 & H).
  apply read_or_then in H as (v5 & S5 & D5 & H).
  assert (same_inputs w v4) as W4 by eauto using same_inputs_trans.
  assert (same_inputs w v5) as W5 by eauto using same_inputs_trans.
  assert (same_inputs w v3) as W3 by eauto using same_inputs_trans.
  rewrite (same_inputs_staged _ _ "orders" W3) in H.
  rewrite (staged_or_read w v4) in H by done.
  assert (dwh_dir v5 = dwh_dir w) as DW5 by congruence.
  set (items := staged_or w "order_items" "sales_order_item") in *.
  set (orders := staged_or w "orders" "sales_order") in *.
  rewrite !Forall_cons, !Forall_nil. cbn [fst snd].
  (* fact_order_lines *)
  apply fact_then in H.
  destruct (fact_outcome items _) as [o1|e1] eqn:E1;
    [|subst r; split; [split; [done|]|done]; intros (? & _); done].
  destruct H as (a1 & A1 & F1 & B1 & H).
  (* fact_orders *)
  apply fact_then in H.
  destruct (fact_outcome orders _) as [o2|e2] eqn:E2;
    [|subst r; split; [split; [done|]|done]; intros (_ & ? & _); done].
  destruct H as (a2 & A2 & F2 & B2 & H).
  (* fact_payments *)
  apply read_then in H as (u3 & U3 & DU3 & H).
  assert (same_inputs w u3) as WU3 by eauto using same_inputs_trans.
  rewrite (same_inputs_staged _ _ "payment"
             (same_inputs_trans _ _ _ W5 (same_inputs_trans _ _ _ A1 A2))) in H.
  apply fact_then in H.
  destruct (fact_outcome (staged w "payment") _) as [o3|e3] eqn:E3;
    [|subst r; split; [split; [done|]|done]; intros (_ & _ & ? & _); done].
  destruct H as (a3 & A3 & F3 & B3 & H).
  (* fact_shipments *)
  apply read_then in H as (u4 & U4 & DU4 & H).
  assert (same_inputs w a3) as WA3 by eauto using same_inputs_trans.
  assert (same_inputs w u4) as WU4 by eauto using same_inputs_trans.
  rewrite (same_inputs_staged _ _ "shipment" WA3) in H.
  apply fact_then in H.
  destruct (fact_outcome (staged w "shipment") _) as [o4|e4] eqn:E4;
    [|subst r; split; [split; [done|]|done]; intros (_ & _ & _ & ? & _); done].
  destruct H as (a4 & A4 & F4 & B4 & H).
  (* fact_web_sessions *)
  apply read_then in H as (u5 & U5 & DU5 & H).
  assert (same_inputs w a4) as WA4 by eauto using same_inputs_trans.
  assert (same_inputs w u5) as WU5 by eauto using same_inputs_trans.
  rewrite (same_inputs_staged _ _ "web_session" WA4) in H.
  apply fact_then in H.
  destruct (fact_outcome (staged w "web_session") _) as [o5|e5] eqn:E5;
    [|subst r; split; [split; [done|]|done];
      intros (_ & _ & _ & _ & ? & _); done].
  destruct H as (a5 & A5 & F5 & B5 & H).
  (* fact_nps *)
  apply read_then in H as (u6 & U6 & DU6 & H).
  assert (same_inputs w a5) as WA5 by eauto using same_inputs_trans.
  assert (same_inputs w u6) as WU6 by eauto using same_inputs_trans.
  rewrite (same_inputs_staged _ _ "nps_response" WA5) in H.
  apply fact_run in H.
  destruct (fact_outcome (staged w "nps_response") _) as [o6|e6] eqn:E6;
    [|subst r; split; [split; [done|]|done];
      intros (_ & _ & _ & _ & _ & ? & _); done].
  destruct H as (-> & A6 & F6' & B6).
  assert (frame_over ["fact_nps"] u6 w') as F6.
  { intros file Hn. apply F6', Hn. left. }
  split; [by split|]. intros _.
  assert (same_inputs a5 w') as Z5 by eauto using same_inputs_trans.
  assert (same_inputs a4 w') as Z4 by eauto using same_inputs_trans.
  assert (same_inputs a3 w') as Z3 by eauto using same_inputs_trans.
  assert (same_inputs a2 w') as Z2 by eauto using same_inputs_trans.
  assert (same_inputs a1 w') as Z1 by eauto using same_inputs_trans.
  split_and!; try done; intros o [= <-].
  - apply (block_done_between w v5 a1 w'); [done|done| | |done].
    + intros file Ht. by rewrite DW5.
    + intros file Ht.
      rewrite F6, DU6, F5, DU5, F4, DU4, F3, DU3, F2; [done|other_table Ht..].
  - apply (block_done_between w a1 a2 w');
      [eauto using same_inputs_trans|done| | |done].
    + intros file Ht. rewrite F1, DW5; [done|other_table Ht].
    + intros file Ht.
      rewrite F6, DU6, F5, DU5, F4, DU4, F3, DU3; [done|other_table Ht..].
  - apply (block_done_between w u3 a3 w'); [done|done| | |done].
    + intros file Ht. rewrite DU3, F2, F1, DW5; [done|other_table Ht..].
    + intros file Ht.
      rewrite F6, DU6, F5, DU5, F4, DU4; [done|other_table Ht..].
  - apply (block_done_between w u4 a4 w'); [done|done| | |done].
    + intros file Ht.
      rewrite DU4, F3, DU3, F2, F1, DW5; [done|other_table Ht..].
    + intros file Ht. rewrite F6, DU6, F5, DU5; [done|other_table Ht..].
  - apply (block_done_between w u5 a5 w'); [done|done| | |done].
    + intros file Ht.
      rewrite DU5, F4, DU4, F3, DU3, F2, F1, DW5; [done|other_table Ht..].
    + intros file Ht. rewrite F6, DU6; [done|other_table Ht].
  - apply (block_done_between w u6 w' w');
      [done|apply same_inputs_refl| |done|done].
    intros file Ht.
    rewrite DU6, F5, DU5, F4, DU4, F3, DU3, F2, F1, DW5; [done|other_table Ht..].
Qed.
End FactStage.

Section FactBlocks.
Context (parse_datetime : string → option Z) (cell_mul : value → value → value).

(** C2, as the code has it. The six blocks of [Tablas.build_facts] run in
    the order of [fact_plan], and nothing catches an exception between
    them: the stage returns normally exactly when no block raises, where
    a block whose primary staging table is absent never raises. When the
    stage returns, every block is accounted for: a block without its
    primary table has printed its warning and left the files of its
    fact table alone (only that table is skipped), and a block with a
    non-empty fact table has written it, as parquet or else as csv, or
    has printed the error of a failed write. *)
Theorem C2_fact_blocks_contained dims w r w' :
  Tablas.build_facts parse_datetime cell_mul dims w = (r, w') →
  (r = Ok () ↔
     Forall (λ b, is_ok b.2 = true) (fact_plan parse_datetime cell_mul dims w))
  ∧ (r = Ok () →
     Forall (λ b, ∀ o, b.2 = Ok o → block_done w w' b.1.1 b.1.2 o)
            (fact_plan parse_datetime cell_mul dims w)).
Proof. apply build_facts_run. Qed.
End FactBlocks.

Lemma C2_fact_blocks_contained_witness :
  Forall (λ b, ∀ o, b.2 = Ok o →
            block_done unknown_store
              (Tablas.build_facts no_parse int_mul no_dims unknown_store).2
              b.1.1 b.1.2 o)
         (fact_plan no_parse int_mul no_dims unknown_store).
Proof.
  refine (proj2 (C2_fact_blocks_contained no_parse int_mul no_dims unknown_store
                   (Ok ())
                   (Tablas.build_facts no_parse int_mul no_dims unknown_store).2 _) _).
  - vm_compute; reflexivity.
  - reflexivity.
Defined.

(** C2 fails as stated. The staged order headers of [bare_orders] have an
    [order_id] column and nothing else: the order-line block selects
    [order_date] from them and raises [KeyError]. The exception leaves the
    fact stage and [main]; the payments fact, whose staging table is there
    and whose block alone builds without error, is never written. *)
Lemma C2_missing_header_columns_stop_the_run :
  (Tablas.main no_parse int_mul bare_orders).1 = Raise (KeyError "order_date")
  ∧ (Tablas.build_facts no_parse int_mul no_dims bare_orders).1
    = Raise (KeyError "order_date")
  ∧ (∃ t, staged bare_orders "payment" = Some t
          ∧ is_ok (Tablas.fact_payments no_parse t no_dims) = true)
  ∧ dwh_dir (Tablas.main no_parse int_mul bare_orders).2 !! "fact_payments.parquet" = None
  ∧ dwh_dir (Tablas.main no_parse int_mul bare_orders).2 !! "fact_payments.csv" = None.
Proof.
  split_and!; [by vm_compute..| |by vm_compute|by vm_compute].
  eexists. split; by vm_compute.
Qed.

(** ** More on the writers *)

(** X1.  [write_table] of [tablas.py] (lines 42-57) obeys the writer's
    contract on every table, name and world: it returns normally, writes
    nothing for a null or empty table, and for a non-empty table writes
    [name.parquet], else [name.csv], else prints the error.  Nothing else
    changes: the staged and raw files are left alone, and in the
    warehouse only the two files of [name] can differ. *)
Theorem tablas_write_table_safe :
  writer_contract DWH_DIR (λ name, "[error] no se pudo guardar " +:+ name)
                  Tablas.write_table
  ∧ ∀ df name w,
      same_inputs w (Tablas.write_table df name w).2 ∧
      frame_over [name] w (Tablas.write_table df name w).2.
Proof.
  split; [apply tablas_write_table_contract|].
  intros df name w.
  destruct (tablas_write_table_run df name w) as (w' & Hw & Hs & Hf).
  rewrite Hw. simpl. split; [done|].
  intros file Hn. apply Hf; intros ->; (eapply Hn; [left|]); [by left|by right].
Qed.

Section CalendarBranch.
Context (parse_datetime : string → option Z).

Lemma calendar_needs_order_dates orders :
  none_or_empty (Tablas.dates_from_orders parse_datetime orders) = true →
  Tablas.dates_from_calendar parse_datetime orders = None.
Proof.
  destruct (Tablas.dates_from_calendar parse_datetime orders) as [c|] eqn:Hc; [|done].
  intros Hne.
  pose proof (calendar_never_selected parse_datetime orders None c Hc) as Hsel.
  pose proof (dates_source_precedence parse_datetime orders None) as Hp.
  rewrite Hsel in Hp. unfold first_yielding in Hp.
  rewrite filter_cons in Hp. rewrite decide_False in Hp by by rewrite Hne.
  simpl in Hp. rewrite filter_cons in Hp.
  unfold Tablas.dates_from_calendar in Hc.
  destruct orders as [o|]; [|done].
  destruct (has_col o "order_date") eqn:Ho; [|done].
  unfold Tablas.dates_from_orders in *. rewrite Ho in *.
  simpl in Hne.
  destruct (normalize (series_min _)) as [| | |mn] eqn:Hmin; try done.
  destruct (series_min _) as [| | |m] eqn:Hm; try done.
  apply series_min_spec in Hm as [Hin%elem_of_times _].
  assert (normalize (VTime m)
          ∈ get_col (Tablas.distinct_days parse_datetime o "order_date") "date")
    as Hd.
  { apply distinct_days_spec. split; [done|].
    apply list_elem_of_fmap in Hin as (x & Hx & Hin). exists x. split; [done|].
    by rewrite <- Hx. }
  unfold get_col in Hd. unfold empty in Hne. simpl in *.
  destruct (unique _); [|done]. simpl in Hd. by apply elem_of_nil in Hd.
Qed.

(** X2.  The third source of the date dimension in [build_dimensions]
    (lines 130-137, the calendar generated between the first and the last
    order date) never decides: the dates the dimension is built from are
    those of the orders, else those of the customers, whatever the
    calendar block does.  When the calendar could be generated, the
    orders have already given their dates. *)
Theorem calendar_branch_is_dead orders customers :
  Tablas.dates_source parse_datetime orders customers
  = first_yielding [Tablas.dates_from_orders parse_datetime orders;
                    Tablas.dates_from_customers parse_datetime customers].
Proof.
  rewrite dates_source_precedence. unfold first_yielding.
  rewrite !filter_cons, filter_nil.
  destruct (decide (none_or_empty (Tablas.dates_from_orders parse_datetime orders) = false))
    as [Hne|Hne]; [done|].
  rewrite calendar_needs_order_dates by by destruct (none_or_empty _).
  destruct (decide (none_or_empty (Tablas.dates_from_customers parse_datetime customers) = false));
    [done|].
  by rewrite decide_False by done.
Qed.
End CalendarBranch.

(** ** The date dimension, row by row *)

Lemma value_leb_total a b : value_leb a b ∨ value_leb b a.
Proof.
  destruct a as [|x|x|x], b as [|y|y|y]; simpl; auto.
  - destruct (decide (x ≤ y)); [left|right]; apply bool_decide_spec; lia.
  - destruct (String.leb_total x y) as [H|H]; [left|right];
      apply bool_decide_spec; by rewrite H.
  - destruct (decide (x ≤ y)); [left|right]; apply bool_decide_spec; lia.
Qed.

Lemma Sorted_fmap_inv {A B} (f : A → B) (R1 : relation A) (R2 : relation B) l :
  (∀ x y, R2 (f x) (f y) → R1 x y) → Sorted R2 (f <$> l) → Sorted R1 l.
Proof.
  intros Hf. induction l as [|x l IH]; [constructor|].
  rewrite fmap_cons. intros [Hs Hh]%Sorted_inv. constructor; [by apply IH|].
  destruct l as [|y l]; [constructor|].
  rewrite fmap_cons in Hh. apply HdRel_inv in Hh. constructor. by apply Hf.
Qed.

Lemma StronglySorted_le_lt (l : list Z) :
  StronglySorted Z.le l → NoDup l → StronglySorted Z.lt l.
Proof.
  induction 1 as [|x l Hs IH Hall]; [constructor|].
  intros [Hx Hnd]%NoDup_cons. constructor; [by apply IH|].
  rewrite Forall_forall in *. intros y Hy.
  specialize (Hall y Hy). assert (x ≠ y) by (intros ->; done). lia.
Qed.

Lemma all_of_form {A B} (g : A → B) (l : list B) :
  (∀ y, y ∈ l → ∃ x, y = g x) → ∃ xs, l = g <$> xs.
Proof.
  induction l as [|y l IH]; intros H; [by exists []|].
  destruct (H y) as [x ->]; [left|].
  destruct IH as [xs ->]; [intros; apply H; by right|].
  by exists (x :: xs).
Qed.

Lemma zip_with_seq_imap {A B} (f : nat → A → B) k (l : list A) :
  zip_with f (seq k (length l)) l = imap (λ i, f (k + i)%nat) l.
Proof.
  revert k f. induction l as [|x l IH]; intros k f; [done|].
  simpl. rewrite Nat.add_0_r. f_equal. rewrite IH.
  apply imap_ext. intros i y _. simpl. f_equal. lia.
Qed.

Lemma strftime_time t : strftime_Ymd_int (VTime t) = Ok (date_id_of t).
Proof.
  unfold strftime_Ymd_int, date_id_of.
  by destruct (civil_from_days (days_of t)) as [[y m] d].
Qed.

Section DateRows.
Context (parse_datetime : string → option Z).

(** The sort by date of a one-column frame of timestamps. *)
Lemma sort_values_times (ts : list Z) :
  ∃ ts', sort_values (mkDF ["date"] ((λ t, [VTime t]) <$> ts)) "date"
         = Ok (mkDF ["date"] ((λ t, [VTime t]) <$> ts')) ∧
         ts' ≡ₚ ts ∧ Sorted Z.le ts'.
Proof.
  set (g := λ t : Z, [VTime t]).
  set (R := λ r1 r2 : row, value_leb (cell ["date"] "date" r1)
                                     (cell ["date"] "date" r2) : Prop).
  assert (Total R) as HT by (intros r1 r2; apply value_leb_total).
  destruct (all_of_form g (merge_sort R (g <$> ts))) as [ts' Hts'].
  { intros r Hr. rewrite merge_sort_Permutation in Hr.
    apply list_elem_of_fmap in Hr as (t & -> & _). by exists t. }
  exists ts'. split_and!.
  - unfold sort_values. simpl. fold R. by rewrite Hts'.
  - pose proof (merge_sort_Permutation R (g <$> ts)) as Hp. rewrite Hts' in Hp.
    apply (fmap_Permutation (λ r, match r with [VTime t] => t | _ => 0 end)) in Hp.
    rewrite <- !list_fmap_compose in Hp.
    by rewrite !(list_fmap_ext _ id), !list_fmap_id in Hp by done.
  - pose proof (Sorted_merge_sort R (g <$> ts)) as Hs. rewrite Hts' in Hs.
    apply (Sorted_fmap_inv g Z.le R); [|done].
    intros x y Hxy. unfold R, g in Hxy. rewrite !cell_head in Hxy. simpl in Hxy.
    by apply bool_decide_spec in Hxy.
Qed.

(** [dim_date] on a one-column frame of timestamps: the rows are the
    timestamps in ascending order, each with its position and its
    attributes. *)
Lemma dim_date_rows (ts : list Z) :
  ∃ ts', Tablas.dim_date parse_datetime (mkDF ["date"] ((λ t, [VTime t]) <$> ts))
         = Ok (mkDF dim_date_columns (imap date_row ts')) ∧
         ts' ≡ₚ ts ∧ Sorted Z.le ts'.
Proof.
  destruct (sort_values_times ts) as (ts' & Hsort & Hp & Hs).
  exists ts'. split; [|done].
  unfold Tablas.dim_date. rewrite Hsort. cbn [mbind result_bind].
  set (g := λ t : Z, [VTime t]).
  set (h := λ (i : nat) (t : Z), [VNum (Z.of_nat i + 1); VTime t]).
  (* dates['date'] = pd.to_datetime(dates['date']) *)
  assert (assign_checked (mkDF ["date"] (g <$> ts')) "date"
            (λ r, to_datetime parse_datetime (cell ["date"] "date" r))
          = Ok (mkDF ["date"] (g <$> ts'))) as E1.
  { unfold assign_checked. cbn [columns rows].
    rewrite (mapM_result_ext _ (cell ["date"] "date")); cycle 1.
    { intros r (t & -> & _)%list_elem_of_fmap. unfold g. by rewrite cell_head. }
    cbn [mbind result_bind]. f_equal.
    unfold assign_col. cbn [columns rows index_of]. rewrite decide_True by done.
    f_equal. rewrite zip_with_fmap_r, zip_with_diag.
    rewrite <- (list_fmap_id (g <$> ts')) at 2.
    apply list_fmap_ext. intros _ r (t & -> & _)%list_lookup_fmap_Some. unfold g.
    by rewrite cell_head. }
  (* dates.insert(0, 'date_sk', range(1, len(dates)+1)) *)
  assert (Tablas.insert_sk (mkDF ["date"] (g <$> ts')) "date_sk"
          = Ok (mkDF ["date_sk"; "date"] (imap h ts'))) as E2.
  { unfold Tablas.insert_sk. rewrite insert0_absent by (cbn; by intros ?%list_elem_of_singleton).
    do 2 f_equal. unfold range1, len. cbn [rows columns]. rewrite length_fmap.
    rewrite zip_with_fmap_l, zip_with_fmap_r, zip_with_seq_imap.
    apply imap_ext. intros i t _. unfold h, g. simpl. do 2 f_equal. lia. }
  (* dates['date_id'] = dates['date'].dt.strftime('%Y%m%d').astype(int) *)
  set (k := λ r : row, match r with [_; VTime t] => date_id_of t | _ => VNull end).
  assert (assign_checked (mkDF ["date_sk"; "date"] (imap h ts')) "date_id"
            (λ r, strftime_Ymd_int (cell ["date_sk"; "date"] "date" r))
          = Ok (mkDF ["date_sk"; "date"; "date_id"] ((λ r, r ++ [k r]) <$> imap h ts')))
    as E3.
  { unfold assign_checked. cbn [columns rows].
    rewrite (mapM_result_ext _ k); cycle 1.
    { intros r (i & t & -> & _)%elem_of_lookup_imap. unfold h.
      rewrite cell_tail, cell_head by done. apply strftime_time. }
    cbn [mbind result_bind]. f_equal.
    unfold assign_col. cbn [columns rows index_of].
    rewrite !decide_False by done. cbn [fmap option_fmap option_map app].
    f_equal. by rewrite zip_with_fmap_r, zip_with_diag. }
  cbn [columns]. rewrite E1. cbn [mbind result_bind]. rewrite E2. cbn [mbind result_bind columns].
  rewrite E3. cbn [mbind result_bind]. f_equal.
  unfold assign. cbn [columns rows index_of app].
  repeat (rewrite ?decide_False by done;
          cbn [fmap option_fmap option_map columns rows app index_of]).
  unfold dim_date_columns. f_equal.
  rewrite <- !list_fmap_compose, fmap_imap.
  apply imap_ext. intros i t _. unfold h, k, date_row. cbn [app compose].
  by rewrite !cell_tail, !cell_head by done.
Qed.
End DateRows.

Lemma all_times (vs : list value) :
  (∀ v, v ∈ vs → ∃ t, v = VTime t) → vs = VTime <$> times vs.
Proof.
  induction vs as [|v vs IH]; intros H; [done|].
  destruct (H v) as [t ->]; [left|].
  unfold times. simpl. fold (times vs). f_equal.
  apply IH. intros; apply H; by right.
Qed.

Section DateRowsOfARun.
Context (parse_datetime : string → option Z).

(** The frame of distinct days taken from a column: one column of
    distinct midnights. *)
Lemma distinct_days_times df col :
  ∃ ts, Tablas.distinct_days parse_datetime df col
        = mkDF ["date"] ((λ t, [VTime t]) <$> ts) ∧
        NoDup ts ∧
        (∀ t, t ∈ ts → t `mod` ns_per_day = 0) ∧
        VTime <$> ts = get_col (Tablas.distinct_days parse_datetime df col) "date".
Proof.
  destruct (distinct_days_spec parse_datetime df col) as [Hnd Hel].
  set (vs := get_col (Tablas.distinct_days parse_datetime df col) "date") in *.
  assert (∀ v, v ∈ vs → ∃ t, v = VTime t ∧ t `mod` ns_per_day = 0) as Hmid.
  { intros v (Hnn & x & _ & ->)%Hel.
    destruct (to_datetime_coerce parse_datetime x) as [| | |t]; simpl in *; try done.
    eexists. split; [done|]. apply Z.mod_mul. unfold ns_per_day. lia. }
  assert (vs = VTime <$> times vs) as Hvs.
  { apply all_times. intros v (t & -> & _)%Hmid. eauto. }
  exists (times vs). split_and!.
  - unfold Tablas.distinct_days. f_equal. rewrite <- distinct_days_column.
    fold vs. rewrite Hvs at 1. by rewrite <- list_fmap_compose.
  - rewrite Hvs in Hnd. by apply NoDup_fmap_1 in Hnd.
  - intros t Ht%elem_of_times. apply Hmid in Ht as (t' & [= <-] & Hm). done.
  - done.
Qed.

(** Whatever the date dimension is built from is such a frame, and it is
    not empty. *)
Lemma dates_source_times orders customers src :
  Tablas.dates_source parse_datetime orders customers = Some src →
  ∃ ts, src = mkDF ["date"] ((λ t, [VTime t]) <$> ts) ∧ NoDup ts ∧ ts ≠ [] ∧
        (∀ t, t ∈ ts → t `mod` ns_per_day = 0).
Proof.
  rewrite dates_source_precedence. unfold first_yielding.
  intros Hsrc.
  assert (none_or_empty (Some src) = false ∧
          (Some src = Tablas.dates_from_orders parse_datetime orders ∨
           Some src = Tablas.dates_from_customers parse_datetime customers)) as [Hne Hin].
  { rewrite !filter_cons, filter_nil in Hsrc.
    destruct (decide (none_or_empty (Tablas.dates_from_orders parse_datetime orders)
                      = false)) as [Ho|Ho].
    { rewrite Hsrc in *. auto. }
    rewrite calendar_needs_order_dates in Hsrc by by destruct (none_or_empty _).
    destruct (decide (none_or_empty (Tablas.dates_from_customers parse_datetime customers)
                      = false)) as [Hc|Hc].
    { rewrite Hsrc in *. auto. }
    by rewrite decide_False in Hsrc by done. }
  assert (∃ df col, src = Tablas.distinct_days parse_datetime df col) as (df & col & ->).
  { destruct Hin as [Hin|Hin].
    - unfold Tablas.dates_from_orders in Hin. destruct orders as [o|]; [|done].
      destruct (has_col o "order_date"); [|done]. injection Hin as ->. eauto.
    - unfold Tablas.dates_from_customers in Hin. destruct customers as [c|]; [|done].
      destruct (has_col c "created_at"); [|done]. injection Hin as ->. eauto. }
  destruct (distinct_days_times df col) as (ts & Hd & Hnd & Hmid & _).
  exists ts. split_and!; [done|done| |done].
  intros ->. rewrite Hd in Hne. done.
Qed.
End DateRowsOfARun.

Section DateOrder.
Context (parse_datetime : string → option Z).

(** X3.  The date dimension that [build_dimensions] (lines 138-148)
    returns is in date order: its rows are the distinct days of the
    source, each at midnight, strictly ascending down the rows, so that a
    later day has a larger [date_sk]; and every row carries, behind its
    key and its date, the [date_id], [year], [month], [day] and [weekday]
    of that date. *)
Theorem dim_date_in_date_order w dims w' d :
  Tablas.build_dimensions parse_datetime w = (Ok dims, w') →
  Tablas.dates dims = Some d →
  ∃ ts, d = mkDF dim_date_columns (imap date_row ts) ∧
        StronglySorted Z.lt ts ∧
        (∀ t, t ∈ ts → t `mod` ns_per_day = 0) ∧
        ∃ src, Tablas.dates_source parse_datetime (staged w "orders")
                 (staged w "customers") = Some src ∧
               VTime <$> ts ≡ₚ get_col src "date".
Proof.
  intros (_ & _ & _ & _ & Hd & _)%build_dimensions_Ok Hdd.
  rewrite Hdd in Hd. unfold dim_of in Hd.
  destruct (Tablas.dates_source _ _ _) as [src|] eqn:Hsrc; [|done].
  destruct Hd as (d' & Hb & [= <-]).
  apply dates_source_times in Hsrc as (ts0 & -> & Hnd & _ & Hmid).
  destruct (dim_date_rows parse_datetime ts0) as (ts & Hrows & Hp & Hs).
  rewrite Hrows in Hb. injection Hb as <-.
  exists ts. split_and!; [done| | |].
  - apply StronglySorted_le_lt; [|by rewrite Hp].
    apply Sorted_StronglySorted; [intros x y z; lia|done].
  - intros t Ht. apply Hmid. by rewrite <- Hp.
  - eexists. split; [done|].
    rewrite (list_fmap_compose VTime (λ v, [v])), get_col_single.
    by rewrite Hp.
Qed.
End DateOrder.

Lemma dim_date_in_date_order_witness :
  ∃ dims w' d,
    Tablas.build_dimensions no_parse repeated_order_id = (Ok dims, w') ∧
    Tablas.dates dims = Some d ∧
    ∃ ts, d = mkDF dim_date_columns (imap date_row ts) ∧
          StronglySorted Z.lt ts ∧
          (∀ t, t ∈ ts → t `mod` ns_per_day = 0) ∧
          ∃ src, Tablas.dates_source no_parse (staged repeated_order_id "orders")
                   (staged repeated_order_id "customers") = Some src ∧
                 VTime <$> ts ≡ₚ get_col src "date".
Proof.
  eexists _, _, _. split; [vm_compute; reflexivity|].
  split; [vm_compute; reflexivity|].
  refine (dim_date_in_date_order no_parse repeated_order_id _ _ _ _ _);
    vm_compute; reflexivity.
Defined.

(** ** A surrogate key that is already there *)

Lemma columns_rename_other df a b c :
  c ≠ a → c ≠ b → c ∈ columns (rename df a b) ↔ c ∈ columns df.
Proof.
  intros Ha Hb. unfold rename. cbn [columns]. rewrite list_elem_of_fmap. split.
  - intros (x & Hx & Hin). destruct (decide (x = a)); by subst.
  - intros Hin. exists c. by rewrite decide_False.
Qed.

Section DimensionFailures.
Context (parse_datetime : string → option Z).

Lemma columns_ensure_datetime df col :
  columns (Tablas._ensure_datetime parse_datetime df col) = columns df.
Proof.
  unfold Tablas._ensure_datetime. destruct (has_col df col) eqn:Hc; [|done].
  by rewrite columns_assign, Hc.
Qed.

(** The deduplication and [insert] of a keyed dimension block go through
    exactly on a frame that does not have the surrogate key column yet. *)
Lemma keyed_dimension_Ok c key sk :
  is_ok (c' ← Tablas.dedupe c key; Tablas.insert_sk c' sk) = true ↔ sk ∉ columns c.
Proof.
  destruct (dedupe_Ok c key) as (c' & -> & Hcols). cbn [mbind result_bind].
  unfold Tablas.insert_sk, insert0.
  destruct (has_col c' sk) eqn:Hsk.
  - apply has_col_true in Hsk. rewrite Hcols in Hsk. by split.
  - apply has_col_false in Hsk. rewrite Hcols in Hsk. by split.
Qed.

Lemma dim_customers_fresh t :
  is_ok (Tablas.dim_customers parse_datetime t) = true → "customer_sk" ∉ columns t.
Proof.
  unfold Tablas.dim_customers. cbv zeta. rewrite keyed_dimension_Ok.
  unfold Tablas.canonical_customers. rewrite columns_ensure_datetime.
  destruct (negb _ && _); [|done]. by rewrite columns_rename_other.
Qed.

Lemma dim_products_fresh t :
  is_ok (Tablas.dim_products parse_datetime t) = true → "product_sk" ∉ columns t.
Proof.
  unfold Tablas.dim_products. cbv zeta. rewrite keyed_dimension_Ok.
  unfold Tablas.canonical_products. by rewrite columns_ensure_datetime.
Qed.

Lemma dim_stores_fresh t :
  is_ok (Tablas.dim_stores t) = true → "store_sk" ∉ columns t.
Proof.
  unfold Tablas.dim_stores. cbv zeta. rewrite keyed_dimension_Ok.
  unfold Tablas.canonical_stores.
  destruct (negb _ && _); [|done]. by rewrite columns_rename_other.
Qed.
End DimensionFailures.

Section DimensionStage.
Context (parse_datetime : string → option Z).

(** X4.  [build_dimensions] of [tablas.py] returns only when none of the
    staged tables it reads (customers, products, stores or else channels,
    address, product_category) already has the surrogate key column that
    its block inserts ([customer_sk], [product_sk], [store_sk],
    [address_sk], [product_category_sk]): [insert] refuses a label that
    is there (lines 81, 96, 115, 160, 175), nothing in the stage catches
    the exception, and so one such column in one staged table stops the
    whole stage, and the script with it. *)
Theorem build_dimensions_stops_on_key_clash w :
  is_ok (Tablas.build_dimensions parse_datetime w).1 = true →
  (∀ t, staged w "customers" = Some t → "customer_sk" ∉ columns t) ∧
  (∀ t, staged w "products" = Some t → "product_sk" ∉ columns t) ∧
  (∀ t, staged_or w "stores" "channels" = Some t → "store_sk" ∉ columns t) ∧
  (∀ t, staged w "address" = Some t → "address_sk" ∉ columns t) ∧
  (∀ t, staged w "product_category" = Some t →
        "product_category_sk" ∉ columns t).
Proof.
  destruct (Tablas.build_dimensions parse_datetime w) as [[dims|e] w'] eqn:Hrun;
    [|done].
  intros _.
  apply build_dimensions_Ok in Hrun as (_ & Hc & Hp & Hs & _ & Ha & Hpc).
  unfold dim_of in *.
  split_and!; intros t Ht.
  - rewrite Ht in Hc. destruct Hc as (d & Hd & _).
    apply (dim_customers_fresh parse_datetime t). by rewrite Hd.
  - rewrite Ht in Hp. destruct Hp as (d & Hd & _).
    apply (dim_products_fresh parse_datetime t). by rewrite Hd.
  - rewrite Ht in Hs. destruct Hs as (d & Hd & _).
    apply (dim_stores_fresh t). by rewrite Hd.
  - rewrite Ht in Ha. destruct Ha as (d & Hd & _).
    apply (proj1 (keyed_dimension_Ok t "address_id" "address_sk")).
    unfold Tablas.dim_address in Hd. by rewrite Hd.
  - rewrite Ht in Hpc. destruct Hpc as (d & Hd & _).
    apply (proj1 (keyed_dimension_Ok t "category_id" "product_category_sk")).
    unfold Tablas.dim_product_category in Hd. by rewrite Hd.
Qed.
End DimensionStage.

Lemma build_dimensions_stops_on_key_clash_witness :
  (∀ t, staged scenario "customers" = Some t → "customer_sk" ∉ columns t) ∧
  (∀ t, staged scenario "products" = Some t → "product_sk" ∉ columns t) ∧
  (∀ t, staged_or scenario "stores" "channels" = Some t → "store_sk" ∉ columns t) ∧
  (∀ t, staged scenario "address" = Some t → "address_sk" ∉ columns t) ∧
  (∀ t, staged scenario "product_category" = Some t →
        "product_category_sk" ∉ columns t).
Proof.
  apply (build_dimensions_stops_on_key_clash no_parse scenario).
  vm_compute; reflexivity.
Defined.

(** ** The shape of the facts *)

Lemma select_fact_shape f allowed fact :
  Tablas.select_fact f allowed = Ok fact → NoDup allowed →
  fact_shape allowed fact ∧ ∀ c, c ∈ columns fact → c ∈ columns f.
Proof.
  unfold Tablas.select_fact. rewrite select_filter_has. cbn [mbind result_bind].
  intros [= <-] Hnd. unfold drop_duplicates. cbn [columns rows].
  split; [split_and!|].
  - apply sublist_filter.
  - by apply NoDup_filter.
  - unfold aligned. cbn [columns rows]. apply Forall_forall. intros r Hr.
    eapply elem_of_sublist in Hr; [|apply keep_first_sublist].
    apply list_elem_of_fmap in Hr as (r0 & -> & _). apply project_length.
  - rewrite <- (list_fmap_id (keep_first _ _ _)). apply keep_first_NoDup.
  - intros c [Hc _]%list_elem_of_filter. apply has_col_true.
    by destruct (has_col f c).
Qed.

Section FactShapes.
Context (parse_datetime : string → option Z).
Context (cell_mul : value → value → value).

Lemma dated_fact_shape src dims guard col sk allowed fact :
  Tablas.dated_fact parse_datetime src dims guard col sk allowed = Ok fact →
  NoDup allowed → fact_shape allowed fact.
Proof.
  unfold Tablas.dated_fact.
  destruct (Tablas.dated _ _ _ _ _ _) as [t|]; [|done]. cbn [mbind result_bind].
  intros H Hnd. by apply select_fact_shape in H as [? _].
Qed.

(** X5.  Each of the six facts that [build_facts] builds (lines 236-237,
    259-260, 275-276, 291-292, 307-308, 323-324) is a table over labels
    of its own list only, in the order of that list, each label at most
    once, with one cell per label in every row and no row twice.  This is
    for tables whose labels are distinct, as those read from a file are,
    and for a staged source that does not already have the date key of
    its block ([order_date_sk], [payment_date_sk], [shipped_date_sk],
    [session_date_sk], [response_date_sk]): [rename] would put that
    label on a second column, and the fact would have it twice. *)
Theorem fact_tables_shape dims :
  dims_distinct dims →
  (∀ items orders fact,
     NoDup (columns items) → (∀ o, orders = Some o → NoDup (columns o)) →
     "order_date_sk" ∉ columns items →
     Tablas.fact_order_lines parse_datetime cell_mul items orders dims = Ok fact →
     fact_shape ["order_id"; "order_date_sk"; "customer_sk"; "product_sk";
                 "store_sk"; "quantity"; "unit_price"; "line_total"] fact)
  ∧ (∀ orders fact,
       NoDup (columns orders) → "order_date_sk" ∉ columns orders →
       Tablas.fact_orders parse_datetime orders dims = Ok fact →
       fact_shape ["order_id"; "order_date_sk"; "customer_sk"; "store_sk"; "status";
                   "subtotal"; "tax_amount"; "shipping_fee"; "total_amount"] fact)
  ∧ (∀ t fact,
       NoDup (columns t) → "payment_date_sk" ∉ columns t →
       Tablas.fact_payments parse_datetime t dims = Ok fact →
       fact_shape ["payment_id"; "order_id"; "payment_date_sk"; "amount"; "status";
                   "payment_method"] fact)
  ∧ (∀ t fact,
       NoDup (columns t) → "shipped_date_sk" ∉ columns t →
       Tablas.fact_shipments parse_datetime t dims = Ok fact →
       fact_shape ["shipment_id"; "order_id"; "shipped_date_sk"; "carrier"; "status";
                   "tracking_number"] fact)
  ∧ (∀ t fact,
       NoDup (columns t) → "session_date_sk" ∉ columns t →
       Tablas.fact_web_sessions parse_datetime t dims = Ok fact →
       fact_shape ["session_id"; "customer_id"; "session_date_sk"; "page_views";
                   "duration_seconds"] fact)
  ∧ (∀ t fact,
       NoDup (columns t) → "response_date_sk" ∉ columns t →
       Tablas.fact_nps parse_datetime t dims = Ok fact →
       fact_shape ["nps_id"; "customer_id"; "response_date_sk"; "score"; "comment"]
                  fact).
Proof.
  intros _. split_and!.
  - intros items orders fact _ _ _. unfold Tablas.fact_order_lines.
    destruct (Tablas.order_lines _ _ _ _ _) as [f|]; [|done].
    cbn [mbind result_bind]. intros H.
    apply select_fact_shape in H as [? _]; [done|].
    apply (bool_decide_unpack _). by vm_compute.
  - intros orders fact _ _. unfold Tablas.fact_orders.
    destruct (Tablas.orders_enriched _ _ _) as [o|]; [|done].
    cbn [mbind result_bind]. intros H.
    apply select_fact_shape in H as [? _]; [done|].
    apply (bool_decide_unpack _). by vm_compute.
  - intros t fact _ _ H. eapply dated_fact_shape; [done|].
    apply (bool_decide_unpack _). by vm_compute.
  - intros t fact _ _ H. eapply dated_fact_shape; [done|].
    apply (bool_decide_unpack _). by vm_compute.
  - intros t fact _ _ H. eapply dated_fact_shape; [done|].
    apply (bool_decide_unpack _). by vm_compute.
  - intros t fact _ _ H. eapply dated_fact_shape; [done|].
    apply (bool_decide_unpack _). by vm_compute.
Qed.
End FactShapes.

Lemma fact_tables_shape_witness :
  fact_shape ["payment_id"; "order_id"; "payment_date_sk"; "amount"; "status";
              "payment_method"]
             (mkDF ["payment_id"; "order_id"; "payment_date_sk"]
                   [[VNum 1; VNum 100; VNum 1]]).
Proof.
  refine (proj1 (proj2 (proj2
            (fact_tables_shape no_parse int_mul
               (Tablas.mkDims None None None
                  (Some (mkDF ["date_sk"; "date"] [[VNum 1; day 19727]])) None None) _)))
            (mkDF ["payment_id"; "order_id"; "created_at"; "note"]
                  [[VNum 1; VNum 100; day 19727; VStr "a"];
                   [VNum 1; VNum 100; day 19727; VStr "b"]]) _ _ _ _).
  - intros t d Ht ->. cbn in Ht.
    repeat (apply elem_of_cons in Ht as [Ht|Ht];
            [try discriminate Ht; injection Ht as ->;
             apply (bool_decide_unpack _); by vm_compute|]).
    by apply elem_of_nil in Ht.
  - apply (bool_decide_unpack _). by vm_compute.
  - apply has_col_false. vm_compute; reflexivity.
  - vm_compute; reflexivity.
Defined.


(** ** One fact row per order header *)

Section OrderHeaders.
Context (parse_datetime : string → option Z).

Lemma orders_enriched_len orders dims o :
  (∀ d, Tablas.customers dims = Some d → "customer_id" ∈ columns d →
        NoDup (get_col d "customer_id")) →
  (∀ d, Tablas.stores dims = Some d → "store_id" ∈ columns d →
        NoDup (get_col d "store_id")) →
  (∀ d, Tablas.dates dims = Some d → NoDup (get_col d "date")) →
  Tablas.orders_enriched parse_datetime orders dims = Ok o →
  len o = len orders.
Proof.
  intros Hc Hs Hd. unfold Tablas.orders_enriched.
  destruct (Tablas.merge_dim _ (Tablas.customers dims) _ _) as [o1|] eqn:H1;
    [|done]. cbn [mbind result_bind].
  destruct (Tablas.merge_dim _ (Tablas.stores dims) _ _) as [o2|] eqn:H2;
    [|done]. cbn [mbind result_bind].
  apply (merge_dim_len_keyed parse_datetime) in H1; [|done].
  apply (merge_dim_len_keyed parse_datetime) in H2; [|done].
  intros H3.
  assert (len o = len o2) as Hl; [|congruence].
  destruct (Tablas.dates dims) as [d|]; [|by injection H3 as <-].
  destruct (has_col o2 "order_date"); [|by injection H3 as <-].
  apply merge_date_len_unique in H3; [done| |by apply Hd].
  apply elem_of_cons. right. left.
Qed.

(** X6.  With the dimensions that [build_dimensions] returns,
    [fact_orders] (lines 243-261) has at most one row per staged order
    header: the three joins add no row, because no natural key and no
    date occurs twice in a dimension, and the deduplication can only
    remove rows. *)
Theorem fact_orders_rows_bounded w dims w' :
  Tablas.build_dimensions parse_datetime w = (Ok dims, w') →
  ∀ orders fact,
    Tablas.fact_orders parse_datetime orders dims = Ok fact →
    (len fact ≤ len orders)%nat.
Proof.
  intros (_ & Hc & _ & Hs & Hd & _)%build_dimensions_Ok orders fact.
  unfold Tablas.fact_orders.
  destruct (Tablas.orders_enriched _ _ _) as [o|] eqn:Ho; [|done].
  cbn [mbind result_bind].
  destruct (select_fact_Ok o ["order_id"; "order_date_sk"; "customer_sk"; "store_sk";
              "status"; "subtotal"; "tax_amount"; "shipping_fee"; "total_amount"])
    as (fact' & Hsel & Hle & _).
  rewrite Hsel. intros [= <-].
  apply orders_enriched_len in Ho; [lia| | |].
  - intros d Hdd Hin.
    by apply (dim_of_keyed_NoDup _ (Tablas.canonical_customers parse_datetime)
                _ _ _ _ Hc Hdd).
  - intros d Hdd Hin.
    by apply (dim_of_keyed_NoDup _ Tablas.canonical_stores _ _ _ _ Hs Hdd).
  - intros d Hdd. by eapply dim_of_dates_NoDup.
Qed.
End OrderHeaders.

Lemma fact_orders_rows_bounded_witness :
  (len (mkDF ["order_id"; "order_date_sk"; "customer_sk"]
             [[VNum 100; VNum 1; VNum 1]])
   ≤ len (mkDF ["order_id"; "order_date"; "customer_id"; "store_id"]
               [[VNum 100; day 19727; VNum 1; VNum 7];
                [VNum 100; day 19727; VNum 1; VNum 7]]))%nat.
Proof.
  eapply (fact_orders_rows_bounded no_parse scenario).
  - vm_compute; reflexivity.
  - vm_compute; reflexivity.
Defined.

(** ** Where a surrogate key in a fact comes from *)

(** X7.  The join of a fact with a dimension in [build_facts] (lines
    208-213 and 246-249) only ever puts behind a fact row the surrogate
    key of a dimension row that has the natural key of the fact row, or a
    null when the dimension has no such row; it invents no row and no
    key. *)
Theorem surrogate_key_of_matching_row f d sk key f' :
  Tablas.merge_dim f (Some d) sk key = Ok f' →
  key ∈ columns f → sk ∉ columns f → sk ≠ key →
  ∀ r', r' ∈ rows f' →
    ∃ r v, r ∈ rows f ∧ r' = r ++ [v] ∧
      ((v = VNull ∧
        ∀ rd, rd ∈ rows d → cell (columns d) key rd ≠ cell (columns f) key r)
       ∨ (∃ rd, rd ∈ rows d ∧
                cell (columns d) key rd = cell (columns f) key r ∧
                v = cell (columns d) sk rd)).
Proof.
  intros H Hk Hsk Hne r' Hr'.
  apply merge_dim_Some_shape in H as [_ Hr]; [|done..].
  rewrite Hr in Hr'. apply list_elem_of_bind in Hr' as (r & Hj & Hin).
  unfold join_row in Hj.
  destruct (filter _ (rows d)) as [|m ms] eqn:Hf.
  - apply list_elem_of_singleton in Hj as ->.
    exists r, VNull. split_and!; [done|done|]. left. split; [done|].
    intros rd Hrd Heq.
    assert (rd ∈ filter (λ rr, cell (columns d) key rr = cell (columns f) key r)
                        (rows d)) as Hm by by apply list_elem_of_filter.
    rewrite Hf in Hm. by apply elem_of_nil in Hm.
  - apply list_elem_of_fmap in Hj as (rd & -> & Hrd).
    rewrite <- Hf in Hrd. apply list_elem_of_filter in Hrd as [Heq Hrd].
    exists r, (cell (columns d) sk rd). split_and!; [done|done|].
    right. by exists rd.
Qed.

Lemma surrogate_key_of_matching_row_witness :
  ∃ r v, r ∈ rows (mkDF ["order_id"; "store_id"] [[VNum 100; VNum 1]]) ∧
         [VNum 100; VNum 1; VNum 5] = r ++ [v] ∧
    ((v = VNull ∧
      ∀ rd, rd ∈ rows (mkDF ["store_sk"; "store_id"] [[VNum 5; VNum 1]]) →
            cell ["store_sk"; "store_id"] "store_id" rd
            ≠ cell ["order_id"; "store_id"] "store_id" r)
     ∨ (∃ rd, rd ∈ rows (mkDF ["store_sk"; "store_id"] [[VNum 5; VNum 1]]) ∧
              cell ["store_sk"; "store_id"] "store_id" rd
              = cell ["order_id"; "store_id"] "store_id" r ∧
              v = cell ["store_sk"; "store_id"] "store_sk" rd)).
Proof.
  apply (surrogate_key_of_matching_row
           (mkDF ["order_id"; "store_id"] [[VNum 100; VNum 1]])
           (mkDF ["store_sk"; "store_id"] [[VNum 5; VNum 1]])
           "store_sk" "store_id"
           (mkDF ["order_id"; "store_id"; "store_sk"] [[VNum 100; VNum 1; VNum 5]])).
  - vm_compute; reflexivity.
  - apply has_col_true. vm_compute; reflexivity.
  - apply has_col_false. vm_compute; reflexivity.
  - done.
  - left.
Defined.

(** ** What a run of [tablas.py] may touch *)

Lemma footprint_ret {A} names (a : A) : footprint names (mret a).
Proof.
  intros w r w' [= <- <-]. split; [apply same_inputs_refl|by apply frame_over_refl].
Qed.

Lemma footprint_lift {A} names (x : result A) : footprint names (lift x).
Proof.
  intros w r w' [= <- <-]. split; [apply same_inputs_refl|by apply frame_over_refl].
Qed.

Lemma footprint_bind {A B} names (m : M A) (k : A → M B) :
  footprint names m → (∀ a, footprint names (k a)) → footprint names (m ≫= k).
Proof.
  intros Hm Hk w r w' [(a & w1 & H1 & H2)|(e & H1 & ->)]%bind_run.
  - destruct (Hm _ _ _ H1) as [Hs1 Hf1]. destruct (Hk _ _ _ _ H2) as [Hs2 Hf2].
    split; [by eapply same_inputs_trans|].
    intros file Hn. by rewrite Hf2, Hf1.
  - by apply Hm in H1.
Qed.

Lemma footprint_print names s line : footprint names (print s line).
Proof.
  intros w r w' H. destruct (print_run s line w) as (w2 & H2 & Hs & Hd & _).
  rewrite H in H2. injection H2 as -> ->. split; [done|by apply frame_over_refl].
Qed.

Lemma footprint_read_staging names name : footprint names (Tablas.read_staging name).
Proof.
  intros w r w' H. destruct (read_staging_run name w) as (w2 & H2 & Hs & Hd & _).
  rewrite H in H2. injection H2 as -> ->. split; [done|by apply frame_over_refl].
Qed.

Lemma footprint_read_staging_or names x b :
  footprint names (Tablas.read_staging_or x b).
Proof.
  destruct x; [apply footprint_ret|apply footprint_read_staging].
Qed.

Lemma footprint_write_table names df name :
  name ∈ names → footprint names (Tablas.write_table df name).
Proof.
  intros Hin w r w' H.
  destruct (tablas_write_table_run df name w) as (w2 & H2 & Hs & Hf).
  rewrite H in H2. injection H2 as -> ->. split; [done|].
  intros file Hn. apply Hf; intros ->; (eapply Hn; [done|]); [by left|by right].
Qed.

Section TablasFootprint.
Context (parse_datetime : string → option Z).
Context (cell_mul : value → value → value).

Lemma footprint_dimension names src build name :
  name ∈ names → footprint names (Tablas.dimension src build name).
Proof.
  intros Hin. unfold Tablas.dimension. destruct src as [t|]; [|apply footprint_ret].
  apply footprint_bind; [apply footprint_lift|intros c].
  apply footprint_bind; [by apply footprint_write_table|intros _].
  apply footprint_ret.
Qed.

Lemma footprint_fact names src build name warning :
  name ∈ names → footprint names (Tablas.fact src build name warning).
Proof.
  intros Hin. unfold Tablas.fact. destruct src as [t|]; [|apply footprint_print].
  apply footprint_bind; [apply footprint_lift|intros c].
  by apply footprint_write_table.
Qed.

Lemma footprint_build_dimensions :
  footprint warehouse_tables (Tablas.build_dimensions parse_datetime).
Proof.
  unfold Tablas.build_dimensions, Tablas.stores_block.
  repeat first
    [ apply footprint_ret | apply footprint_read_staging
    | apply footprint_read_staging_or
    | apply footprint_dimension; apply (bool_decide_unpack _); by vm_compute
    | (apply footprint_bind; [|intros ?]) ].
Qed.

Lemma footprint_build_facts dims :
  footprint warehouse_tables (Tablas.build_facts parse_datetime cell_mul dims).
Proof.
  unfold Tablas.build_facts.
  repeat first
    [ apply footprint_read_staging | apply footprint_read_staging_or
    | apply footprint_fact; apply (bool_decide_unpack _); by vm_compute
    | (apply footprint_bind; [|intros ?]) ].
Qed.

(** X8.  A run of [tablas.py] (lines 330-334), whether it ends normally
    or on an exception, never changes a staged or a raw file, loses no
    printed line, and in the warehouse directory changes no file other
    than the [.parquet] and [.csv] files of its six dimensions and six
    facts. *)
Theorem tablas_main_footprint w :
  same_inputs w (Tablas.main parse_datetime cell_mul w).2 ∧
  frame_over warehouse_tables w (Tablas.main parse_datetime cell_mul w).2.
Proof.
  assert (footprint warehouse_tables (Tablas.main parse_datetime cell_mul)) as H.
  { unfold Tablas.main.
    apply footprint_bind; [apply footprint_print|intros _].
    apply footprint_bind; [apply footprint_build_dimensions|intros dims].
    apply footprint_bind; [apply footprint_build_facts|intros _].
    apply footprint_print. }
  destruct (Tablas.main parse_datetime cell_mul w) as [r w'] eqn:Hrun.
  by apply H in Hrun.
Qed.
End TablasFootprint.

(** ** The rules of [build_staging] that never decide *)

Lemma append_assoc (a b c : string) : (a +:+ b) +:+ c = a +:+ (b +:+ c).
Proof.
  induction a as [|x a IH]; [done|].
  change (String x ((a +:+ b) +:+ c) = String x (a +:+ (b +:+ c))). by f_equal.
Qed.

Lemma contains_trans k k' s :
  Str.contains k k' = true → Str.contains k' s = true → Str.contains k s = true.
Proof.
  rewrite !contains_spec. intros (a & b & ->) (a' & b' & ->).
  exists (a' +:+ a), (b +:+ b'). by rewrite !append_assoc.
Qed.

(** X9.  Three of the sixteen entries of [mapping_rules] (lines 70-87)
    never decide the staging name of a raw file: a name that contains
    [sales_order_item] or [product_category] is caught by the earlier
    rules [order_item] and [product], and [sales_order] gives the same
    name as the later rule [order].  So no raw file is ever staged as
    [product_category]: a file of that name is staged as [products]. *)
Theorem shadowed_rules_never_decide :
  (∀ name, Desnormalizar.first_rule Desnormalizar.mapping_rules name
           = Desnormalizar.first_rule effective_rules name)
  ∧ (∀ file, Desnormalizar.target_of file ≠ "product_category")
  ∧ Desnormalizar.target_of "product_category.csv" = "products".
Proof.
  assert (∀ name, Desnormalizar.first_rule Desnormalizar.mapping_rules name
                  = Desnormalizar.first_rule effective_rules name) as Hrules.
  { intros name. rewrite mapping_rules_order. unfold effective_rules.
    cbn [Desnormalizar.first_rule].
    pose proof (contains_trans "product" "product_category" name eq_refl) as Hp.
    pose proof (contains_trans "order_item" "sales_order_item" name eq_refl) as Hi.
    pose proof (contains_trans "order" "sales_order" name eq_refl) as Ho.
    repeat match goal with
           | |- context [if Str.contains ?k name then _ else _] =>
               destruct (Str.contains k name) eqn:?
           end; try done;
      first [by specialize (Hi eq_refl) | by specialize (Ho eq_refl)
            | by specialize (Hp eq_refl)]. }
  split_and!; [done| |by vm_compute].
  intros file. unfold Desnormalizar.target_of. cbv zeta. rewrite Hrules.
  destruct (Desnormalizar.first_rule effective_rules _) as [v|] eqn:E.
  - apply first_rule_Some in E as (i & k & Hi%list_elem_of_lookup_2 & _).
    unfold effective_rules in Hi.
    repeat (apply elem_of_cons in Hi as [Hi|Hi]; [by injection Hi as -> ->|]).
    by apply elem_of_nil in Hi.
  - intros Heq. rewrite Heq in E. by vm_compute in E.
Qed.

(** ** Labels after [_canonicalize_columns] *)

Lemma append_nil_r (s : string) : s +:+ "" = s.
Proof.
  induction s as [|x s IH]; [done|].
  change (String x (s +:+ "") = String x s). by f_equal.
Qed.

Lemma rev_app_app s1 s2 s3 :
  String.rev_app s1 s2 +:+ s3 = String.rev_app s1 (s2 +:+ s3).
Proof. revert s2. induction s1 as [|a s1 IH]; intros s2; [done|]. apply IH. Qed.

Lemma rev_app_rev s1 s2 : String.rev_app s1 s2 = String.rev s1 +:+ s2.
Proof. unfold String.rev. by rewrite rev_app_app. Qed.

Lemma rev_cons a s : String.rev (String a s) = String.rev s +:+ String a "".
Proof. unfold String.rev at 1. simpl. apply rev_app_rev. Qed.

Lemma rev_app_rev_app s1 s2 s3 :
  String.rev_app (String.rev_app s1 s2) s3 = String.rev_app s2 (s1 +:+ s3).
Proof.
  revert s2 s3. induction s1 as [|a s1 IH]; intros s2 s3; [done|].
  simpl. by rewrite IH.
Qed.

Lemma rev_involutive s : String.rev (String.rev s) = s.
Proof. unfold String.rev. rewrite rev_app_rev_app. simpl. apply append_nil_r. Qed.

Lemma rev_snoc s a : String.rev (s +:+ String a "") = String a (String.rev s).
Proof.
  rewrite <- (rev_involutive s) at 1. rewrite <- rev_cons.
  apply rev_involutive.
Qed.

Lemma lstrip_clean s : clean_head (Str.lstrip s).
Proof.
  induction s as [|a s IH]; [done|]. simpl.
  by destruct (Str.is_whitespace a) eqn:Ha.
Qed.

Lemma clean_head_lstrip s : clean_head s → Str.lstrip s = s.
Proof. destruct s as [|a s]; [done|]. simpl. by intros ->. Qed.

Lemma lstrip_snoc s a :
  Str.is_whitespace a = false →
  ∃ u, Str.lstrip (s +:+ String a "") = u +:+ String a "".
Proof.
  intros Ha. induction s as [|b s IH].
  - exists "". simpl. by rewrite Ha.
  - change (String b s +:+ String a "") with (String b (s +:+ String a "")).
    simpl. destruct (Str.is_whitespace b); [done|]. by exists (String b s).
Qed.

(** [strip] gives a string that is clean at both ends, and leaves such a
    string as it is. *)
Lemma strip_clean s :
  clean_head (Str.strip s) ∧ clean_head (String.rev (Str.strip s)).
Proof.
  unfold Str.strip. rewrite rev_involutive. split; [|apply lstrip_clean].
  pose proof (lstrip_clean s) as Hs.
  destruct (Str.lstrip s) as [|a v]; [done|]. simpl in Hs.
  rewrite rev_cons.
  destruct (lstrip_snoc (String.rev v) a Hs) as [u ->].
  by rewrite rev_snoc.
Qed.

Lemma clean_strip s :
  clean_head s → clean_head (String.rev s) → Str.strip s = s.
Proof.
  intros H1 H2. unfold Str.strip.
  by rewrite (clean_head_lstrip s), (clean_head_lstrip (String.rev s)), rev_involutive.
Qed.

(** A character-by-character map that keeps non-whitespace
    non-whitespace keeps a string clean at both ends. *)
Section CharMaps.
Context (f : Ascii.ascii → Ascii.ascii) (h : string → string).
Hypothesis h_nil : h "" = "".
Hypothesis h_cons : ∀ a s, h (String a s) = String (f a) (h s).
Hypothesis f_clean : ∀ a, Str.is_whitespace a = false → Str.is_whitespace (f a) = false.

Lemma map_rev_app s1 s2 : h (String.rev_app s1 s2) = String.rev_app (h s1) (h s2).
Proof.
  revert s2. induction s1 as [|a s1 IH]; intros s2; [by rewrite h_nil|].
  rewrite h_cons. simpl. by rewrite IH, h_cons.
Qed.

Lemma map_rev s : h (String.rev s) = String.rev (h s).
Proof. unfold String.rev. by rewrite map_rev_app, h_nil. Qed.

Lemma map_clean_head s : clean_head s → clean_head (h s).
Proof.
  destruct s as [|a s]; [by rewrite h_nil|]. rewrite h_cons. simpl. apply f_clean.
Qed.

Lemma map_clean s :
  clean_head s ∧ clean_head (String.rev s) →
  clean_head (h s) ∧ clean_head (String.rev (h s)).
Proof.
  intros [H1 H2]. split; [by apply map_clean_head|].
  rewrite <- map_rev. by apply map_clean_head.
Qed.
End CharMaps.

Lemma lower_ascii_clean a :
  Str.is_whitespace a = false → Str.is_whitespace (Str.lower_ascii a) = false.
Proof. destruct a as [[] [] [] [] [] [] [] []]; by vm_compute. Qed.

Lemma lower_ascii_idemp a : Str.lower_ascii (Str.lower_ascii a) = Str.lower_ascii a.
Proof. destruct a as [[] [] [] [] [] [] [] []]; by vm_compute. Qed.

Lemma lower_idemp s : Str.lower (Str.lower s) = Str.lower s.
Proof.
  induction s as [|a s IH]; [done|]. simpl. by rewrite lower_ascii_idemp, IH.
Qed.

Lemma replace_spaces_idemp s :
  Str.replace_spaces (Str.replace_spaces s) = Str.replace_spaces s.
Proof.
  induction s as [|a s IH]; [done|]. simpl. rewrite IH. f_equal.
  destruct (decide (a = " "%char)) as [->|Ha]; [done|]. by rewrite decide_False.
Qed.

Lemma lower_replace_spaces s :
  Str.lower (Str.replace_spaces s) = Str.replace_spaces (Str.lower s).
Proof.
  induction s as [|a s IH]; [done|]. simpl. rewrite IH. f_equal.
  destruct a as [[] [] [] [] [] [] [] []]; by vm_compute.
Qed.

Lemma replace_space_clean a :
  Str.is_whitespace a = false →
  Str.is_whitespace (if decide (a = " "%char) then "_"%char else a) = false.
Proof. intros Ha. destruct (decide (a = " "%char)); [done|done]. Qed.

(** X10.  [_canonicalize_columns] (lines 41-45) changes the labels only:
    the rows and the number of columns stay.  Every label it gives is
    canonical (no whitespace at either end, no upper-case letter, no
    space), and a frame whose labels are canonical is left as it is; so
    canonicalizing twice is canonicalizing once.  Labels are ASCII
    strings here. *)
Theorem canonicalize_columns_canonical df :
  rows (Desnormalizar._canonicalize_columns df) = rows df
  ∧ length (columns (Desnormalizar._canonicalize_columns df)) = length (columns df)
  ∧ (∀ c, c ∈ columns (Desnormalizar._canonicalize_columns df) → canonical_label c)
  ∧ ((∀ c, c ∈ columns df → canonical_label c) →
     Desnormalizar._canonicalize_columns df = df)
  ∧ Desnormalizar._canonicalize_columns (Desnormalizar._canonicalize_columns df)
    = Desnormalizar._canonicalize_columns df.
Proof.
  assert (∀ c, canonical_label (Str.replace_spaces (Str.lower (Str.strip c)))) as Hcan.
  { intros c. split_and!.
    - apply clean_strip.
      + apply (map_clean _ Str.replace_spaces eq_refl (λ _ _, eq_refl)
                 replace_space_clean).
        apply (map_clean _ Str.lower eq_refl (λ _ _, eq_refl) lower_ascii_clean).
        apply strip_clean.
      + apply (map_clean _ Str.replace_spaces eq_refl (λ _ _, eq_refl)
                 replace_space_clean).
        apply (map_clean _ Str.lower eq_refl (λ _ _, eq_refl) lower_ascii_clean).
        apply strip_clean.
    - by rewrite lower_replace_spaces, lower_idemp.
    - apply replace_spaces_idemp. }
  assert (∀ d, (∀ c, c ∈ columns d → canonical_label c) →
               Desnormalizar._canonicalize_columns d = d) as Hfix.
  { intros [cols rws] Hall. unfold Desnormalizar._canonicalize_columns.
    cbn [columns rows] in *. f_equal.
    rewrite <- (list_fmap_id cols) at 2. apply list_fmap_ext.
    intros i c Hc%list_elem_of_lookup_2. destruct (Hall c Hc) as (-> & -> & ->).
    done. }
  assert (∀ c, c ∈ columns (Desnormalizar._canonicalize_columns df) →
               canonical_label c) as Hall.
  { intros c (c0 & -> & _)%list_elem_of_fmap. apply Hcan. }
  split_and!; [done|apply length_fmap|done|apply Hfix|by apply Hfix].
Qed.

(** ** The staging stage *)

Lemma staging_only_refl w : staging_only w w.
Proof. by repeat split. Qed.

Lemma staging_only_trans w1 w2 w3 :
  staging_only w1 w2 → staging_only w2 w3 → staging_only w1 w3.
Proof.
  intros (?&?&?&?&?) (?&?&?&?&?). repeat split; try congruence. by etrans.
Qed.

Lemma print_staging_only s line w :
  ∃ w', print s line w = (Ok (), w') ∧ staging_only w w' ∧
        staging_dir w' = staging_dir w.
Proof.
  eexists; split; [done|]. split; [|done].
  repeat split; try done. simpl. by apply prefix_app_r.
Qed.

(** The guarded write returns, only touches the two files of its name,
    and leaves the frame in the first of them that can be written. *)
Lemma safe_write_staging_run s t w :
  ∃ w', Desnormalizar.safe_write_staging s t w = (Ok (), w') ∧
        staging_only w w' ∧
        (∀ file, ¬ touches t file → staging_dir w' !! file = staging_dir w !! file) ∧
        staged_outcome w w' t s.
Proof.
  unfold Desnormalizar.safe_write_staging, Desnormalizar.write_staging, staged_outcome.
  destruct (empty s) eqn:He.
  { unfold try_except. simpl. eexists; split; [done|]. split_and!; try done.
    repeat split; try done. simpl. by apply prefix_app_r. }
  unfold try_except, mbind, M_bind, to_parquet, to_csv.
  destruct (parquet_ok w (t +:+ ".parquet")) eqn:Hp.
  { eexists; split; [done|]. split_and!.
    - repeat split; try done. simpl. by apply prefix_app_r.
    - intros file Hn. simpl. rewrite lookup_insert_ne; [done|].
      intros <-. apply Hn. by left.
    - simpl. by rewrite lookup_insert_eq. }
  destruct (csv_ok w (t +:+ ".csv")) eqn:Hc.
  { eexists; split; [done|]. split_and!.
    - repeat split; try done. simpl. by apply prefix_app_r.
    - intros file Hn. simpl. rewrite lookup_insert_ne; [done|].
      intros <-. apply Hn. by right.
    - simpl. by rewrite lookup_insert_eq. }
  eexists; split; [done|]. split_and!; try done.
  repeat split; try done. simpl. by apply prefix_app_r.
Qed.

Section StagingStage.
Context (to_datetime_series : list value → result (list value)).

(** The loop of [build_staging] returns, and only writes files of the
    targets of readable raw files that are not processed yet. *)
Lemma stage_files_run files :
  ∀ processed w,
    ∃ w', Desnormalizar.stage_files to_datetime_series files processed w = (Ok (), w') ∧
          staging_only w w' ∧
          ∀ file,
            (∀ f, f ∈ files → Desnormalizar.target_of f.1 ∉ processed →
                  is_Some f.2 → ¬ touches (Desnormalizar.target_of f.1) file) →
            staging_dir w' !! file = staging_dir w !! file.
Proof.
  induction files as [|[name content] files IH]; intros processed w.
  { exists w. split_and!; [done|apply staging_only_refl|done]. }
  cbn [Desnormalizar.stage_files]. cbv zeta.
  destruct (decide (Desnormalizar.target_of name ∈ processed)) as [Hin|Hin].
  { destruct (print_staging_only Stdout
                ("[info] ya procesado " +:+ Desnormalizar.target_of name
                   +:+ ", salto " +:+ name) w) as (w1 & Hp & Hs1 & Hd1).
    rewrite (bind_Ok _ _ _ _ _ Hp).
    destruct (IH processed w1) as (w' & Hr & Hs & Hf).
    exists w'. split_and!; [done|by eapply staging_only_trans|].
    intros file Hn. rewrite Hf, Hd1; [done|].
    intros f Hfin. apply Hn. by right. }
  destruct content as [df|].
  - destruct (safe_write_staging_run
                (Desnormalizar.parse_date_columns to_datetime_series
                   (Desnormalizar._canonicalize_columns df))
                (Desnormalizar.target_of name) w) as (w1 & Hw & Hs1 & Hf1 & _).
    rewrite (bind_Ok _ _ _ _ _ Hw).
    destruct (IH (processed ∪ {[Desnormalizar.target_of name]}) w1)
      as (w' & Hr & Hs & Hf).
    exists w'. split_and!; [done|by eapply staging_only_trans|].
    intros file Hn. rewrite Hf, Hf1; [done| |].
    + apply (Hn (name, Some df)); [left|done|done].
    + intros f Hfin Hnp. apply Hn; [by right|].
      intros Hp. apply Hnp. apply elem_of_union. by left.
  - destruct (print_staging_only Stderr ("[warn] no se pudo leer " +:+ name) w)
      as (w1 & Hp & Hs1 & Hd1).
    rewrite (bind_Ok _ _ _ _ _ Hp).
    destruct (IH processed w1) as (w' & Hr & Hs & Hf).
    exists w'. split_and!; [done|by eapply staging_only_trans|].
    intros file Hn. rewrite Hf, Hd1; [done|].
    intros f Hfin. apply Hn. by right.
Qed.

End StagingStage.

(** ** Which raw file is staged *)




Section FirstFile.
Context (to_datetime_series : list value → result (list value)).



End FirstFile.


(** ** [or] between frames in [desnormalizar.py] *)

Lemma raw_kept_ret {A} (a : A) : raw_kept (mret a).
Proof. by intros w r w' [= <- <-]. Qed.

Lemma raw_kept_lift {A} (x : result A) : raw_kept (lift x).
Proof. by intros w r w' [= <- <-]. Qed.

Lemma raw_kept_bind {A B} (m : M A) (k : A → M B) :
  raw_kept m → (∀ a, raw_kept (k a)) → raw_kept (m ≫= k).
Proof.
  intros Hm Hk w r w' [(a & w1 & H1 & H2)|(e & H1 & ->)]%bind_run.
  - by rewrite (Hk _ _ _ _ H2), (Hm _ _ _ H1).
  - by apply Hm in H1.
Qed.

Lemma raw_kept_print s line : raw_kept (print s line).
Proof. by intros w r w' [= <- <-]. Qed.

Lemma raw_kept_to_parquet d file df : raw_kept (to_parquet d file df).
Proof.
  intros w r w'. unfold to_parquet.
  destruct (parquet_ok w file); intros [= <- <-]; [by destruct d|done].
Qed.

Lemma raw_kept_write_table df name : raw_kept (Desnormalizar.write_table df name).
Proof.
  unfold Desnormalizar.write_table. destruct df as [d|]; [|apply raw_kept_print].
  destruct (empty d); [apply raw_kept_print|].
  apply raw_kept_bind; [apply raw_kept_to_parquet|intros _; apply raw_kept_print].
Qed.

Lemma raw_kept_read_table name : raw_kept (Desnormalizar.read_table name).
Proof.
  unfold Desnormalizar.read_table. apply raw_kept_bind.
  - by intros w r w' [= <- <-].
  - intros [[file [df|]]|].
    + apply raw_kept_ret.
    + apply raw_kept_lift.
    + apply raw_kept_bind; [apply raw_kept_print|intros _; apply raw_kept_ret].
Qed.

Lemma raw_kept_py_or a b : raw_kept b → raw_kept (Desnormalizar.py_or a b).
Proof. intros Hb. destruct a; [apply raw_kept_lift|done]. Qed.

Lemma raw_kept_dimension src key name :
  raw_kept (Desnormalizar.dimension src key name).
Proof.
  unfold Desnormalizar.dimension. destruct src as [t|]; [|apply raw_kept_ret].
  apply raw_kept_bind; [apply raw_kept_lift|intros d].
  apply raw_kept_bind; [apply raw_kept_write_table|intros _; apply raw_kept_ret].
Qed.

(** [read_table] only returns [None] when the table has no raw file. *)
Lemma read_table_None name w w' :
  Desnormalizar.read_table name w = (Ok None, w') → ¬ has_raw w name.
Proof.
  unfold Desnormalizar.read_table, Desnormalizar.find_file.
  unfold mbind at 1, M_bind at 1.
  destruct (head _) as [[file [df|]]|] eqn:Hh; [done|done|].
  intros _ (f & Hin & Hf).
  apply head_None in Hh. simpl in Hh. rewrite app_nil_r in Hh.
  apply app_eq_nil in Hh as [Hp Hc].
  destruct Hf as [Hf|Hf].
  - assert (f ∈ filter (λ f0, f0.1 = name +:+ ".parquet") (raw_dir w)) as H
      by by apply list_elem_of_filter.
    rewrite Hp in H. by apply elem_of_nil in H.
  - assert (f ∈ filter (λ f0, f0.1 = name +:+ ".csv") (raw_dir w)) as H
      by by apply list_elem_of_filter.
    rewrite Hc in H. by apply elem_of_nil in H.
Qed.

(** [read_table(a) or rest] only returns when [a] has no raw file. *)
Lemma read_or_Ok name rest w o w' :
  (a ← Desnormalizar.read_table name; Desnormalizar.py_or a rest) w = (Ok o, w') →
  ¬ has_raw w name ∧ ∃ w1, raw_dir w1 = raw_dir w ∧ rest w1 = (Ok o, w').
Proof.
  intros (a & w1 & Hr & Hor)%bind_run_Ok.
  destruct a as [d|]; [done|]. split; [by eapply read_table_None|].
  exists w1. split; [by apply raw_kept_read_table in Hr|done].
Qed.

Lemma has_raw_same w w' name : raw_dir w' = raw_dir w → has_raw w' name ↔ has_raw w name.
Proof. intros H. unfold has_raw. by rewrite H. Qed.

Section OrOnFrames.
Context (parse_datetime : string → option Z).
Context (cell_mul : value → value → value).
Context (to_datetime_series : list value → result (list value)).

Lemma raw_kept_build_staging :
  raw_kept (Desnormalizar.build_staging to_datetime_series).
Proof.
  intros w r w'. unfold Desnormalizar.build_staging.
  destruct (Desnormalizar.glob ".csv" w ++ Desnormalizar.glob ".parquet" w)
    as [|f files].
  - by intros [= <- <-].
  - destruct (stage_files_run to_datetime_series (f :: files) ∅ w)
      as (w1 & Hr & (Hraw & _) & _).
    rewrite (bind_Ok _ _ _ _ _ Hr). by intros [= <- <-].
Qed.

Lemma raw_kept_build_dimensions :
  raw_kept (Desnormalizar.build_dimensions parse_datetime).
Proof.
  unfold Desnormalizar.build_dimensions.
  repeat first
    [ apply raw_kept_ret | apply raw_kept_lift | apply raw_kept_read_table
    | apply raw_kept_dimension | apply raw_kept_write_table
    | apply raw_kept_py_or
    | (apply raw_kept_bind; [|intros ?])
    | match goal with
      | |- raw_kept (match ?x with _ => _ end) => destruct x
      end ].
Qed.

Lemma desnormalizar_dimensions_Ok w dims w' :
  Desnormalizar.build_dimensions parse_datetime w = (Ok dims, w') →
  ¬ has_raw w "stores" ∧ raw_dir w' = raw_dir w.
Proof.
  intros H. split; [|by apply raw_kept_build_dimensions in H].
  unfold Desnormalizar.build_dimensions in H.
  apply bind_run_Ok in H as (c & w1 & H1%raw_kept_read_table & H).
  apply bind_run_Ok in H as (cd & w2 & H2%raw_kept_dimension & H).
  apply bind_run_Ok in H as (p & w3 & H3%raw_kept_read_table & H).
  apply bind_run_Ok in H as (pd & w4 & H4%raw_kept_dimension & H).
  apply bind_run_Ok in H as (s & w5 & [Hs _]%read_or_Ok & _).
  rewrite <- (has_raw_same w w4); [done|congruence].
Qed.

Lemma desnormalizar_fact_Ok dims w o w' :
  Desnormalizar.build_fact_order_lineitems parse_datetime cell_mul dims w = (Ok o, w') →
  ¬ has_raw w "order_items" ∧ ¬ has_raw w "items".
Proof.
  unfold Desnormalizar.build_fact_order_lineitems. intros H.
  apply bind_run_Ok in H as (orders & w1 & H1%raw_kept_read_table & H).
  apply bind_run_Ok in H as (items & w2 & [Hi (w3 & H3 & Hrest)]%read_or_Ok & _).
  apply read_or_Ok in Hrest as [Hit _].
  split.
  - by rewrite <- (has_raw_same w w1).
  - rewrite <- (has_raw_same w w3); [done|congruence].
Qed.

(** X13.  In [desnormalizar.py] the expressions
    [read_table("stores") or read_table("channels")] (line 173) and
    [read_table("order_items") or read_table("items") or
    read_table("orderlines")] (line 224) ask a frame for its truth value,
    which raises.  So [build_dimensions] only returns when the raw
    directory has no [stores] file, the fact builder only returns when it
    has neither an [order_items] nor an [items] file, and [main] only
    ends normally when it has none of the three. *)
Theorem or_on_frames_needs_missing_files w :
  (∀ dims w', Desnormalizar.build_dimensions parse_datetime w = (Ok dims, w') →
              ¬ has_raw w "stores")
  ∧ (∀ dims o w',
       Desnormalizar.build_fact_order_lineitems parse_datetime cell_mul dims w
       = (Ok o, w') →
       ¬ has_raw w "order_items" ∧ ¬ has_raw w "items")
  ∧ ((Desnormalizar.main parse_datetime cell_mul to_datetime_series w).1 = Ok () →
     ¬ has_raw w "stores" ∧ ¬ has_raw w "order_items" ∧ ¬ has_raw w "items").
Proof.
  split_and!.
  - intros dims w' H. by apply desnormalizar_dimensions_Ok in H as [? _].
  - intros dims o w' H. by eapply desnormalizar_fact_Ok.
  - destruct (Desnormalizar.main parse_datetime cell_mul to_datetime_series w)
      as [r w'] eqn:Hrun.
    cbn [fst]. intros ->. unfold Desnormalizar.main in Hrun.
    apply bind_run_Ok in Hrun as (u0 & w0 & H0%raw_kept_print & Hrun).
    apply bind_run_Ok in Hrun as (b & w1 & Hraw%raw_kept_build_staging & Hrun).
    apply bind_run_Ok in Hrun as (dims & w2 & [Hs H2]%desnormalizar_dimensions_Ok & Hrun).
    apply bind_run_Ok in Hrun as (o & w3 & [Hi Hit]%desnormalizar_fact_Ok & _).
    assert (raw_dir w1 = raw_dir w) as Hw1 by congruence.
    assert (raw_dir w2 = raw_dir w) as Hw2 by congruence.
    split_and!.
    + by rewrite <- (has_raw_same w w1).
    + by rewrite <- (has_raw_same w w2).
    + by rewrite <- (has_raw_same w w2).
Qed.
End OrOnFrames.

(** ** The dimensions of [desnormalizar.py] *)


(** ** Running [tablas.py] again *)

Lemma coupled_ret {A} (x : A) : coupled (mret x).
Proof. by intros i1 i2 a b H. Qed.

Lemma coupled_lift {A} (x : result A) : coupled (lift x).
Proof. by intros i1 i2 a b H. Qed.

Lemma coupled_bind {A B} (m : M A) (k : A → M B) :
  coupled m → (∀ x, coupled (k x)) → coupled (m ≫= k).
Proof.
  intros Hm Hk i1 i2 a b H. destruct (Hm i1 i2 a b H) as [Hr Hc].
  unfold mbind, M_bind.
  destruct (m a) as [[x|e] a'], (m b) as [[y|e'] b']; simplify_eq/=; [|done].
  by apply Hk.
Qed.

Lemma coupled_print s line : coupled (print s line).
Proof. by intros i1 i2 a b H. Qed.

Lemma coupled_read_staging name : coupled (Tablas.read_staging name).
Proof.
  intros i1 i2 a b H. pose proof H as (Hs & _). unfold Tablas.read_staging.
  rewrite Hs.
  destruct (staging_dir b !! (name +:+ ".parquet")); [done|].
  destruct (staging_dir b !! (name +:+ ".csv")); [done|]. done.
Qed.

Lemma coupled_read_staging_or x b : coupled (Tablas.read_staging_or x b).
Proof. destruct x; [apply coupled_ret|apply coupled_read_staging]. Qed.

Lemma coupled_store i1 i2 a b a' b' file d :
  coupled_at i1 i2 a b →
  staging_dir a' = staging_dir a → staging_dir b' = staging_dir b →
  parquet_ok a' = parquet_ok a → parquet_ok b' = parquet_ok b →
  csv_ok a' = csv_ok a → csv_ok b' = csv_ok b →
  dwh_dir a' = <[file := d]> (dwh_dir a) →
  dwh_dir b' = <[file := d]> (dwh_dir b) →
  coupled_at i1 i2 a' b'.
Proof.
  intros (Hs & Hp & Hc & Hd) Hsa Hsb Hpa Hpb Hca Hcb Hda Hdb.
  split_and!; [congruence..|]. intros f. rewrite Hda, Hdb.
  destruct (decide (f = file)) as [->|Hne].
  - left. by rewrite !lookup_insert_eq.
  - rewrite !lookup_insert_ne by done. apply Hd.
Qed.

Lemma coupled_write_table df name : coupled (Tablas.write_table df name).
Proof.
  unfold Tablas.write_table. destruct df as [d|]; [|apply coupled_print].
  destruct (empty d); [apply coupled_print|].
  intros i1 i2 a b H. pose proof H as (Hs & Hp & Hc & Hd).
  unfold try_except, mbind, M_bind, to_parquet. rewrite Hp.
  destruct (parquet_ok b (name +:+ ".parquet")).
  { split; [done|]. by eapply (coupled_store i1 i2 a b). }
  unfold to_csv. rewrite Hc.
  destruct (csv_ok b (name +:+ ".csv")).
  { split; [done|]. by eapply (coupled_store i1 i2 a b). }
  done.
Qed.

Section Rerun.
Context (parse_datetime : string → option Z).
Context (cell_mul : value → value → value).

Lemma coupled_main : coupled (Tablas.main parse_datetime cell_mul).
Proof.
  unfold Tablas.main, Tablas.build_dimensions, Tablas.build_facts,
    Tablas.stores_block, Tablas.dimension, Tablas.fact.
  repeat first
    [ apply coupled_ret | apply coupled_lift | apply coupled_print
    | apply coupled_read_staging | apply coupled_read_staging_or
    | apply coupled_write_table
    | (apply coupled_bind; [|intros ?])
    | match goal with
      | |- coupled (match ?x with _ => _ end) => destruct x
      end ].
Qed.

Lemma footprint_main :
  footprint warehouse_tables (Tablas.main parse_datetime cell_mul).
Proof.
  unfold Tablas.main.
  apply footprint_bind; [apply footprint_print|intros _].
  apply footprint_bind; [apply footprint_build_dimensions|intros dims].
  apply footprint_bind; [apply footprint_build_facts|intros _].
  apply footprint_print.
Qed.

(** X15.  What a run of [tablas.py] returns and writes depends on the
    staged files and on which writes succeed, not on what the warehouse
    held or what was printed before: two runs that agree on those end
    alike and leave the same frame in every file that either of them
    writes.  So running the script a second time, with the writes
    succeeding or failing as in the first run, ends like the first run
    and leaves the warehouse as the first run left it. *)
Theorem tablas_main_rerun :
  (∀ w1 w2,
     staging_dir w1 = staging_dir w2 → parquet_ok w1 = parquet_ok w2 →
     csv_ok w1 = csv_ok w2 →
     (Tablas.main parse_datetime cell_mul w1).1
     = (Tablas.main parse_datetime cell_mul w2).1
     ∧ ∀ file,
         dwh_dir (Tablas.main parse_datetime cell_mul w1).2 !! file
         = dwh_dir (Tablas.main parse_datetime cell_mul w2).2 !! file
         ∨ (dwh_dir (Tablas.main parse_datetime cell_mul w1).2 !! file
            = dwh_dir w1 !! file ∧
            dwh_dir (Tablas.main parse_datetime cell_mul w2).2 !! file
            = dwh_dir w2 !! file))
  ∧ (∀ w,
       (Tablas.main parse_datetime cell_mul
          (Tablas.main parse_datetime cell_mul w).2).1
       = (Tablas.main parse_datetime cell_mul w).1
       ∧ dwh_dir (Tablas.main parse_datetime cell_mul
                    (Tablas.main parse_datetime cell_mul w).2).2
         = dwh_dir (Tablas.main parse_datetime cell_mul w).2).
Proof.
  split.
  - intros w1 w2 Hs Hp Hc.
    destruct (coupled_main w1 w2 w1 w2) as [Hr (_ & _ & _ & Hd)]; [|done].
    split_and!; [done..|]. intros file. by right.
  - intros w.
    destruct (Tablas.main parse_datetime cell_mul w) as [r w'] eqn:Hrun.
    pose proof (footprint_main _ _ _ Hrun) as [(_ & Hs & Hp & Hc & _) _].
    destruct (coupled_main w w' w w') as [Hr (_ & _ & _ & Hd)].
    { split_and!; [done..|]. intros file. by right. }
    rewrite Hrun in Hr, Hd. cbn [fst snd] in *. split; [done|].
    apply map_eq. intros file. destruct (Hd file) as [H|[_ H]]; done.
Qed.
End Rerun.

(** ** Date columns in staging *)


Section DateColumns.
Context (to_datetime_series : list value → result (list value)).
Hypothesis series_length :
  ∀ s vals, to_datetime_series s = Ok vals → length vals = length s.



End DateColumns.



(** ** The date dimension of [desnormalizar.py] *)

(** The sort of a one-column frame, whatever its cells. *)
Lemma sort_values_singles (vs : list value) :
  ∃ vs', sort_values (mkDF ["date"] ((λ v, [v]) <$> vs)) "date"
         = Ok (mkDF ["date"] ((λ v, [v]) <$> vs')) ∧
         vs' ≡ₚ vs ∧ Sorted (λ a b, value_leb a b) vs'.
Proof.
  set (g := λ v : value, [v]).
  set (R := λ r1 r2 : row, value_leb (cell ["date"] "date" r1)
                                     (cell ["date"] "date" r2) : Prop).
  assert (Total R) as HT by (intros r1 r2; apply value_leb_total).
  destruct (all_of_form g (merge_sort R (g <$> vs))) as [vs' Hvs'].
  { intros r Hr. rewrite merge_sort_Permutation in Hr.
    apply list_elem_of_fmap in Hr as (v & -> & _). by exists v. }
  exists vs'. split_and!.
  - unfold sort_values. simpl. fold R. by rewrite Hvs'.
  - pose proof (merge_sort_Permutation R (g <$> vs)) as Hp. rewrite Hvs' in Hp.
    apply (fmap_Permutation (λ r, default VNull (head r))) in Hp.
    rewrite <- !list_fmap_compose in Hp.
    by rewrite !(list_fmap_ext _ id), !list_fmap_id in Hp by done.
  - pose proof (Sorted_merge_sort R (g <$> vs)) as Hs. rewrite Hvs' in Hs.
    apply (Sorted_fmap_inv g _ R); [|done].
    intros x y Hxy. unfold R, g in Hxy. by rewrite !cell_head in Hxy.
Qed.

Lemma mapM_result_inv {A B} (f : A → result B) (g : A → B) l k :
  (∀ x y, f x = Ok y → y = g x) → mapM f l = Ok k → k = g <$> l.
Proof.
  intros Hf. revert k. induction l as [|x l IH]; intros k; simpl.
  { by intros [= <-]. }
  destruct (f x) as [y|] eqn:Hx; [|done]. cbn [mbind result_bind].
  destruct (mapM f l) as [k'|]; [|done]. cbn [mbind result_bind].
  intros [= <-]. cbn [fmap list_fmap]. f_equal; [by apply Hf|by apply IH].
Qed.

Lemma to_datetime_Ok parse_datetime x y :
  to_datetime parse_datetime x = Ok y → y = to_datetime_coerce parse_datetime x.
Proof.
  destruct x as [|n|s|t]; simpl; try by intros [= <-].
  destruct (parse_datetime s); [by intros [= <-]|done].
Qed.

Section DesnormalizarDates.
Context (parse_datetime : string → option Z).

(** X17.  The date dimension of [desnormalizar.py] (lines 182-210).  A
    raw [dates] table that already has a [date_id] column is taken as it
    is; one that has neither [date_id] nor a [date], [order_date] or
    [fecha] column makes the builder raise [KeyError].  Without a raw
    [dates] table the dimension comes from the orders: it has the two
    columns [date] and [date_id] only, one row per distinct order day in
    ascending order (a missing date last), and [date_id] is the position
    1..N of the row, since a frame with a [date_id] gets neither the
    YYYYMMDD identifier nor the [year], [month] and [day] columns. *)
Theorem desnormalizar_date_dimension :
  (∀ dates, "date_id" ∈ columns dates →
            Desnormalizar.homogenize_dates parse_datetime dates = Ok dates)
  ∧ (∀ dates, "date_id" ∉ columns dates → "date" ∉ columns dates →
              "order_date" ∉ columns dates → "fecha" ∉ columns dates →
              Desnormalizar.homogenize_dates parse_datetime dates
              = Raise (KeyError "date"))
  ∧ (∀ orders d,
       Desnormalizar.dates_from_orders parse_datetime orders = Ok d →
       ∃ vs, d = mkDF ["date"; "date_id"]
                   (imap (λ i v, [v; VNum (Z.of_nat i + 1)]) vs) ∧
             NoDup vs ∧ Sorted (λ a b, value_leb a b) vs ∧
             vs ≡ₚ unique (normalize <$>
                             (to_datetime_coerce parse_datetime <$>
                                get_col orders "order_date")) ∧
             Desnormalizar.homogenize_dates parse_datetime d = Ok d).
Proof.
  split_and!.
  - intros dates Hin%has_col_true. unfold Desnormalizar.homogenize_dates.
    by rewrite Hin.
  - intros dates H1%has_col_false H2%has_col_false H3%has_col_false
      H4%has_col_false.
    unfold Desnormalizar.homogenize_dates. rewrite H1, H2, H3, H4. cbn [negb].
    by rewrite H2.
  - intros orders d. unfold Desnormalizar.dates_from_orders.
    destruct (mapM _ _) as [ts|] eqn:Hm; [|done]. cbn [mbind result_bind].
    set (vs0 := unique (normalize <$> ts)).
    destruct (sort_values_singles vs0) as (vs & Hsort & Hp & Hs).
    rewrite Hsort. cbn [mbind result_bind]. intros [= <-].
    apply (mapM_result_inv _ (to_datetime_coerce parse_datetime)) in Hm;
      [|apply to_datetime_Ok].
    exists vs. split_and!.
    + unfold assign_col, len. cbn [columns rows index_of].
      rewrite decide_False by done. cbn [fmap option_fmap option_map app].
      f_equal. unfold range1. rewrite length_fmap.
      rewrite zip_with_fmap_l, zip_with_fmap_r, <- zip_with_flip, zip_with_seq_imap.
      apply imap_ext. intros i v _. simpl. do 3 f_equal. lia.
    + rewrite Hp. apply unique_NoDup.
    + done.
    + rewrite Hp. unfold vs0. by rewrite Hm.
    + unfold Desnormalizar.homogenize_dates.
      assert (has_col (assign_col (mkDF ["date"] ((λ v, [v]) <$> vs)) "date_id"
                         (range1 (len (mkDF ["date"] ((λ v, [v]) <$> vs)))))
                      "date_id" = true) as ->; [|done].
      apply has_col_true. unfold assign_col. cbn [columns rows index_of].
      rewrite decide_False by done. cbn [fmap option_fmap option_map columns].
      apply elem_of_app. right. left.
Qed.
End DesnormalizarDates.

(** ** The order-line fact of [desnormalizar.py] *)

Lemma columns_assign_col_incl df c vals c' :
  c' ∈ columns df → c' ∈ columns (assign_col df c vals).
Proof.
  unfold assign_col. destruct (index_of c (columns df)); cbn [columns]; [done|].
  intros ?. apply elem_of_app. by left.
Qed.

Lemma columns_assign_incl df c f c' :
  c' ∈ columns df → c' ∈ columns (assign df c f).
Proof.
  intros Hin. apply has_col_true. rewrite has_col_assign.
  by rewrite (proj2 (has_col_true _ _) Hin).
Qed.

Lemma columns_assign_checked_incl df c f d c' :
  assign_checked df c f = Ok d → c' ∈ columns df → c' ∈ columns d.
Proof.
  intros (vals & _ & -> & _)%assign_checked_Ok. apply columns_assign_col_incl.
Qed.

(** A merge keeps the labels of its left frame that the suffix rule does
    not rename: all of them when the left suffix is empty, the join key in
    any case. *)
Lemma merge_keeps_label l r key h sx sy d c :
  merge l r key h sx sy = Ok d → c ∈ columns l → c = key ∨ sx = "" →
  c ∈ columns d.
Proof.
  unfold merge. destruct (negb (has_col l key)); [done|].
  destruct (negb (has_col r key)); [done|]. intros [= <-] Hin Hc.
  cbn [columns]. apply elem_of_app. left. unfold suffixed.
  apply list_elem_of_fmap. exists c. split; [|done].
  destruct (decide (c ∈ filter (λ c0, c0 ≠ key) (columns r))) as [Hf|]; [|done].
  destruct Hc as [->| ->].
  - by apply list_elem_of_filter in Hf as [? _].
  - by rewrite append_nil_r.
Qed.

Section DesnormalizarFact.
Context (parse_datetime : string → option Z).
Context (cell_mul : value → value → value).

Lemma desnormalizar_merge_dim_keeps df dim key sfx df' c :
  Desnormalizar.merge_dim df dim key sfx = Ok df' → c ∈ columns df →
  c ∈ columns df'.
Proof.
  unfold Desnormalizar.merge_dim. destruct dim as [d|]; [|by intros [= <-]].
  destruct (has_col df key); [|by intros [= <-]].
  intros H Hin. eapply merge_keeps_label; [done|done|by right].
Qed.

Lemma desnormalizar_measures_columns df c :
  c ∈ columns df ∨ c ∈ ["quantity"; "unit_price"; "line_total"] →
  c ∈ columns (Desnormalizar.measures cell_mul df).
Proof.
  intros Hc. apply has_col_true. unfold Desnormalizar.measures. cbv zeta.
  destruct (Desnormalizar.first_column df ["price"; _; _; _]);
    rewrite !has_col_assign;
    (destruct Hc as [Hc%has_col_true|Hc]; [by rewrite Hc|]);
    repeat (apply elem_of_cons in Hc as [->|Hc]; [by rewrite ?orb_true_r|]);
    by apply elem_of_nil in Hc.
Qed.

(** X18.  The order-line fact of [desnormalizar.py] (lines 229-264).
    When the raw order lines or the raw order headers have no
    [order_id] column, the first join raises [KeyError].  When the fact
    is built, it is a table over labels of the list [preserve] only, in
    that order, without a repeated row, and it always has the columns
    [order_id], [quantity], [unit_price] and [line_total]. *)
Theorem desnormalizar_fact_shape orders items dims :
  ("order_id" ∉ columns items ∨ "order_id" ∉ columns orders →
   Desnormalizar.fact_order_lineitems parse_datetime cell_mul orders items dims
   = Raise (KeyError "order_id"))
  ∧ (∀ fact,
       Desnormalizar.fact_order_lineitems parse_datetime cell_mul orders items dims
       = Ok fact →
       fact_shape ["order_id"; "date_id"; "customer_id"; "product_id"; "store_id";
                   "quantity"; "unit_price"; "line_total"] fact
       ∧ ∀ c, c ∈ ["order_id"; "quantity"; "unit_price"; "line_total"] →
              c ∈ columns fact).
Proof.
  unfold Desnormalizar.fact_order_lineitems, Desnormalizar.order_lineitems.
  split.
  - unfold merge.
    intros [Hi%has_col_false|Ho%has_col_false].
    + by rewrite Hi.
    + rewrite Ho. by destruct (has_col items "order_id").
  - intros fact.
    destruct (merge items orders _ _ _ _) as [d1|] eqn:H1; [|done].
    cbn [mbind result_bind].
    destruct (Desnormalizar.merge_dim d1 _ _ _) as [d2|] eqn:H2; [|done].
    cbn [mbind result_bind].
    destruct (Desnormalizar.merge_dim d2 _ _ _) as [d3|] eqn:H3; [|done].
    cbn [mbind result_bind].
    destruct (Desnormalizar.merge_dim d3 _ _ _) as [d4|] eqn:H4; [|done].
    cbn [mbind result_bind].
    destruct (match Desnormalizar.dates dims with Some _ => _ | None => _ end)
      as [d5|] eqn:H5; [|done].
    cbn [mbind result_bind]. cbv zeta.
    set (df := Desnormalizar.measures cell_mul d5).
    set (allowed := ["order_id"; "date_id"; "customer_id"; "product_id"; "store_id";
                     "quantity"; "unit_price"; "line_total"]).
    intros H.
    assert (Tablas.select_fact df allowed = Ok fact) as Hsel by done.
    assert ("order_id" ∈ columns d5) as Hid.
    { assert ("order_id" ∈ columns items) as Hi.
      { unfold merge in H1. destruct (has_col items "order_id") eqn:E; [|done].
        by apply has_col_true. }
      assert ("order_id" ∈ columns d1) as Hd1
        by (eapply merge_keeps_label; [exact H1|exact Hi|by left]).
      pose proof (desnormalizar_merge_dim_keeps _ _ _ _ _ _ H2 Hd1) as Hd2.
      pose proof (desnormalizar_merge_dim_keeps _ _ _ _ _ _ H3 Hd2) as Hd3.
      pose proof (desnormalizar_merge_dim_keeps _ _ _ _ _ _ H4 Hd3) as Hd4.
      destruct (Desnormalizar.dates dims); [|by injection H5 as <-].
      unfold Desnormalizar.add_date_id in H5.
      destruct (has_col d4 "order_date").
      - destruct (assign_checked d4 "order_date" _) as [d4'|] eqn:H5'; [|done].
        cbn [mbind result_bind] in H5.
        eapply columns_assign_checked_incl; [done|].
        by eapply columns_assign_checked_incl.
      - destruct (has_col d4 "date"); [|by injection H5 as <-].
        by eapply columns_assign_checked_incl. }
    destruct (select_fact_shape df allowed fact Hsel) as [Hshape _].
    { apply (bool_decide_unpack _). by vm_compute. }
    split; [done|].
    intros c Hc.
    assert (c ∈ columns df) as Hdf.
    { apply desnormalizar_measures_columns.
      apply elem_of_cons in Hc as [->|Hc]; [by left|by right]. }
    unfold Tablas.select_fact in Hsel. rewrite select_filter_has in Hsel.
    cbn [mbind result_bind] in Hsel. injection Hsel as <-. cbn [columns].
    apply list_elem_of_filter. split.
    + apply Is_true_true. by apply has_col_true.
    + unfold allowed.
      repeat (apply elem_of_cons in Hc as [->|Hc];
              [apply (bool_decide_unpack _); by vm_compute|]).
      by apply elem_of_nil in Hc.
Qed.
End DesnormalizarFact.

(** ** Where a date key in a fact comes from *)

Lemma cell_renamed (sel : list string) (old new : string) (r : row) :
  new ∉ sel →
  cell ((λ c, if decide (c = old) then new else c) <$> sel) new r = cell sel old r.
Proof.
  intros Hn. unfold cell.
  assert (index_of new ((λ c, if decide (c = old) then new else c) <$> sel)
          = index_of old sel) as ->; [|done].
  induction sel as [|c sel IH]; [done|].
  rewrite fmap_cons. cbn [index_of].
  apply not_elem_of_cons in Hn as [Hne Hn].
  destruct (decide (c = old)) as [->|Hc].
  - by rewrite decide_True.
  - rewrite decide_False by done. by rewrite IH.
Qed.

Section DateKeys.
Context (parse_datetime : string → option Z).

(** The rows the date join gives, before any row is looked at. *)
Lemma merge_date_rows f dates col sel sk f' :
  Tablas.merge_date parse_datetime f dates col sel sk = Ok f' →
  aligned f → NoDup (columns f) → col ∈ columns f →
  "date_sk" ∈ sel → "date" ∈ sel →
  "key_0" ∉ columns f → sk ∉ columns f → (∀ c, c ∈ sel → c ∉ columns f) →
  columns f' = columns f ++ date_labels sel sk ∧
  rows f' =
    project ("key_0" :: columns f
               ++ ((λ c, if decide (c = "date_sk") then sk else c) <$> sel))
            (columns f ++ date_labels sel sk) <$>
      join_rows HowLeft (λ kr : row, default VNull (head kr)) (cell sel "date") id
        (length sel)
        ((λ r, normalize (cell (columns f) col r) :: r) <$>
           rows (assign f col
                   (λ r, to_datetime_coerce parse_datetime (cell (columns f) col r))))
        (project (columns dates) sel <$> rows dates).
Proof.
  unfold Tablas.merge_date.
  intros H Ha Hnd Hcol Hsk Hdate Hk0 Hskf Hfresh.
  set (f1 := assign f col
               (λ r, to_datetime_coerce parse_datetime (cell (columns f) col r))) in *.
  assert (columns f1 = columns f) as Hc1.
  { unfold f1. rewrite columns_assign. by rewrite (proj2 (has_col_true _ _) Hcol). }
  assert (aligned f1) as Ha1 by by apply aligned_assign.
  destruct (select dates sel) as [d'|] eqn:Hsel; [|done]. simpl in H.
  apply select_Ok in Hsel as (Hcd & Hrd & _).
  destruct (mapM _ _) as [keys|] eqn:Hkeys; [|done]. simpl in H.
  rewrite (mapM_result_ext _ id) in Hkeys; cycle 1.
  { intros v Hv. unfold f1 in Hv. rewrite get_col_assign_same in Hv by done.
    apply list_elem_of_fmap in Hv as (r & -> & _). apply to_datetime_coerced. }
  rewrite list_fmap_id in Hkeys. injection Hkeys as <-.
  destruct (merge_left_on _ _ _ _ _) as [m|] eqn:Hm; [|done]. simpl in H.
  injection H as <-.
  unfold merge_left_on in Hm.
  assert (has_col d' "date" = true) as Hhd
    by (apply has_col_true; by rewrite Hcd).
  rewrite Hhd in Hm. simpl in Hm. injection Hm as <-.
  rewrite Hcd, Hc1.
  rewrite (suffixed_fresh sel "_x" (columns f));
    [|intros c Hc Hin; by apply (Hfresh c)].
  rewrite (suffixed_fresh (columns f) "_y" sel) by done.
  assert (zip_with cons (normalize <$> get_col f1 col) (rows f1)
          = (λ r, normalize (cell (columns f) col r) :: r) <$> rows f1) as ->.
  { unfold get_col. rewrite <- list_fmap_compose, zip_cons_fmap.
    apply list_fmap_ext. intros _ r _. simpl. by rewrite Hc1. }
  rewrite Hrd.
  set (cols := "key_0" :: columns f ++ sel).
  set (rs := join_rows _ _ _ _ _ _ _).
  set (sel' := (λ c, if decide (c = "date_sk") then sk else c) <$> sel).
  assert (has_col (mkDF cols rs) "date_sk" = true) as ->.
  { apply has_col_true. simpl. unfold cols.
    right. apply elem_of_app. by right. }
  set (cols' := "key_0" :: columns f ++ sel').
  assert (columns (rename (mkDF cols rs) "date_sk" sk) = cols') as Hcm.
  { unfold rename, cols, cols'. cbn [columns]. rewrite fmap_cons, fmap_app.
    rewrite decide_False by done. f_equal. f_equal.
    rewrite <- (list_fmap_id (columns f)) at 2. apply list_fmap_ext.
    intros _ c Hc%list_elem_of_lookup_2. simpl.
    destruct (decide (c = "date_sk")) as [->|]; [|done].
    by destruct (Hfresh "date_sk"). }
  assert (filter (λ c, has_col (rename (mkDF cols rs) "date_sk" sk) c) ["key_0"; "date"]
          = ["key_0"; "date"]) as ->.
  { rewrite filter_cons_True; cycle 1.
    { apply Is_true_true, has_col_true. rewrite Hcm. left. }
    rewrite filter_cons_True; [done|].
    apply Is_true_true, has_col_true. rewrite Hcm. unfold cols'.
    right. apply elem_of_app. right.
    apply list_elem_of_fmap. exists "date". split; [|done]. by rewrite decide_False. }
  unfold drop_cols. rewrite Hcm. cbn [rows columns].
  assert (filter (λ c, c ∉ ["key_0"; "date"]) cols'
          = columns f ++ date_labels sel sk) as Hkeep.
  { unfold cols'. rewrite filter_cons_False by (intros HH; apply HH; left).
    rewrite filter_app. f_equal.
    rewrite <- (list_fmap_id (columns f)) at 2. rewrite <- (list_fmap_id (filter _ _)).
    clear -Hk0 Hfresh Hdate. induction (columns f) as [|c cs IH]; [done|].
    apply not_elem_of_cons in Hk0 as [Hk0 Hk0'].
    rewrite filter_cons_True.
    - rewrite !fmap_cons. f_equal. apply IH; [done|].
      intros c' Hc' Hin. apply (Hfresh c' Hc'). by right.
    - intros [->|[->|?%elem_of_nil]%elem_of_cons]%elem_of_cons; [done|..|done].
      destruct (Hfresh "date" Hdate). left. }
  by rewrite Hkeep.
Qed.

(** X19.  The date join of [build_facts] (lines 216-224, 251-256,
    269-274 and the like) gives a fact row the [date_sk] of the
    [dim_date] row whose date is the day of the row's own timestamp, or
    a null when [dim_date] has no row for that day; it puts no other
    key behind a row. *)
Theorem date_key_of_matching_day f dates col sel sk f' :
  Tablas.merge_date parse_datetime f dates col sel sk = Ok f' →
  aligned f → NoDup (columns f) → col ∈ columns f →
  "date_sk" ∈ sel → "date" ∈ sel →
  "key_0" ∉ columns f → sk ∉ columns f → (∀ c, c ∈ sel → c ∉ columns f) →
  sk ∉ sel → sk ≠ "key_0" → sk ≠ "date" →
  ∀ r', r' ∈ rows f' →
    (cell (columns f') sk r' = VNull ∧
     ∀ rd, rd ∈ rows dates →
           cell (columns dates) "date" rd ≠ normalize (cell (columns f') col r'))
    ∨ (∃ rd, rd ∈ rows dates ∧
             cell (columns dates) "date" rd = normalize (cell (columns f') col r') ∧
             cell (columns f') sk r' = cell (columns dates) "date_sk" rd).
Proof.
  intros H Ha Hnd Hcol Hsk Hdate Hk0 Hskf Hfresh Hsksel Hsk0 Hskd r' Hr'.
  apply merge_date_rows in H as [Hc Hr]; [|done..].
  set (f1 := assign f col
               (λ r, to_datetime_coerce parse_datetime (cell (columns f) col r))) in *.
  set (sel' := (λ c, if decide (c = "date_sk") then sk else c) <$> sel) in *.
  assert (columns f1 = columns f) as Hc1.
  { unfold f1. rewrite columns_assign. by rewrite (proj2 (has_col_true _ _) Hcol). }
  assert (aligned f1) as Ha1 by by apply aligned_assign.
  rewrite Hr in Hr'. apply list_elem_of_fmap in Hr' as (x & -> & Hx).
  unfold join_rows in Hx. apply list_elem_of_bind in Hx as (lr & Hx & Hlr).
  apply list_elem_of_fmap in Hlr as (r & -> & Hrin).
  assert (length r = length (columns f)) as Hlen
    by (rewrite <- Hc1; by apply aligned_elem).
  set (k := normalize (cell (columns f) col r)) in *.
  assert (sk ∈ date_labels sel sk) as Hskl.
  { unfold date_labels. apply list_elem_of_filter. split.
    - intros [?|[?|?%elem_of_nil]%elem_of_cons]%elem_of_cons; done.
    - apply list_elem_of_fmap. exists "date_sk". split; [|done].
      by rewrite decide_True. }
  assert (∀ t, let x := (k :: r) ++ t in
               let r' := project ("key_0" :: columns f ++ sel')
                           (columns f ++ date_labels sel sk) x in
               cell (columns f ++ date_labels sel sk) col r' = cell (columns f) col r ∧
               cell (columns f ++ date_labels sel sk) sk r' = cell sel' sk t) as Hcells.
  { intros t. cbv zeta. rewrite project_app. rewrite <- app_comm_cons.
    rewrite project_behind_key by done. split.
    - by apply cell_app_l.
    - rewrite cell_app_r by done. rewrite cell_project by done.
      rewrite cell_tail by done. by apply cell_app_r. }
  rewrite Hc. unfold join_row in Hx. cbn [head default] in Hx.
  destruct (filter _ (project (columns dates) sel <$> rows dates))
    as [|m ms] eqn:Hf.
  - apply list_elem_of_singleton in Hx as ->.
    destruct (Hcells (replicate (length sel) VNull)) as [Hcol' Hsk'].
    rewrite Hcol', Hsk'. left. split; [apply cell_nulls|].
    intros rd Hrd Heq.
    assert (project (columns dates) sel rd ∈ ([] : list row)) as Hin;
      [|by apply elem_of_nil in Hin].
    rewrite <- Hf. apply list_elem_of_filter.
    split; [|by apply list_elem_of_fmap_2].
    rewrite cell_project by done. exact Heq.
  - apply list_elem_of_fmap in Hx as (rr & -> & Hrr).
    rewrite <- Hf in Hrr. apply list_elem_of_filter in Hrr as [Hk Hrr].
    apply list_elem_of_fmap in Hrr as (rd & -> & Hrd).
    destruct (Hcells (project (columns dates) sel rd)) as [Hcol' Hsk'].
    unfold id. rewrite Hcol', Hsk'. right. exists rd. split_and!; [done| |].
    + rewrite cell_project in Hk by done. exact Hk.
    + unfold sel'. rewrite cell_renamed by done. by apply cell_project.
Qed.
End DateKeys.

Lemma date_key_of_matching_day_witness :
  (cell ["order_id"; "order_date"; "order_date_sk"] "order_date_sk"
        [VNum 100; day 19727; VNum 1] = VNull ∧
   ∀ rd, rd ∈ rows (mkDF ["date_sk"; "date"] [[VNum 1; day 19727]]) →
         cell ["date_sk"; "date"] "date" rd
         ≠ normalize (cell ["order_id"; "order_date"; "order_date_sk"] "order_date"
                        [VNum 100; day 19727; VNum 1]))
  ∨ (∃ rd, rd ∈ rows (mkDF ["date_sk"; "date"] [[VNum 1; day 19727]]) ∧
           cell ["date_sk"; "date"] "date" rd
           = normalize (cell ["order_id"; "order_date"; "order_date_sk"] "order_date"
                          [VNum 100; day 19727; VNum 1]) ∧
           cell ["order_id"; "order_date"; "order_date_sk"] "order_date_sk"
                [VNum 100; day 19727; VNum 1]
           = cell ["date_sk"; "date"] "date_sk" rd).
Proof.
  apply (date_key_of_matching_day no_parse
           (mkDF ["order_id"; "order_date"] [[VNum 100; day 19727]])
           (mkDF ["date_sk"; "date"] [[VNum 1; day 19727]])
           "order_date" ["date_sk"; "date"] "order_date_sk"
           (mkDF ["order_id"; "order_date"; "order_date_sk"]
                 [[VNum 100; day 19727; VNum 1]])).
  - vm_compute; reflexivity.
  - apply Forall_forall. intros r Hr. apply list_elem_of_singleton in Hr as ->.
    reflexivity.
  - apply (bool_decide_unpack _). by vm_compute.
  - apply has_col_true. vm_compute; reflexivity.
  - apply (bool_decide_unpack _). by vm_compute.
  - apply (bool_decide_unpack _). by vm_compute.
  - apply has_col_false. vm_compute; reflexivity.
  - apply has_col_false. vm_compute; reflexivity.
  - intros c Hc. apply (bool_decide_unpack _).
    repeat (apply elem_of_cons in Hc as [->|Hc]; [by vm_compute|]).
    by apply elem_of_nil in Hc.
  - apply (bool_decide_unpack _). by vm_compute.
  - done.
  - done.
  - left.
Defined.

(** ** A missing date under [astype(int)] *)

Lemma mapM_result_Raise {A B} (f : A → result B) l x :
  x ∈ l → is_ok (f x) = false → is_ok (mapM f l) = false.
Proof.
  intros Hin Hx. induction l as [|y l IH]; [by apply elem_of_nil in Hin|].
  simpl. apply elem_of_cons in Hin as [<-|Hin].
  - by destruct (f x).
  - destruct (f y); [|done]. cbn [mbind result_bind].
    specialize (IH Hin). by destruct (mapM f l).
Qed.

Section MissingDates.
Context (parse_datetime : string → option Z).

(** [df[c].dt.strftime("%Y%m%d").astype(int)] after
    [df[c] = pd.to_datetime(df[c])] fails when a cell of [c] is missing
    or does not parse. *)
Lemma date_id_needs_dates df c r :
  aligned df → r ∈ rows df →
  to_datetime_coerce parse_datetime (cell (columns df) c r) = VNull →
  is_ok (df1 ← assign_checked df c
                  (λ r, to_datetime parse_datetime (cell (columns df) c r));
         assign_checked df1 "date_id"
           (λ r, strftime_Ymd_int (cell (columns df1) c r))) = false.
Proof.
  intros Ha Hr Hnull.
  destruct (assign_checked df c _) as [df1|] eqn:H1; [|done].
  cbn [mbind result_bind].
  apply assign_checked_Ok in H1 as (vals & Hm & -> & Hl).
  apply (mapM_result_inv _ (λ r, to_datetime_coerce parse_datetime
                                   (cell (columns df) c r))) in Hm;
    [|intros x y; apply to_datetime_Ok].
  set (df1 := assign_col df c vals).
  assert (VNull ∈ get_col df1 c) as Hin.
  { unfold df1. rewrite get_col_assign_col_same by done. rewrite Hm.
    apply list_elem_of_fmap. by exists r. }
  apply list_elem_of_fmap in Hin as (r1 & Hc1 & Hr1).
  unfold assign_checked.
  assert (is_ok (mapM (λ r0, strftime_Ymd_int (cell (columns df1) c r0)) (rows df1))
          = false) as Hfail.
  { apply (mapM_result_Raise _ _ r1); [done|]. by rewrite <- Hc1. }
  by destruct (mapM _ (rows df1)).
Qed.

(** X20.  In [desnormalizar.py] the identifier
    [strftime("%Y%m%d").astype(int)] is computed on every row, so one
    missing or unparsable date makes the builder raise: the fact builder
    when a date dimension exists and an order line has no order date
    (lines 240-244), as after the left join with the order headers for a
    line whose order is unknown, and the date dimension when a raw
    [dates] table without [date_id] has such a [date] (lines 203-204). *)
Theorem date_id_raises_on_missing_date df r :
  aligned df → r ∈ rows df →
  ("order_date" ∈ columns df →
   to_datetime_coerce parse_datetime (cell (columns df) "order_date" r) = VNull →
   is_ok (Desnormalizar.add_date_id parse_datetime df) = false)
  ∧ ("date_id" ∉ columns df → "date" ∈ columns df →
     to_datetime_coerce parse_datetime (cell (columns df) "date" r) = VNull →
     is_ok (Desnormalizar.homogenize_dates parse_datetime df) = false).
Proof.
  intros Ha Hr. split.
  - intros Hc%has_col_true Hnull. unfold Desnormalizar.add_date_id. rewrite Hc.
    by apply (date_id_needs_dates df "order_date" r).
  - intros Hid%has_col_false Hc%has_col_true Hnull.
    unfold Desnormalizar.homogenize_dates. rewrite Hid, Hc. cbn [negb].
    rewrite Hc. cbn [negb].
    pose proof (date_id_needs_dates df "date" r Ha Hr Hnull) as Hfail.
    destruct (assign_checked df "date" _) as [df1|]; [|done].
    cbn [mbind result_bind] in *.
    by destruct (assign_checked df1 "date_id" _).
Qed.
End MissingDates.

Lemma date_id_raises_on_missing_date_witness :
  is_ok (Desnormalizar.add_date_id no_parse
           (mkDF ["order_id"; "order_date"] [[VNum 7; VNull]])) = false.
Proof.
  refine (proj1 (date_id_raises_on_missing_date no_parse
                   (mkDF ["order_id"; "order_date"] [[VNum 7; VNull]])
                   [VNum 7; VNull] _ _) _ _).
  - apply Forall_forall. intros r Hr. apply list_elem_of_singleton in Hr as ->.
    reflexivity.
  - left.
  - apply has_col_true. vm_compute; reflexivity.
  - vm_compute; reflexivity.
Defined.
(** ** Every source row, with its keys, in the fact *)

(** Membership in a list that is written out. *)
Ltac in_list := solve [repeat first [left | right]].
Ltac sub_list H :=
  repeat (apply elem_of_cons in H as [->|H]; [in_list|]); by apply elem_of_nil in H.
Ltac absurd_in H :=
  repeat (apply elem_of_cons in H as [H|H]; [discriminate H|]);
  by apply elem_of_nil in H.
Ltac not_in_list :=
  let H := fresh in
  intros H;
  repeat (apply elem_of_cons in H as [H|H]; [done|]); by apply elem_of_nil in H.

Lemma same_cells_refl f skip r : same_cells f f skip r r.
Proof. by intros c _ _ _. Qed.

Lemma same_cells_trans a b c skip1 skip2 r1 r2 r3 :
  (∀ x, x ∈ columns a → x ∈ columns b) →
  same_cells a b skip1 r1 r2 → same_cells b c skip2 r2 r3 →
  same_cells a c (skip1 ++ skip2) r1 r3.
Proof.
  intros Hsub H1 H2 x Ha Hc Hs. apply not_elem_of_app in Hs as [Hs1 Hs2].
  rewrite H2, H1; auto.
Qed.

Lemma same_cells_skip a b skip skip' r r' :
  (∀ x, x ∈ skip → x ∈ skip') → same_cells a b skip r r' → same_cells a b skip' r r'.
Proof. intros Hs H c Ha Hb Hn. apply H; auto. Qed.

Lemma same_cells_extend f f' extra r tl :
  aligned f → r ∈ rows f → columns f' = columns f ++ extra →
  same_cells f f' [] r (r ++ tl).
Proof.
  intros Ha Hr Hc c Hin _ _. rewrite Hc. apply cell_app_l; [done|].
  by apply aligned_elem.
Qed.

Lemma key_or_null_join d key sk k (lr : row) x :
  x ∈ join_row HowLeft (λ _, k) (cell (columns d) key)
        (λ r', [cell (columns d) sk r']) 1 (rows d) lr →
  ∃ v, x = lr ++ [v] ∧ key_or_null d key sk k v.
Proof.
  unfold join_row.
  destruct (filter _ (rows d)) as [|m ms] eqn:Hf.
  - intros ->%list_elem_of_singleton. exists VNull. split; [done|]. left.
    split; [done|]. intros rd Hrd Heq.
    assert (rd ∈ ([] : list row)) as Hin; [|by apply elem_of_nil in Hin].
    rewrite <- Hf. by apply list_elem_of_filter.
  - intros (rr & -> & Hrr)%list_elem_of_fmap. rewrite <- Hf in Hrr.
    apply list_elem_of_filter in Hrr as [Hk Hrr].
    eexists. split; [done|]. right. by exists rr.
Qed.

(** One dimension join of [build_facts], whether it happens or not. *)
Lemma merge_dim_step f dim sk key f' :
  Tablas.merge_dim f dim sk key = Ok f' →
  aligned f → sk ∉ columns f → sk ≠ key →
  aligned f' ∧
  (∀ c, c ∈ columns f' ↔ c ∈ columns f ∨ (c = sk ∧ is_Some dim ∧ key ∈ columns f)) ∧
  (NoDup (columns f) → NoDup (columns f')) ∧
  ∀ r, r ∈ rows f →
    ∃ r', r' ∈ rows f' ∧ same_cells f f' [] r r' ∧
          ∀ d, dim = Some d → key ∈ columns f →
               key_or_null d key sk (cell (columns f) key r) (cell (columns f') sk r').
Proof.
  intros H Ha Hsk Hne.
  destruct (decide (is_Some dim ∧ key ∈ columns f)) as [[[d ->] Hk]|Hno].
  - apply merge_dim_Some_shape in H as [Hc Hr]; [|done..].
    assert (∀ x, x ∈ rows f' →
                 ∃ r v, r ∈ rows f ∧ x = r ++ [v] ∧
                        key_or_null d key sk (cell (columns f) key r) v) as Hback.
    { intros x Hx. rewrite Hr in Hx. apply list_elem_of_bind in Hx as (r & Hx & Hin).
      unfold join_row in Hx.
      pose proof (key_or_null_join d key sk (cell (columns f) key r) r x) as Hj.
      unfold join_row in Hj. destruct (Hj Hx) as (v & -> & Hv). by exists r, v. }
    split_and!.
    + apply Forall_forall. intros x (r & v & Hin & -> & _)%Hback.
      rewrite Hc, !length_app. by rewrite (aligned_elem _ _ Ha Hin).
    + intros c. rewrite Hc, elem_of_app, list_elem_of_singleton.
      split; [intros [?| ->]; [by left|right; eauto]|].
      intros [?|[-> _]]; [by left|by right].
    + intros Hnd. rewrite Hc. apply NoDup_app. split_and!; [done| |apply NoDup_singleton].
      by intros c Hin ->%list_elem_of_singleton.
    + intros r Hin.
      pose proof (join_row_left_nonempty (cell (columns f) key) (cell (columns d) key)
                    (λ r', [cell (columns d) sk r']) 1 (rows d) r) as Hne'.
      destruct (join_row _ _ _ _ _ _ r) as [|x xs] eqn:Hj; [done|].
      assert (x ∈ rows f') as Hx.
      { rewrite Hr. apply list_elem_of_bind. exists r. split; [|done].
        rewrite Hj. left. }
      assert (x ∈ join_row HowLeft (λ _, cell (columns f) key r) (cell (columns d) key)
                    (λ r', [cell (columns d) sk r']) 1 (rows d) r) as Hx'.
      { unfold join_row in *. rewrite Hj. left. }
      apply key_or_null_join in Hx' as (v & -> & Hv).
      exists (r ++ [v]). split_and!; [done|by eapply same_cells_extend|].
      intros d' [= <-] _. rewrite Hc.
      rewrite cell_app_r; [|done|by apply aligned_elem].
      by rewrite cell_head.
  - rewrite merge_dim_skipped in H; cycle 1.
    { destruct dim as [d|]; [|by left]. right. intros Hk. apply Hno. eauto. }
    injection H as <-. split_and!; [done| |done|].
    + intros c. split; [by left|]. intros [?|(_ & Hd & Hk)]; [done|]. by destruct Hno.
    + intros r Hin. exists r. split_and!; [done|apply same_cells_refl|].
      intros d -> Hk. destruct Hno. eauto.
Qed.

Lemma assign_cells df c g r :
  aligned df → r ∈ rows df →
  ∃ r1, r1 ∈ rows (assign df c g) ∧
        cell (columns (assign df c g)) c r1 = g r ∧
        ∀ c', c' ≠ c → cell (columns (assign df c g)) c' r1 = cell (columns df) c' r.
Proof.
  intros Ha Hr. pose proof (aligned_elem _ _ Ha Hr) as Hlen.
  unfold assign. destruct (index_of c (columns df)) as [i|] eqn:Hi; cbn [columns rows].
  - exists (<[i := g r]> r). split_and!.
    + apply list_elem_of_fmap. by exists r.
    + unfold cell. rewrite Hi. apply index_of_Some in Hi as [_ Hlt].
      by rewrite list_lookup_insert_eq by lia.
    + intros c' Hne. unfold cell.
      destruct (index_of c' (columns df)) as [j|] eqn:Hj; [|done].
      rewrite list_lookup_insert_ne; [done|].
      intros ->. apply index_of_Some in Hi as [Hi _].
      apply index_of_Some in Hj as [Hj _]. congruence.
  - apply index_of_None in Hi. exists (r ++ [g r]). split_and!.
    + apply list_elem_of_fmap. by exists r.
    + rewrite cell_app_r by done. apply cell_head.
    + intros c' Hne. destruct (decide (c' ∈ columns df)) as [Hin|Hnin].
      * by rewrite cell_app_l.
      * rewrite cell_app_r by done. rewrite (cell_absent (columns df)) by done.
        apply cell_absent. by intros ->%list_elem_of_singleton.
Qed.

Section DateStep.
Context (parse_datetime : string → option Z).

(** The date join of [build_facts], row by row. *)
Lemma merge_date_step f dates col sel sk f' :
  Tablas.merge_date parse_datetime f dates col sel sk = Ok f' →
  aligned f → NoDup (columns f) → col ∈ columns f →
  "date_sk" ∈ sel → "date" ∈ sel →
  "key_0" ∉ columns f → sk ∉ columns f → (∀ c, c ∈ sel → c ∉ columns f) →
  sk ∉ sel → sk ≠ "key_0" → sk ≠ "date" →
  aligned f' ∧ columns f' = columns f ++ date_labels sel sk ∧ sk ∈ columns f' ∧
  ∀ r, r ∈ rows f →
    ∃ r', r' ∈ rows f' ∧ same_cells f f' [col] r r' ∧
          key_or_null dates "date" "date_sk"
            (normalize (to_datetime_coerce parse_datetime (cell (columns f) col r)))
            (cell (columns f') sk r').
Proof.
  intros H Ha Hnd Hcol Hsk Hdate Hk0 Hskf Hfresh Hsksel Hsk0 Hskd.
  apply merge_date_rows in H as [Hc Hr]; [|done..].
  set (g := λ r, to_datetime_coerce parse_datetime (cell (columns f) col r)) in *.
  set (f1 := assign f col g) in *.
  set (sel' := (λ c, if decide (c = "date_sk") then sk else c) <$> sel) in *.
  assert (columns f1 = columns f) as Hc1.
  { unfold f1. rewrite columns_assign. by rewrite (proj2 (has_col_true _ _) Hcol). }
  assert (aligned f1) as Ha1 by by apply aligned_assign.
  assert (sk ∈ date_labels sel sk) as Hskl.
  { unfold date_labels. apply list_elem_of_filter. split.
    - intros [?|[?|?%elem_of_nil]%elem_of_cons]%elem_of_cons; done.
    - apply list_elem_of_fmap. exists "date_sk". split; [|done].
      by rewrite decide_True. }
  split_and!.
  - apply Forall_forall. intros x Hx. rewrite Hr in Hx.
    apply list_elem_of_fmap in Hx as (y & -> & _). rewrite Hc. apply project_length.
  - done.
  - rewrite Hc. apply elem_of_app. by right.
  - intros r Hin.
    destruct (assign_cells f col g r Ha Hin) as (r1 & Hr1 & Hg1 & Ho1).
    fold f1 in Hr1, Hg1, Ho1. rewrite Hc1 in Hg1, Ho1.
    assert (length r1 = length (columns f)) as Hlen
      by (rewrite <- Hc1; by apply aligned_elem).
    set (k := normalize (cell (columns f) col r1)).
    assert (∀ t, let r' := project ("key_0" :: columns f ++ sel')
                             (columns f ++ date_labels sel sk) ((k :: r1) ++ t) in
                 (∀ c, c ∈ columns f →
                       cell (columns f ++ date_labels sel sk) c r'
                       = cell (columns f) c r1) ∧
                 cell (columns f ++ date_labels sel sk) sk r' = cell sel' sk t)
      as Hcells.
    { intros t. cbv zeta. rewrite project_app. rewrite <- app_comm_cons.
      rewrite project_behind_key by done. split.
      - intros c Hcin. by apply cell_app_l.
      - rewrite cell_app_r by done. rewrite cell_project by done.
        rewrite cell_tail by done. by apply cell_app_r. }
    pose proof (join_row_left_nonempty (λ kr : row, default VNull (head kr))
                  (cell sel "date") id (length sel)
                  (project (columns dates) sel <$> rows dates) (k :: r1)) as Hne.
    destruct (join_row _ _ _ _ _ _ (k :: r1)) as [|x xs] eqn:Hj; [done|].
    assert (x ∈ join_row HowLeft (λ kr : row, default VNull (head kr))
                  (cell sel "date") id (length sel)
                  (project (columns dates) sel <$> rows dates) (k :: r1)) as Hx
      by (rewrite Hj; left).
    assert (project ("key_0" :: columns f ++ sel')
              (columns f ++ date_labels sel sk) x ∈ rows f') as Hin'.
    { rewrite Hr. apply list_elem_of_fmap_2. eapply join_rows_elem; [|exact Hx].
      apply list_elem_of_fmap. by exists r1. }
    clear Hj Hne.
    assert (∃ t, x = (k :: r1) ++ t ∧
                 key_or_null dates "date" "date_sk" k (cell sel' sk t)) as (t & -> & Hkey).
    { unfold join_row in Hx. cbn [head default] in Hx.
      destruct (filter _ (project (columns dates) sel <$> rows dates))
        as [|m ms] eqn:Hf.
      - apply list_elem_of_singleton in Hx as ->. eexists. split; [done|].
        left. split; [apply cell_nulls|].
        intros rd Hrd Heq.
        assert (project (columns dates) sel rd ∈ ([] : list row)) as Hin0;
          [|by apply elem_of_nil in Hin0].
        rewrite <- Hf. apply list_elem_of_filter.
        split; [|by apply list_elem_of_fmap_2].
        rewrite cell_project by done. exact Heq.
      - apply list_elem_of_fmap in Hx as (rr & -> & Hrr).
        rewrite <- Hf in Hrr. apply list_elem_of_filter in Hrr as [Hk Hrr].
        apply list_elem_of_fmap in Hrr as (rd & -> & Hrd).
        eexists. split; [done|]. right. exists rd. split_and!; [done| |].
        + rewrite cell_project in Hk by done. exact Hk.
        + unfold id, sel'. rewrite cell_renamed by done. by apply cell_project. }
    destruct (Hcells t) as [Hleft Hright].
    eexists. split_and!; [exact Hin'| |].
    + intros c Hcin _ Hskip. rewrite Hc, Hleft by done. apply Ho1.
      intros ->. apply Hskip. left.
    + rewrite Hc, Hright. unfold k in Hkey. by rewrite Hg1 in Hkey.
Qed.
End DateStep.

Lemma select_fact_step f allowed fact :
  Tablas.select_fact f allowed = Ok fact →
  (∀ c, c ∈ columns fact ↔ c ∈ allowed ∧ c ∈ columns f) ∧
  ∀ r, r ∈ rows f →
    ∃ r', r' ∈ rows fact ∧
          ∀ c, c ∈ columns fact → cell (columns fact) c r' = cell (columns f) c r.
Proof.
  intros H. pose proof (select_fact_keeps _ _ _ H) as Hk.
  unfold Tablas.select_fact in H. rewrite select_filter_has in H.
  cbn [mbind result_bind] in H. injection H as <-.
  unfold drop_duplicates in *. cbn [columns rows] in *. split.
  - intros c. rewrite list_elem_of_filter, Is_true_true, has_col_true. tauto.
  - intros r Hr. eexists. split; [by apply Hk|].
    intros c Hc. by apply cell_project.
Qed.

Lemma assign_step df c g :
  aligned df →
  aligned (assign df c g) ∧
  (∀ x, x ∈ columns (assign df c g) ↔ x ∈ columns df ∨ x = c) ∧
  (NoDup (columns df) → NoDup (columns (assign df c g))) ∧
  ∀ r, r ∈ rows df →
    ∃ r', r' ∈ rows (assign df c g) ∧ same_cells df (assign df c g) [c] r r'.
Proof.
  intros Ha. split_and!.
  - by apply aligned_assign.
  - intros x. rewrite columns_assign. destruct (has_col df c) eqn:Hc.
    + apply has_col_true in Hc. split; [by left|]. by intros [?| ->].
    + by rewrite elem_of_app, list_elem_of_singleton.
  - intros Hnd. rewrite columns_assign. destruct (has_col df c) eqn:Hc; [done|].
    apply has_col_false in Hc. apply NoDup_app. split_and!; [done| |apply NoDup_singleton].
    by intros x Hx ->%list_elem_of_singleton.
  - intros r Hr. destruct (assign_cells df c g r Ha Hr) as (r1 & Hr1 & _ & Ho).
    exists r1. split; [done|]. intros x _ _ Hx. apply Ho.
    intros ->. apply Hx. left.
Qed.

Lemma same_cells_absent a b skip r r' :
  (∀ x, x ∈ skip → x ∉ columns a) → same_cells a b skip r r' → same_cells a b [] r r'.
Proof.
  intros Hs H c Ha Hb _. apply H; [done..|]. intros Hin. by apply (Hs c).
Qed.

Lemma carries_refl f skip : aligned f → carries f f skip.
Proof.
  intros Ha. split_and!; [done..|]. intros r Hr. exists r.
  split; [done|apply same_cells_refl].
Qed.

Lemma carries_trans a b c skip1 skip2 :
  carries a b skip1 → carries b c skip2 → carries a c (skip1 ++ skip2).
Proof.
  intros (_ & Hs1 & Hr1) (Ha & Hs2 & Hr2). split_and!; [done|by auto|].
  intros r Hr. destruct (Hr1 r Hr) as (r1 & Hin1 & Hc1).
  destruct (Hr2 r1 Hin1) as (r2 & Hin2 & Hc2).
  exists r2. split; [done|]. by eapply same_cells_trans.
Qed.

Lemma carries_skip a b skip skip' :
  (∀ x, x ∈ skip → x ∈ skip') → carries a b skip → carries a b skip'.
Proof.
  intros Hs (Ha & Hsub & Hr). split_and!; [done..|].
  intros r Hin. destruct (Hr r Hin) as (r' & ? & ?). exists r'.
  split; [done|]. by eapply same_cells_skip.
Qed.

Lemma carries_assign f c g : aligned f → carries f (assign f c g) [c].
Proof.
  intros Ha. destruct (assign_step f c g Ha) as (Ha' & Hc & _ & Hr).
  split_and!; [done| |done]. intros x Hx. apply Hc. by left.
Qed.

Lemma carries_assign_new f c g :
  aligned f → c ∉ columns f → carries f (assign f c g) [].
Proof.
  intros Ha Hn. destruct (carries_assign f c g Ha) as (Ha' & Hc & Hr).
  split_and!; [done..|]. intros r Hin. destruct (Hr r Hin) as (r' & ? & Hs).
  exists r'. split; [done|]. eapply same_cells_absent; [|done].
  by intros x ->%list_elem_of_singleton.
Qed.

(** The left rows in a left join. *)
Lemma merge_left_rows l r key sx sy d :
  merge l r key HowLeft sx sy = Ok d →
  columns d = suffixed (filter (λ c, c ≠ key) (columns r)) sx (columns l)
              ++ suffixed (columns l) sy (filter (λ c, c ≠ key) (columns r)) ∧
  (∀ x, x ∈ rows d →
        ∃ lr tl, lr ∈ rows l ∧ x = lr ++ tl ∧
                 length tl = length (filter (λ c, c ≠ key) (columns r))) ∧
  ∀ lr, lr ∈ rows l → ∃ tl, lr ++ tl ∈ rows d.
Proof.
  unfold merge. destruct (has_col l key); [|done]. destruct (has_col r key); [|done].
  cbn [negb]. intros [= <-]. cbn [columns rows]. split_and!; [done| |].
  - intros x (lr & Hx & Hlr)%list_elem_of_bind. exists lr.
    unfold join_row in Hx. destruct (filter _ (rows r)) as [|m ms].
    + apply list_elem_of_singleton in Hx as ->. eexists. split_and!; [done..|].
      by rewrite length_replicate.
    + apply list_elem_of_fmap in Hx as (rr & -> & _). eexists. split_and!; [done..|].
      apply project_length.
  - intros lr Hlr.
    pose proof (join_row_left_nonempty (cell (columns l) key) (cell (columns r) key)
                  (project (columns r) (filter (λ c, c ≠ key) (columns r)))
                  (length (filter (λ c, c ≠ key) (columns r))) (rows r) lr) as Hne.
    destruct (join_row _ _ _ _ _ _ lr) as [|x xs] eqn:Hj; [done|].
    assert (x ∈ join_row HowLeft (cell (columns l) key) (cell (columns r) key)
                  (project (columns r) (filter (λ c, c ≠ key) (columns r)))
                  (length (filter (λ c, c ≠ key) (columns r))) (rows r) lr) as Hx
      by (rewrite Hj; left).
    pose proof Hx as [tl ->]%join_row_prefix. exists tl.
    apply list_elem_of_bind. by exists lr.
Qed.

Lemma length_suffixed other sfx cs : length (suffixed other sfx cs) = length cs.
Proof. unfold suffixed. by rewrite length_fmap. Qed.

(** A left join whose left labels stay as they are carries the left
    rows. *)
Lemma merge_carries l r key sx sy d :
  merge l r key HowLeft sx sy = Ok d → aligned l →
  suffixed (filter (λ c, c ≠ key) (columns r)) sx (columns l) = columns l →
  carries l d [].
Proof.
  intros (Hc & Hback & Hfwd)%merge_left_rows Ha Hsx. rewrite Hsx in Hc.
  split_and!.
  - apply Forall_forall. intros x (lr & tl & Hlr & -> & Htl)%Hback.
    rewrite Hc, !length_app, length_suffixed, Htl.
    by rewrite (aligned_elem _ _ Ha Hlr).
  - intros c Hin. rewrite Hc. apply elem_of_app. by left.
  - intros lr Hlr. destruct (Hfwd lr Hlr) as [tl Hin]. eexists. split; [done|].
    by eapply same_cells_extend.
Qed.

Section FactSteps.
Context (parse_datetime : string → option Z).
Context (cell_mul : value → value → value).

(** The date block of a fact, with the test [b] that guards the join. *)
Lemma date_block_step f dates (b : bool) col sel sk f' :
  match dates with
  | Some d => if b then Tablas.merge_date parse_datetime f d col sel sk else Ok f
  | None => Ok f
  end = Ok f' →
  (b = true → col ∈ columns f) →
  aligned f → NoDup (columns f) →
  "date_sk" ∈ sel → "date" ∈ sel →
  "key_0" ∉ columns f → sk ∉ columns f → (∀ c, c ∈ sel → c ∉ columns f) →
  sk ∉ sel → sk ≠ "key_0" → sk ≠ "date" →
  aligned f' ∧
  (∀ c, c ∈ columns f → c ∈ columns f') ∧
  (∀ c, c ∈ columns f' → c ∈ columns f ∨ c ∈ date_labels sel sk) ∧
  ∀ r, r ∈ rows f →
    ∃ r', r' ∈ rows f' ∧ same_cells f f' [col] r r' ∧
          ∀ d, dates = Some d → b = true →
               sk ∈ columns f' ∧
               key_or_null d "date" "date_sk"
                 (normalize (to_datetime_coerce parse_datetime (cell (columns f) col r)))
                 (cell (columns f') sk r').
Proof.
  intros H Hb Ha Hnd Hsk Hdate Hk0 Hskf Hfresh Hsksel Hsk0 Hskd.
  destruct dates as [d|]; [destruct b|].
  - apply merge_date_step in H as (Ha' & Hc & Hin & Hrows); [|by auto..].
    split_and!; [done| | |].
    + intros c Hcin. rewrite Hc. apply elem_of_app. by left.
    + intros c. rewrite Hc. by intros ?%elem_of_app.
    + intros r Hr. destruct (Hrows r Hr) as (r' & Hr' & Hs & Hkey).
      exists r'. split_and!; [done..|]. by intros d' [= <-] _.
  - injection H as <-. split_and!; [done|done|by left|].
    intros r Hr. exists r. split_and!; [done|apply same_cells_refl|done].
  - injection H as <-. split_and!; [done|done|by left|].
    intros r Hr. exists r. split_and!; [done|apply same_cells_refl|done].
Qed.

Lemma dated_fact_resolved guard col sk allowed :
  sk ∈ allowed → sk ≠ "key_0" → sk ≠ "date_sk" → sk ≠ "date" →
  dated_rows_resolved parse_datetime
    (λ src dims, Tablas.dated_fact parse_datetime src dims guard col sk allowed)
    guard col sk.
Proof.
  intros Hall Hsk0 Hsks Hskd src dims fact H Ha Hnd Hfresh r Hr.
  unfold Tablas.dated_fact in H.
  destruct (Tablas.dated _ _ _ _ _ _) as [f|] eqn:Hd; [|done].
  cbn [mbind result_bind] in H. unfold Tablas.dated in Hd.
  apply (date_block_step src (Tablas.dates dims)
           (from_option (has_col src) true guard && has_col src col)) in Hd
    as (Haf & Hsub & Hsup & Hrows).
  - apply select_fact_step in H as [Hcols Hsel].
    destruct (Hrows r Hr) as (r1 & Hr1 & Hs1 & Hk1).
    destruct (Hsel r1 Hr1) as (r2 & Hr2 & Hc2).
    exists r2. split_and!; [done| |].
    + intros c Hcs Hcf Hskip. rewrite Hc2 by done. apply Hs1; [done| |done].
      by apply Hcols in Hcf as [_ ?].
    + intros d Hdt _ Hg Hcol.
      destruct (Hk1 d Hdt) as [Hin Hkey].
      { apply andb_true_intro. split; [|by apply has_col_true].
        destruct guard as [g|]; [|done]. simpl. apply has_col_true. by apply Hg. }
      assert (sk ∈ columns fact) as Hskf by (apply Hcols; by split).
      split; [done|]. by rewrite Hc2.
  - intros [_ Hc]%andb_prop. by apply has_col_true.
  - done.
  - done.
  - in_list.
  - in_list.
  - apply Hfresh. in_list.
  - apply Hfresh. in_list.
  - intros c Hc. apply Hfresh. sub_list Hc.
  - not_in_list.
  - done.
  - done.
Qed.

Lemma fact_orders_resolved orders dims fact :
  Tablas.fact_orders parse_datetime orders dims = Ok fact →
  aligned orders → NoDup (columns orders) →
  fresh ["customer_sk"; "store_sk"; "order_date_sk"; "key_0"; "date_sk"; "date"]
        orders →
  ∀ r, r ∈ rows orders →
    ∃ r', r' ∈ rows fact ∧
          same_cells orders fact ["order_date"] r r' ∧
          resolved (Tablas.customers dims) "customer_id" "customer_sk"
            orders fact r r' ∧
          resolved (Tablas.stores dims) "store_id" "store_sk" orders fact r r' ∧
          date_resolved parse_datetime (Tablas.dates dims) None
            "order_date" "order_date_sk" orders fact r r'.
Proof.
  intros H Ha Hnd Hfresh r Hr. unfold Tablas.fact_orders in H.
  destruct (Tablas.orders_enriched _ _ _) as [f3|] eqn:He; [|done].
  cbn [mbind result_bind] in H. unfold Tablas.orders_enriched in He.
  destruct (Tablas.merge_dim orders _ _ _) as [f1|] eqn:H1; [|done].
  cbn [mbind result_bind] in He.
  destruct (Tablas.merge_dim f1 _ _ _) as [f2|] eqn:H2; [|done].
  cbn [mbind result_bind] in He.
  apply merge_dim_step in H1 as (Ha1 & Hc1 & Hn1 & Hr1);
    [|done|apply Hfresh; in_list|done].
  assert (∀ c, c ∈ columns f1 → c ∈ columns orders ∨ c ∈ ["customer_sk"]) as Hf1.
  { intros c [?|[-> _]]%Hc1; [by left|right; in_list]. }
  apply merge_dim_step in H2 as (Ha2 & Hc2 & Hn2 & Hr2); [|done| |done]; cycle 1.
  { intros [Hin|Hin]%Hf1; [revert Hin; apply Hfresh; in_list|absurd_in Hin]. }
  assert (∀ c, c ∈ columns f2 →
               c ∈ columns orders ∨ c ∈ ["customer_sk"; "store_sk"]) as Hf2.
  { intros c [[?|Hin]%Hf1|[-> _]]%Hc2; [by left|right|right; in_list].
    apply list_elem_of_singleton in Hin as ->. in_list. }
  assert (∀ c, c ∈ ["order_date_sk"; "key_0"; "date_sk"; "date"] → c ∉ columns f2)
    as Hfresh2.
  { intros c Hc [Hin|Hin]%Hf2.
    - revert Hin. apply Hfresh. sub_list Hc.
    - repeat (apply elem_of_cons in Hc as [->|Hc]; [absurd_in Hin|]).
      by apply elem_of_nil in Hc. }
  apply (date_block_step f2 (Tablas.dates dims) (has_col f2 "order_date")) in He
    as (Ha3 & Hsub3 & Hsup3 & Hr3);
    [|by apply has_col_true|done|by apply Hn2, Hn1|in_list|in_list
     |apply Hfresh2; in_list|apply Hfresh2; in_list
     |intros c Hc; apply Hfresh2; sub_list Hc|not_in_list|done|done].
  apply select_fact_step in H as [Hcols Hsel].
  destruct (Hr1 r Hr) as (r1 & Hin1 & Hs1 & Hk1).
  destruct (Hr2 r1 Hin1) as (r2 & Hin2 & Hs2 & Hk2).
  destruct (Hr3 r2 Hin2) as (r3 & Hin3 & Hs3 & Hk3).
  destruct (Hsel r3 Hin3) as (r4 & Hin4 & Hc4).
  assert (∀ c, c ∈ columns orders → c ∈ columns f1) as Hsub1
    by (intros c Hc; apply Hc1; by left).
  assert (∀ c, c ∈ columns f1 → c ∈ columns f2) as Hsub2
    by (intros c Hc; apply Hc2; by left).
  assert (∀ c, c ∈ columns orders → cell (columns f1) c r1 = cell (columns orders) c r)
    as Hcell1.
  { intros c Hc. apply Hs1; [done|by apply Hsub1|apply not_elem_of_nil]. }
  assert (∀ c, c ∈ columns f1 → cell (columns f2) c r2 = cell (columns f1) c r1)
    as Hcell2.
  { intros c Hc. apply Hs2; [done|by apply Hsub2|apply not_elem_of_nil]. }
  assert (∀ c, c ∈ columns f2 → c ≠ "order_date" →
               cell (columns f3) c r3 = cell (columns f2) c r2) as Hcell3.
  { intros c Hc Hne. apply Hs3; [done|by apply Hsub3|].
    by intros ->%list_elem_of_singleton. }
  exists r4. split_and!; [done| | | |].
  - intros c Hcs Hcf Hskip. rewrite Hc4 by done.
    rewrite Hcell3, Hcell2, Hcell1; auto.
    intros ->. apply Hskip. left.
  - intros d Hd _ Hkey.
    assert ("customer_sk" ∈ columns f1) as Hin by (apply Hc1; right; eauto).
    assert ("customer_sk" ∈ columns fact) as Hinf.
    { apply Hcols. split; [in_list|]. auto. }
    split; [done|]. rewrite Hc4, Hcell3, Hcell2 by auto. by apply Hk1.
  - intros d Hd _ Hkey.
    assert ("store_sk" ∈ columns f2) as Hin.
    { apply Hc2; right. split_and!; eauto. }
    assert ("store_sk" ∈ columns fact) as Hinf.
    { apply Hcols. split; [in_list|]. auto. }
    split; [done|]. rewrite Hc4, Hcell3 by auto.
    rewrite <- (Hcell1 "store_id") by done. apply Hk2; auto.
  - intros d Hd _ _ Hcol.
    destruct (Hk3 d Hd) as [Hin Hkey]; [apply has_col_true; auto|].
    assert ("order_date_sk" ∈ columns fact) as Hinf.
    { apply Hcols. split; [in_list|done]. }
    split; [done|]. rewrite Hc4 by done.
    rewrite <- (Hcell1 "order_date"), <- (Hcell2 "order_date") by auto. done.
Qed.
Lemma merge_header_step items orders h :
  Tablas.merge_header items orders = Ok h →
  aligned items → NoDup (columns items) →
  fresh ["order_date"; "customer_id"; "store_id"] items →
  carries items h [] ∧ NoDup (columns h) ∧
  ∀ c, c ∈ columns h →
       c ∈ columns items ∨ c ∈ ["order_date"; "customer_id"; "store_id"].
Proof.
  intros H Ha Hnd Hfresh. unfold Tablas.merge_header in H.
  destruct orders as [o|]; [destruct (has_col o "order_id")|].
  - destruct (select o _) as [o'|] eqn:Hsel; [|done]. cbn [mbind result_bind] in H.
    apply select_Ok in Hsel as (Hco & _).
    assert (filter (λ c, c ≠ "order_id") (columns o')
            = ["order_date"; "customer_id"; "store_id"]) as Hrk.
    { rewrite Hco. reflexivity. }
    assert (suffixed (filter (λ c, c ≠ "order_id") (columns o')) "_x" (columns items)
            = columns items) as Hsx.
    { rewrite Hrk. apply suffixed_fresh. intros c Hc Hin. by apply (Hfresh c). }
    pose proof (merge_left_rows _ _ _ _ _ _ H) as (Hc & _).
    rewrite Hsx, Hrk in Hc. rewrite suffixed_fresh in Hc by done.
    split_and!.
    + by eapply merge_carries.
    + rewrite Hc. apply NoDup_app. split_and!; [done| |].
      * intros c Hin Hc'. by apply (Hfresh c).
      * apply (bool_decide_unpack _). by vm_compute.
    + intros c. rewrite Hc. by intros ?%elem_of_app.
  - injection H as <-. split_and!; [by apply carries_refl|done|by left].
  - injection H as <-. split_and!; [by apply carries_refl|done|by left].
Qed.

Lemma ensure_quantity_price_step f :
  aligned f → NoDup (columns f) →
  carries f (Tablas.ensure_quantity_price f) [] ∧
  NoDup (columns (Tablas.ensure_quantity_price f)) ∧
  ∀ c, c ∈ columns (Tablas.ensure_quantity_price f) →
       c ∈ columns f ∨ c ∈ ["quantity"; "unit_price"].
Proof.
  intros Ha Hnd. unfold Tablas.ensure_quantity_price.
  set (f0 := if negb (has_col f "quantity") && has_col f "qty"
             then assign f "quantity" (cell (columns f) "qty") else f).
  assert (carries f f0 [] ∧ NoDup (columns f0) ∧
          ∀ c, c ∈ columns f0 → c ∈ columns f ∨ c ∈ ["quantity"; "unit_price"])
    as (Hc0 & Hn0 & Hu0).
  { unfold f0. destruct (has_col f "quantity") eqn:Hq; cbn [negb andb];
      [split_and!; [by apply carries_refl|done|by left]|].
    destruct (has_col f "qty"); [|split_and!; [by apply carries_refl|done|by left]].
    apply has_col_false in Hq.
    destruct (assign_step f "quantity" (cell (columns f) "qty") Ha)
      as (_ & Hcols & Hn & _).
    split_and!; [by apply carries_assign_new|by apply Hn|].
    intros c [?| ->]%Hcols; [by left|right; in_list]. }
  pose proof Hc0 as (Ha0 & _).
  destruct (negb (has_col f0 "unit_price") && has_col f0 "price") eqn:Hb;
    [|by split_and!].
  apply andb_prop in Hb as [Hu%negb_true_iff%has_col_false _].
  destruct (assign_step f0 "unit_price" (cell (columns f0) "price") Ha0)
    as (_ & Hcols & Hn & _).
  split_and!.
  - apply (carries_trans f f0 _ [] []); [done|by apply carries_assign_new].
  - by apply Hn.
  - intros c [[?|?]%Hu0| ->]%Hcols; [by left|by right|right; in_list].
Qed.

Lemma compute_measures_step f :
  aligned f → carries f (Tablas.compute_measures cell_mul f) ["line_total"].
Proof.
  intros Ha. unfold Tablas.compute_measures.
  set (f0 := if negb (has_col f "quantity")
             then assign f "quantity" (λ _, VNum 1) else f).
  assert (carries f f0 []) as Hc0.
  { unfold f0. destruct (has_col f "quantity") eqn:Hq; cbn [negb];
      [by apply carries_refl|].
    apply carries_assign_new; [done|by apply has_col_false]. }
  pose proof Hc0 as (Ha0 & _).
  destruct (has_col f0 "unit_price").
  { apply (carries_trans f f0 _ [] ["line_total"]); [done|by apply carries_assign]. }
  destruct (negb (has_col f0 "line_total")).
  - apply (carries_trans f f0 _ [] ["line_total"]); [done|by apply carries_assign].
  - eapply carries_skip; [|done]. by intros x ?%elem_of_nil.
Qed.

(** The joins of the order-line fact, from the frame that enters the
    first one to the frame that leaves the date block. *)
Lemma order_lines_joins f0 dims f1 f2 f3 f4 :
  Tablas.merge_dim f0 (Tablas.customers dims) "customer_sk" "customer_id" = Ok f1 →
  Tablas.merge_dim f1 (Tablas.products dims) "product_sk" "product_id" = Ok f2 →
  Tablas.merge_dim f2 (Tablas.stores dims) "store_sk" "store_id" = Ok f3 →
  match Tablas.dates dims with
  | Some d =>
      if has_col f3 "order_date"
      then Tablas.merge_date parse_datetime f3 d "order_date"
             ["date_sk"; "date"; "date_id"] "order_date_sk"
      else Ok f3
  | None => Ok f3
  end = Ok f4 →
  aligned f0 → NoDup (columns f0) →
  fresh ["customer_sk"; "product_sk"; "store_sk"; "order_date_sk"; "key_0";
         "date_sk"; "date"; "date_id"] f0 →
  aligned f4 ∧
  (∀ c, c ∈ columns f0 → c ∈ columns f4) ∧
  ∀ r, r ∈ rows f0 →
    ∃ r', r' ∈ rows f4 ∧
          same_cells f0 f4 ["order_date"] r r' ∧
          resolved (Tablas.customers dims) "customer_id" "customer_sk" f0 f4 r r' ∧
          resolved (Tablas.products dims) "product_id" "product_sk" f0 f4 r r' ∧
          resolved (Tablas.stores dims) "store_id" "store_sk" f0 f4 r r' ∧
          date_resolved parse_datetime (Tablas.dates dims) None
            "order_date" "order_date_sk" f0 f4 r r'.
Proof.
  intros H1 H2 H3 H4 Ha Hnd Hfresh.
  apply merge_dim_step in H1 as (Ha1 & Hc1 & Hn1 & Hr1);
    [|done|apply Hfresh; in_list|done].
  assert (∀ c, c ∈ columns f1 → c ∈ columns f0 ∨ c ∈ ["customer_sk"]) as Hf1.
  { intros c [?|[-> _]]%Hc1; [by left|right; in_list]. }
  apply merge_dim_step in H2 as (Ha2 & Hc2 & Hn2 & Hr2); [|done| |done]; cycle 1.
  { intros [Hin|Hin]%Hf1; [revert Hin; apply Hfresh; in_list|absurd_in Hin]. }
  assert (∀ c, c ∈ columns f2 →
               c ∈ columns f0 ∨ c ∈ ["customer_sk"; "product_sk"]) as Hf2.
  { intros c [[?|Hin]%Hf1|[-> _]]%Hc2; [by left|right|right; in_list].
    apply list_elem_of_singleton in Hin as ->. in_list. }
  apply merge_dim_step in H3 as (Ha3 & Hc3 & Hn3 & Hr3); [|done| |done]; cycle 1.
  { intros [Hin|Hin]%Hf2; [revert Hin; apply Hfresh; in_list|absurd_in Hin]. }
  assert (∀ c, c ∈ columns f3 →
               c ∈ columns f0 ∨ c ∈ ["customer_sk"; "product_sk"; "store_sk"]) as Hf3.
  { intros c [[?|Hin]%Hf2|[-> _]]%Hc3; [by left|right|right; in_list].
    sub_list Hin. }
  assert (∀ c, c ∈ ["order_date_sk"; "key_0"; "date_sk"; "date"; "date_id"] →
               c ∉ columns f3) as Hfresh3.
  { intros c Hc [Hin|Hin]%Hf3.
    - revert Hin. apply Hfresh. sub_list Hc.
    - repeat (apply elem_of_cons in Hc as [->|Hc]; [absurd_in Hin|]).
      by apply elem_of_nil in Hc. }
  apply (date_block_step f3 (Tablas.dates dims) (has_col f3 "order_date")) in H4
    as (Ha4 & Hsub4 & Hsup4 & Hr4);
    [|by apply has_col_true|done|by apply Hn3, Hn2, Hn1|in_list|in_list
     |apply Hfresh3; in_list|apply Hfresh3; in_list
     |intros c Hc; apply Hfresh3; sub_list Hc|not_in_list|done|done].
  assert (∀ c, c ∈ columns f0 → c ∈ columns f1) as Hsub1
    by (intros c Hc; apply Hc1; by left).
  assert (∀ c, c ∈ columns f1 → c ∈ columns f2) as Hsub2
    by (intros c Hc; apply Hc2; by left).
  assert (∀ c, c ∈ columns f2 → c ∈ columns f3) as Hsub3
    by (intros c Hc; apply Hc3; by left).
  split_and!; [done|by auto|].
  intros r Hr.
  destruct (Hr1 r Hr) as (r1 & Hin1 & Hs1 & Hk1).
  destruct (Hr2 r1 Hin1) as (r2 & Hin2 & Hs2 & Hk2).
  destruct (Hr3 r2 Hin2) as (r3 & Hin3 & Hs3 & Hk3).
  destruct (Hr4 r3 Hin3) as (r4 & Hin4 & Hs4 & Hk4).
  assert (∀ c, c ∈ columns f0 → cell (columns f1) c r1 = cell (columns f0) c r)
    as Hcell1.
  { intros c Hc. apply Hs1; [done|by apply Hsub1|apply not_elem_of_nil]. }
  assert (∀ c, c ∈ columns f1 → cell (columns f2) c r2 = cell (columns f1) c r1)
    as Hcell2.
  { intros c Hc. apply Hs2; [done|by apply Hsub2|apply not_elem_of_nil]. }
  assert (∀ c, c ∈ columns f2 → cell (columns f3) c r3 = cell (columns f2) c r2)
    as Hcell3.
  { intros c Hc. apply Hs3; [done|by apply Hsub3|apply not_elem_of_nil]. }
  assert (∀ c, c ∈ columns f3 → c ≠ "order_date" →
               cell (columns f4) c r4 = cell (columns f3) c r3) as Hcell4.
  { intros c Hc Hne. apply Hs4; [done|by apply Hsub4|].
    by intros ->%list_elem_of_singleton. }
  exists r4. split_and!; [done| | | | |].
  - intros c Hcs Hcf Hskip. rewrite Hcell4, Hcell3, Hcell2, Hcell1; auto.
    intros ->. apply Hskip. left.
  - intros d Hd _ Hkey.
    assert ("customer_sk" ∈ columns f1) as Hin by (apply Hc1; right; eauto).
    split; [by auto|]. rewrite Hcell4, Hcell3, Hcell2 by auto. by apply Hk1.
  - intros d Hd _ Hkey.
    assert ("product_sk" ∈ columns f2) as Hin.
    { apply Hc2; right. split_and!; eauto. }
    split; [by auto|]. rewrite Hcell4, Hcell3 by auto.
    rewrite <- (Hcell1 "product_id") by done. apply Hk2; auto.
  - intros d Hd _ Hkey.
    assert ("store_sk" ∈ columns f3) as Hin.
    { apply Hc3; right. split_and!; eauto. }
    split; [by auto|]. rewrite Hcell4 by auto.
    rewrite <- (Hcell1 "store_id"), <- (Hcell2 "store_id") by auto.
    apply Hk3; auto.
  - intros d Hd _ _ Hcol.
    destruct (Hk4 d Hd) as [Hin Hkey]; [apply has_col_true; auto|].
    split; [done|].
    rewrite <- (Hcell1 "order_date"), <- (Hcell2 "order_date"),
      <- (Hcell3 "order_date") by auto. done.
Qed.

(** A resolved axis, read from an earlier frame to a later one. *)
Lemma resolved_between dim key sk a b c d ra rb rc rd :
  (key ∈ columns a → key ∈ columns b ∧ cell (columns b) key rb = cell (columns a) key ra) →
  (sk ∈ columns c → sk ∈ columns d ∧ cell (columns d) sk rd = cell (columns c) sk rc) →
  resolved dim key sk b c rb rc → resolved dim key sk a d ra rd.
Proof.
  intros Hkey Hsk H x Hx Hnd Hin. destruct (Hkey Hin) as [Hb <-].
  destruct (H x Hx Hnd Hb) as [Hc Hv]. destruct (Hsk Hc) as [Hd ->]. done.
Qed.

Lemma date_resolved_between dates col sk a b c d ra rb rc rd :
  (col ∈ columns a → col ∈ columns b ∧ cell (columns b) col rb = cell (columns a) col ra) →
  (sk ∈ columns c → sk ∈ columns d ∧ cell (columns d) sk rd = cell (columns c) sk rc) →
  date_resolved parse_datetime dates None col sk b c rb rc →
  date_resolved parse_datetime dates None col sk a d ra rd.
Proof.
  intros Hkey Hsk H x Hx Hnd Hg Hin. destruct (Hkey Hin) as [Hb <-].
  destruct (H x Hx Hnd) as [Hc Hv]; [done..|]. destruct (Hsk Hc) as [Hd ->]. done.
Qed.

Lemma fact_order_lines_resolved items orders dims fact :
  Tablas.fact_order_lines parse_datetime cell_mul items orders dims = Ok fact →
  aligned items → NoDup (columns items) →
  fresh ["order_date"; "customer_id"; "store_id"; "customer_sk"; "product_sk";
         "store_sk"; "order_date_sk"; "key_0"; "date_sk"; "date"; "date_id"] items →
  ∃ h, Tablas.merge_header items orders = Ok h ∧
    ∀ r, r ∈ rows items →
      ∃ r0 r', r0 ∈ rows h ∧ r' ∈ rows fact ∧
        same_cells items h [] r r0 ∧
        same_cells h fact ["order_date"; "line_total"] r0 r' ∧
        resolved (Tablas.customers dims) "customer_id" "customer_sk" h fact r0 r' ∧
        resolved (Tablas.products dims) "product_id" "product_sk" h fact r0 r' ∧
        resolved (Tablas.stores dims) "store_id" "store_sk" h fact r0 r' ∧
        date_resolved parse_datetime (Tablas.dates dims) None
          "order_date" "order_date_sk" h fact r0 r'.
Proof.
  intros H Ha Hnd Hfresh. unfold Tablas.fact_order_lines in H.
  destruct (Tablas.order_lines _ _ _ _ _) as [f5|] eqn:Hol; [|done].
  cbn [mbind result_bind] in H. unfold Tablas.order_lines in Hol.
  destruct (Tablas.merge_header items orders) as [h|] eqn:Hh; [|done].
  cbn [mbind result_bind] in Hol.
  destruct (Tablas.merge_dim _ (Tablas.customers dims) _ _) as [f1|] eqn:H1; [|done].
  cbn [mbind result_bind] in Hol.
  destruct (Tablas.merge_dim f1 _ _ _) as [f2|] eqn:H2; [|done].
  cbn [mbind result_bind] in Hol.
  destruct (Tablas.merge_dim f2 _ _ _) as [f3|] eqn:H3; [|done].
  cbn [mbind result_bind] in Hol.
  destruct (match Tablas.dates dims with Some _ => _ | None => _ end)
    as [f4|] eqn:H4; [|done].
  cbn [mbind result_bind] in Hol. injection Hol as <-.
  exists h. split; [done|].
  apply merge_header_step in Hh as ((Hah & Hsubh & Hrh) & Hnh & Huh);
    [|done|done|intros c Hc; apply Hfresh; sub_list Hc].
  destruct (ensure_quantity_price_step h Hah Hnh) as ((Ha0 & Hsub0 & Hr0) & Hn0 & Hu0).
  set (f0 := Tablas.ensure_quantity_price h) in *.
  assert (∀ c, c ∈ ["customer_sk"; "product_sk"; "store_sk"; "order_date_sk";
                    "key_0"; "date_sk"; "date"; "date_id"] → c ∉ columns h) as Hfh.
  { intros c Hc [Hin|Hin]%Huh.
    - revert Hin. apply Hfresh. sub_list Hc.
    - repeat (apply elem_of_cons in Hc as [->|Hc]; [absurd_in Hin|]).
      by apply elem_of_nil in Hc. }
  assert (fresh ["customer_sk"; "product_sk"; "store_sk"; "order_date_sk"; "key_0";
                 "date_sk"; "date"; "date_id"] f0) as Hf0.
  { intros c Hc [Hin|Hin]%Hu0.
    - by apply (Hfh c).
    - repeat (apply elem_of_cons in Hc as [->|Hc]; [absurd_in Hin|]).
      by apply elem_of_nil in Hc. }
  destruct (order_lines_joins f0 dims f1 f2 f3 f4 H1 H2 H3 H4 Ha0 Hn0 Hf0)
    as (Ha4 & Hsub4 & Hr4).
  destruct (compute_measures_step f4 Ha4) as (Ha5 & Hsub5 & Hr5).
  apply select_fact_step in H as [Hcols Hsel].
  intros r Hr.
  destruct (Hrh r Hr) as (rh & Hinh & Hsh).
  destruct (Hr0 rh Hinh) as (r0 & Hin0 & Hs0).
  destruct (Hr4 r0 Hin0) as (r4 & Hin4 & Hs4 & Hkc & Hkp & Hks & Hkd).
  destruct (Hr5 r4 Hin4) as (r5 & Hin5 & Hs5).
  destruct (Hsel r5 Hin5) as (r6 & Hin6 & Hc6).
  assert (∀ c, c ∈ columns h → cell (columns f0) c r0 = cell (columns h) c rh) as Hcell0.
  { intros c Hc. apply Hs0; [done|by apply Hsub0|apply not_elem_of_nil]. }
  assert (∀ c, c ∈ columns f4 → c ∈ ["order_date_sk"; "customer_sk"; "product_sk";
                                     "store_sk"] →
               c ∈ columns fact ∧
               cell (columns fact) c r6 = cell (columns f4) c r4) as Hkeys.
  { intros c Hc Hl.
    assert (c ∈ columns fact) as Hcf.
    { apply Hcols. split; [sub_list Hl|by apply Hsub5]. }
    split; [done|]. rewrite Hc6 by done. apply Hs5; [done|by apply Hsub5|].
    intros Hin. apply list_elem_of_singleton in Hin as ->. absurd_in Hl. }
  assert (∀ c, c ∈ columns h → c ∈ columns f0 ∧
               cell (columns f0) c r0 = cell (columns h) c rh) as Hnat.
  { intros c Hc. split; [by apply Hsub0|by apply Hcell0]. }
  exists rh, r6. split_and!; [done|done|done| | | | |].
  - intros c Hch Hcf Hskip. rewrite Hc6 by done.
    apply not_elem_of_cons in Hskip as [Hne1 Hskip].
    apply not_elem_of_cons in Hskip as [Hne2 _].
    rewrite <- Hcell0 by done.
    assert (c ∈ columns f4) as Hc4 by auto.
    rewrite <- (Hs4 c); [|by auto|done|by intros ->%list_elem_of_singleton].
    apply Hs5; [done|by apply Hsub5|by intros ->%list_elem_of_singleton].
  - eapply resolved_between; [apply Hnat| |exact Hkc]. intros Hin.
    apply Hkeys; [done|in_list].
  - eapply resolved_between; [apply Hnat| |exact Hkp]. intros Hin.
    apply Hkeys; [done|in_list].
  - eapply resolved_between; [apply Hnat| |exact Hks]. intros Hin.
    apply Hkeys; [done|in_list].
  - eapply date_resolved_between; [apply Hnat| |exact Hkd]. intros Hin.
    apply Hkeys; [done|in_list].
Qed.
End FactSteps.

(** ** The order lines of [desnormalizar.py] *)

Lemma suffixed_empty other cs : suffixed other "" cs = cs.
Proof.
  unfold suffixed. rewrite <- (list_fmap_id cs) at 2. apply list_fmap_ext.
  intros _ c _. simpl. destruct (decide (c ∈ other)); [apply append_nil_r|done].
Qed.

Lemma assign_col_cells df c vals r :
  aligned df → length vals = len df → r ∈ rows df →
  ∃ r', r' ∈ rows (assign_col df c vals) ∧
        ∀ c', c' ≠ c →
              cell (columns (assign_col df c vals)) c' r' = cell (columns df) c' r.
Proof.
  intros Ha Hl Hr. pose proof (aligned_elem _ _ Ha Hr) as Hlen.
  apply list_elem_of_lookup in Hr as [n Hn].
  destruct (lookup_lt_is_Some_2 vals n) as [v Hv].
  { rewrite Hl. unfold len. by eapply lookup_lt_Some. }
  unfold assign_col.
  destruct (index_of c (columns df)) as [i|] eqn:Hi; cbn [columns rows].
  - exists (<[i := v]> r). split.
    + apply list_elem_of_lookup. exists n. rewrite lookup_zip_with, Hn. simpl.
      by rewrite Hv.
    + intros c' Hne. unfold cell.
      destruct (index_of c' (columns df)) as [j|] eqn:Hj; [|done].
      rewrite list_lookup_insert_ne; [done|].
      intros ->. apply index_of_Some in Hi as [Hi _].
      apply index_of_Some in Hj as [Hj _]. congruence.
  - apply index_of_None in Hi. exists (r ++ [v]). split.
    + apply list_elem_of_lookup. exists n. rewrite lookup_zip_with, Hn. simpl.
      by rewrite Hv.
    + intros c' Hne. destruct (decide (c' ∈ columns df)) as [Hin|Hnin].
      * by rewrite cell_app_l.
      * rewrite cell_app_r by done. rewrite (cell_absent (columns df)) by done.
        apply cell_absent. by intros ->%list_elem_of_singleton.
Qed.

Lemma carries_assign_checked df c g d :
  assign_checked df c g = Ok d → aligned df → carries df d [c].
Proof.
  intros (vals & _ & -> & Hl)%assign_checked_Ok Ha. split_and!.
  - by apply aligned_assign_col.
  - intros x. apply columns_assign_col_incl.
  - intros r Hr. destruct (assign_col_cells df c vals r Ha Hl Hr) as (r' & Hin & Hc).
    exists r'. split; [done|]. intros x _ _ Hx. apply Hc.
    intros ->. apply Hx. left.
Qed.

Section DesnormalizarRows.
Context (parse_datetime : string → option Z).
Context (cell_mul : value → value → value).

Lemma desnormalizar_merge_dim_carries df dim key sfx df' :
  Desnormalizar.merge_dim df dim key sfx = Ok df' → aligned df → carries df df' [].
Proof.
  unfold Desnormalizar.merge_dim. intros H Ha.
  destruct dim as [d|]; [destruct (has_col df key)|].
  - eapply merge_carries; [done..|]. apply suffixed_empty.
  - injection H as <-. by apply carries_refl.
  - injection H as <-. by apply carries_refl.
Qed.

Lemma add_date_id_carries df df' :
  Desnormalizar.add_date_id parse_datetime df = Ok df' → aligned df →
  carries df df' ["order_date"; "date_id"].
Proof.
  unfold Desnormalizar.add_date_id. intros H Ha.
  destruct (has_col df "order_date"); [|destruct (has_col df "date")].
  - destruct (assign_checked df "order_date" _) as [d1|] eqn:H1; [|done].
    cbn [mbind result_bind] in H.
    pose proof (carries_assign_checked _ _ _ _ H1 Ha) as Hc1.
    pose proof Hc1 as (Ha1 & _).
    apply (carries_trans df d1 df' ["order_date"] ["date_id"]); [done|].
    by eapply carries_assign_checked.
  - eapply carries_skip; [|by eapply carries_assign_checked].
    intros x ->%list_elem_of_singleton. in_list.
  - injection H as <-. by apply carries_refl.
Qed.

Lemma measures_carries df :
  aligned df →
  carries df (Desnormalizar.measures cell_mul df) ["quantity"; "unit_price"; "line_total"].
Proof.
  intros Ha. unfold Desnormalizar.measures. cbv zeta.
  set (d1 := assign df "quantity" _).
  assert (carries df d1 ["quantity"]) as H1 by by apply carries_assign.
  pose proof H1 as (Ha1 & _).
  destruct (Desnormalizar.first_column df ["price"; _; _; _]) as [c|].
  - set (d2 := assign d1 "unit_price" _).
    assert (carries d1 d2 ["unit_price"]) as H2 by by apply carries_assign.
    pose proof H2 as (Ha2 & _).
    apply (carries_trans df d2 _ ["quantity"; "unit_price"] ["line_total"]);
      [|by apply carries_assign].
    by apply (carries_trans df d1 d2 ["quantity"] ["unit_price"]).
  - set (d2 := assign d1 "unit_price" _).
    assert (carries d1 d2 ["unit_price"]) as H2 by by apply carries_assign.
    pose proof H2 as (Ha2 & _).
    apply (carries_trans df d2 _ ["quantity"; "unit_price"] ["line_total"]);
      [|by apply carries_assign].
    by apply (carries_trans df d1 d2 ["quantity"] ["unit_price"]).
Qed.

Lemma fact_order_lineitems_kept orders items dims fact :
  Desnormalizar.fact_order_lineitems parse_datetime cell_mul orders items dims
  = Ok fact →
  aligned items → NoDup (columns items) →
  (∀ c, c ∈ columns items → c ∈ columns orders → c = "order_id") →
  ∀ r, r ∈ rows items →
    ∃ r', r' ∈ rows fact ∧
          same_cells items fact
            ["order_date"; "date_id"; "quantity"; "unit_price"; "line_total"] r r'.
Proof.
  intros H Ha _ Hapart. unfold Desnormalizar.fact_order_lineitems in H.
  destruct (Desnormalizar.order_lineitems _ _ _ _ _) as [df|] eqn:Hol; [|done].
  cbn [mbind result_bind] in H. rewrite select_filter_has in H.
  cbn [mbind result_bind] in H. injection H as <-.
  unfold Desnormalizar.order_lineitems in Hol.
  destruct (merge items orders _ _ _ _) as [d0|] eqn:H0; [|done].
  cbn [mbind result_bind] in Hol.
  destruct (Desnormalizar.merge_dim d0 _ _ _) as [d1|] eqn:H1; [|done].
  cbn [mbind result_bind] in Hol.
  destruct (Desnormalizar.merge_dim d1 _ _ _) as [d2|] eqn:H2; [|done].
  cbn [mbind result_bind] in Hol.
  destruct (Desnormalizar.merge_dim d2 _ _ _) as [d3|] eqn:H3; [|done].
  cbn [mbind result_bind] in Hol.
  destruct (match Desnormalizar.dates dims with Some _ => _ | None => _ end)
    as [d4|] eqn:H4; [|done].
  cbn [mbind result_bind] in Hol. injection Hol as <-.
  assert (carries items d0 []) as C0.
  { eapply merge_carries; [done..|]. apply suffixed_fresh.
    intros c Hc [Hne Hin]%list_elem_of_filter. by apply Hne, Hapart. }
  pose proof C0 as (A0 & _).
  pose proof (desnormalizar_merge_dim_carries _ _ _ _ _ H1 A0) as C1.
  pose proof C1 as (A1 & _).
  pose proof (desnormalizar_merge_dim_carries _ _ _ _ _ H2 A1) as C2.
  pose proof C2 as (A2 & _).
  pose proof (desnormalizar_merge_dim_carries _ _ _ _ _ H3 A2) as C3.
  pose proof C3 as (A3 & _).
  assert (carries d3 d4 ["order_date"; "date_id"]) as C4.
  { destruct (Desnormalizar.dates dims); [by eapply add_date_id_carries|].
    injection H4 as <-. by apply carries_refl. }
  pose proof C4 as (A4 & _).
  pose proof (measures_carries d4 A4) as C5.
  pose proof (carries_trans _ _ _ _ _ C0 C1) as C01.
  pose proof (carries_trans _ _ _ _ _ C01 C2) as C02.
  pose proof (carries_trans _ _ _ _ _ C02 C3) as C03.
  pose proof (carries_trans _ _ _ _ _ C03 C4) as C04.
  pose proof (carries_trans _ _ _ _ _ C04 C5) as (_ & Hsub & Hrows).
  intros r Hr. destruct (Hrows r Hr) as (r5 & Hin5 & Hs5).
  set (m := Desnormalizar.measures cell_mul d4) in *.
  set (preserve := filter (λ c, has_col m c) _).
  exists (project (columns m) preserve r5). split.
  - apply drop_duplicates_elem. cbn [rows]. by apply list_elem_of_fmap_2.
  - intros c Hci Hcf Hskip. unfold drop_duplicates in Hcf |- *.
    cbn [columns] in Hcf |- *. rewrite cell_project by done.
    apply Hs5; [done|by apply Hsub|done].
Qed.
End DesnormalizarRows.

(** C1, as the code has it.  Every join of a fact with a dimension is a left
    join, in [build_facts] of [tablas.py] and in the order-line fact of
    [desnormalizar.py].  Whenever a fact builder returns, on a source
    whose labels are distinct and are not labels that the joins add:
    - every row of the staged source has a row in the fact that agrees
      with it on the columns the fact keeps from the source;
    - for each axis that is joined (customer, product, store, date), the
      fact has the surrogate key column, and that row holds in it the
      surrogate key of a dimension row whose natural key is the one of the
      source row (for the date, whose date is the day of the row's
      timestamp), or null when the dimension has no such row;
    - for the order lines, the natural keys of the customer, store and date
      axes are those of the order line joined with its order header.
    The rows are not kept one by one: the fact is deduplicated on the
    columns it keeps, so source rows that agree on them, such as two
    lines of one order for two products that are both unknown, become one
    fact row. *)
Theorem C1_left_joins_resolve_keys (parse_datetime : string → option Z)
    (cell_mul : value → value → value) :
  dated_rows_resolved parse_datetime (Tablas.fact_payments parse_datetime)
    (Some "order_id") "created_at" "payment_date_sk"
  ∧ dated_rows_resolved parse_datetime (Tablas.fact_shipments parse_datetime)
      (Some "order_id") "shipped_at" "shipped_date_sk"
  ∧ dated_rows_resolved parse_datetime (Tablas.fact_web_sessions parse_datetime)
      None "started_at" "session_date_sk"
  ∧ dated_rows_resolved parse_datetime (Tablas.fact_nps parse_datetime)
      None "response_date" "response_date_sk"
  ∧ (∀ orders dims fact,
       Tablas.fact_orders parse_datetime orders dims = Ok fact →
       aligned orders → NoDup (columns orders) →
       fresh ["customer_sk"; "store_sk"; "order_date_sk"; "key_0"; "date_sk"; "date"]
             orders →
       ∀ r, r ∈ rows orders →
         ∃ r', r' ∈ rows fact ∧
               same_cells orders fact ["order_date"] r r' ∧
               resolved (Tablas.customers dims) "customer_id" "customer_sk"
                 orders fact r r' ∧
               resolved (Tablas.stores dims) "store_id" "store_sk"
                 orders fact r r' ∧
               date_resolved parse_datetime (Tablas.dates dims) None
                 "order_date" "order_date_sk" orders fact r r')
  ∧ (∀ items orders dims fact,
       Tablas.fact_order_lines parse_datetime cell_mul items orders dims = Ok fact →
       aligned items → NoDup (columns items) →
       fresh ["order_date"; "customer_id"; "store_id"; "customer_sk"; "product_sk";
              "store_sk"; "order_date_sk"; "key_0"; "date_sk"; "date"; "date_id"]
             items →
       ∃ h, Tablas.merge_header items orders = Ok h ∧
         ∀ r, r ∈ rows items →
           ∃ r0 r', r0 ∈ rows h ∧ r' ∈ rows fact ∧
             same_cells items h [] r r0 ∧
             same_cells h fact ["order_date"; "line_total"] r0 r' ∧
             resolved (Tablas.customers dims) "customer_id" "customer_sk"
               h fact r0 r' ∧
             resolved (Tablas.products dims) "product_id" "product_sk"
               h fact r0 r' ∧
             resolved (Tablas.stores dims) "store_id" "store_sk" h fact r0 r' ∧
             date_resolved parse_datetime (Tablas.dates dims) None
               "order_date" "order_date_sk" h fact r0 r')
  ∧ (∀ orders items dims fact,
       Desnormalizar.fact_order_lineitems parse_datetime cell_mul orders items dims
       = Ok fact →
       aligned items → NoDup (columns items) →
       (∀ c, c ∈ columns items → c ∈ columns orders → c = "order_id") →
       ∀ r, r ∈ rows items →
         ∃ r', r' ∈ rows fact ∧
               same_cells items fact
                 ["order_date"; "date_id"; "quantity"; "unit_price"; "line_total"]
                 r r').
Proof.
  split_and!.
  - apply (dated_fact_resolved parse_datetime (Some "order_id")); [in_list|done..].
  - apply (dated_fact_resolved parse_datetime (Some "order_id")); [in_list|done..].
  - apply (dated_fact_resolved parse_datetime None); [in_list|done..].
  - apply (dated_fact_resolved parse_datetime None); [in_list|done..].
  - apply fact_orders_resolved.
  - apply fact_order_lines_resolved.
  - apply fact_order_lineitems_kept.
Qed.

Lemma C1_left_joins_resolve_keys_witness :
  ∃ h,
    Tablas.merge_header
      (mkDF ["order_id"; "product_id"; "quantity"; "unit_price"]
            [[VNum 100; VNum 8; VNum 2; VNum 10];
             [VNum 100; VNum 9; VNum 2; VNum 10]]) None = Ok h ∧
    ∀ r,
      r ∈ [[VNum 100; VNum 8; VNum 2; VNum 10]; [VNum 100; VNum 9; VNum 2; VNum 10]] →
      ∃ r0 r',
        r0 ∈ rows h ∧
        r' ∈ [[VNum 100; VNull; VNum 2; VNum 10; VNum 20]] ∧
        same_cells
          (mkDF ["order_id"; "product_id"; "quantity"; "unit_price"]
                [[VNum 100; VNum 8; VNum 2; VNum 10];
                 [VNum 100; VNum 9; VNum 2; VNum 10]])
          h [] r r0 ∧
        same_cells h
          (mkDF ["order_id"; "product_sk"; "quantity"; "unit_price"; "line_total"]
                [[VNum 100; VNull; VNum 2; VNum 10; VNum 20]])
          ["order_date"; "line_total"] r0 r' ∧
        resolved None "customer_id" "customer_sk" h
          (mkDF ["order_id"; "product_sk"; "quantity"; "unit_price"; "line_total"]
                [[VNum 100; VNull; VNum 2; VNum 10; VNum 20]]) r0 r' ∧
        resolved
          (Some (mkDF ["product_sk"; "product_id"; "name"]
                      [[VNum 1; VNum 1; VStr "pan"]]))
          "product_id" "product_sk" h
          (mkDF ["order_id"; "product_sk"; "quantity"; "unit_price"; "line_total"]
                [[VNum 100; VNull; VNum 2; VNum 10; VNum 20]]) r0 r' ∧
        resolved None "store_id" "store_sk" h
          (mkDF ["order_id"; "product_sk"; "quantity"; "unit_price"; "line_total"]
                [[VNum 100; VNull; VNum 2; VNum 10; VNum 20]]) r0 r' ∧
        date_resolved no_parse None None "order_date" "order_date_sk" h
          (mkDF ["order_id"; "product_sk"; "quantity"; "unit_price"; "line_total"]
                [[VNum 100; VNull; VNum 2; VNum 10; VNum 20]]) r0 r'.
Proof.
  refine (proj1 (proj2 (proj2 (proj2 (proj2 (proj2
            (C1_left_joins_resolve_keys no_parse int_mul))))))
            (mkDF ["order_id"; "product_id"; "quantity"; "unit_price"]
                  [[VNum 100; VNum 8; VNum 2; VNum 10];
                   [VNum 100; VNum 9; VNum 2; VNum 10]])
            None
            (Tablas.mkDims None
               (Some (mkDF ["product_sk"; "product_id"; "name"]
                           [[VNum 1; VNum 1; VStr "pan"]]))
               None None None None)
            (mkDF ["order_id"; "product_sk"; "quantity"; "unit_price"; "line_total"]
                  [[VNum 100; VNull; VNum 2; VNum 10; VNum 20]]) _ _ _ _).
  - vm_compute; reflexivity.
  - apply Forall_forall. intros r Hr.
    repeat (apply elem_of_cons in Hr as [->|Hr]; [reflexivity|]).
    by apply elem_of_nil in Hr.
  - apply (bool_decide_unpack _). by vm_compute.
  - intros c Hc.
    repeat (apply elem_of_cons in Hc as [->|Hc];
            [apply (bool_decide_unpack _); by vm_compute|]).
    by apply elem_of_nil in Hc.
Defined.

(** C1 fails as stated.  The two staged order lines of
    [unknown_products], for the products 8 and 9, neither of which is in
    the products table, leave one row in [fact_order_lines]: both get a
    null [product_sk], [product_id] is not a column of the fact, and
    [drop_duplicates] keeps one of the two equal rows (lines 236-237).
    With both products in the table ([known_products]) the same lines
    leave two rows: a line is lost because its product has no match. *)
Lemma C1_unmatched_lines_become_one_row :
  (Tablas.main no_parse int_mul unknown_products).1 = Ok ()
  ∧ staged unknown_products "order_items"
    = Some (mkDF ["order_id"; "product_id"; "quantity"; "unit_price"]
                 [[VNum 100; VNum 8; VNum 2; VNum 10];
                  [VNum 100; VNum 9; VNum 2; VNum 10]])
  ∧ staged known_products "order_items" = staged unknown_products "order_items"
  ∧ dwh_dir (Tablas.main no_parse int_mul unknown_products).2
      !! "fact_order_lines.parquet"
    = Some (mkDF ["order_id"; "product_sk"; "quantity"; "unit_price"; "line_total"]
                 [[VNum 100; VNull; VNum 2; VNum 10; VNum 20]])
  ∧ dwh_dir (Tablas.main no_parse int_mul known_products).2
      !! "fact_order_lines.parquet"
    = Some (mkDF ["order_id"; "product_sk"; "quantity"; "unit_price"; "line_total"]
                 [[VNum 100; VNum 1; VNum 2; VNum 10; VNum 20];
                  [VNum 100; VNum 2; VNum 2; VNum 10; VNum 20]]).
Proof. by vm_compute. Qed.
